(** * SnipeIT Ansible modules: a shallow embedding and its properties

    The development follows the four Python files of the collection:

    - [plugins/module_utils/snipeit.py]   : the lookups [get_category],
      [get_model], [get_entry];
    - [plugins/modules/snipeit_category.py] : [create_category], [run_module];
    - [plugins/modules/snipeit_model.py]    : [create_model], [run_module];
    - [plugins/modules/snipeit_entry.py]    : [create_entry], [delete_entry],
      [update_entry_model], [update_entry_status_label], [verify_params],
      [run_module].

    The code is a chain of HTTP requests whose continuation depends on the
    decoded JSON answer.  It is embedded as a value of the type [prog]: a tree
    whose nodes are the requests the code issues and whose leaves are the ways
    a run ends (a returned value, [module.fail_json], [module.exit_json], an
    uncaught Python exception).  A server is any state machine answering
    requests; [run] plays a program against it and records the exchanges.

    The transport is taken to deliver an answer to every request; its body is
    either a JSON document, given as the Python object [json.loads] builds, or
    text that [json.loads] rejects.  Strings are held in UTF-8, and the
    numbers of a document are integers. *)

From Stdlib Require Import String Ascii List ZArith Bool Lia DecimalString.
Import ListNotations.
Local Open Scope list_scope.
Local Open Scope string_scope.

(** ** Python values and the builtins the code relies on *)

Module Py.

(** The uncaught exceptions the code can raise. *)
Inductive exn : Type :=
| KeyError (key : string)
| TypeError
| IndexError
| AttributeError
| JSONDecodeError.

(** Association lists stand for dictionaries: bindings in insertion order,
    one binding per key, as [json.loads] and dict literals build them. *)
Fixpoint assoc {A : Type} (k : string) (d : list (string * A)) : option A :=
  match d with
  | [] => None
  | (k', v) :: d' => if String.eqb k k' then Some v else assoc k d'
  end.

(** [d[k] = v] on a dictionary: overwrite in place, or append a new binding. *)
Fixpoint assoc_set {A : Type} (k : string) (v : A) (d : list (string * A))
  : list (string * A) :=
  match d with
  | [] => [(k, v)]
  | (k', v') :: d' =>
      if String.eqb k k' then (k', v) :: d' else (k', v') :: assoc_set k v d'
  end.

(** What [json.loads] produces, and what the code passes around.  JSON numbers
    are integers here (ids, totals); [None] is [PNone]. *)
#[local] Set Warnings "-register-all".
Inductive value : Type :=
| PNone
| PBool (b : bool)
| PInt (z : Z)
| PStr (s : string)
| PList (l : list value)
| PDict (d : list (string * value)).

(** Truth value of an object, as [if x:] and [not x] test it. *)
Definition truthy (v : value) : bool :=
  match v with
  | PNone => false
  | PBool b => b
  | PInt z => negb (Z.eqb z 0)
  | PStr s => negb (String.eqb s "")
  | PList l => match l with [] => false | _ => true end
  | PDict d => match d with [] => false | _ => true end
  end.

(** [a == b].  [bool] is a subclass of [int], so [True == 1]; dictionaries
    compare without regard to order. *)
Fixpoint eq (a b : value) {struct a} : bool :=
  match a, b with
  | PNone, PNone => true
  | PBool x, PBool y => Bool.eqb x y
  | PBool x, PInt y => Z.eqb (Z.b2z x) y
  | PInt x, PBool y => Z.eqb x (Z.b2z y)
  | PInt x, PInt y => Z.eqb x y
  | PStr x, PStr y => String.eqb x y
  | PList l, PList m =>
      (fix go (l m : list value) {struct l} : bool :=
         match l, m with
         | [], [] => true
         | x :: l', y :: m' => eq x y && go l' m'
         | _, _ => false
         end) l m
  | PDict d, PDict e =>
      Nat.eqb (length d) (length e) &&
      (fix go (d : list (string * value)) : bool :=
         match d with
         | [] => true
         | (k, v) :: d' =>
             match assoc k e with
             | Some w => eq v w
             | None => false
             end && go d'
         end) d
  | _, _ => false
  end.

(** [x[key]] with a string key. *)
Definition getitem (x : value) (key : string) : exn + value :=
  match x with
  | PDict d =>
      match assoc key d with
      | Some v => inr v
      | None => inl (KeyError key)
      end
  | _ => inl TypeError
  end.

(** Strings are held in UTF-8: a character is one byte below 128, or a lead
    byte followed by one to three continuation bytes (128 to 191). *)
Definition continuation (c : ascii) : bool :=
  let n := N_of_ascii c in N.leb 128 n && N.ltb n 192.

(** For a lead byte: how many continuation bytes follow, and the bits of the
    code point the lead byte itself holds. *)
Definition lead (c : ascii) : option (nat * N) :=
  let n := N_of_ascii c in
  if N.ltb n 192 then None
  else if N.ltb n 224 then Some (1, (n - 192)%N)
  else if N.ltb n 240 then Some (2, (n - 224)%N)
  else if N.ltb n 248 then Some (3, (n - 240)%N)
  else None.

Fixpoint take_continuation (k : nat) (s : string) : string :=
  match k, s with
  | S k', String c s' =>
      if continuation c then String c (take_continuation k' s')
      else EmptyString
  | _, _ => EmptyString
  end.

(** The first character of a string that is not empty. *)
Definition first_char (c : ascii) (s : string) : string :=
  match lead c with
  | Some (k, _) => String c (take_continuation k s)
  | None => String c EmptyString
  end.

(** [x[0]]: the first element of a list or the first character of a string;
    a dictionary decoded from JSON has only string keys. *)
Definition getitem0 (x : value) : exn + value :=
  match x with
  | PList [] => inl IndexError
  | PList (v :: _) => inr v
  | PStr EmptyString => inl IndexError
  | PStr (String c s) => inr (PStr (first_char c s))
  | PDict _ => inl (KeyError "0")
  | _ => inl TypeError
  end.

(** [key in x.keys()]. *)
Definition in_keys (key : string) (x : value) : exn + bool :=
  match x with
  | PDict d => inr (match assoc key d with Some _ => true | None => false end)
  | _ => inl AttributeError
  end.

(** [s.rstrip(c)] for a single character [c]. *)
Fixpoint rstrip (c : ascii) (s : string) : string :=
  match s with
  | EmptyString => EmptyString
  | String a s' =>
      match rstrip c s' with
      | EmptyString =>
          if Ascii.eqb a c then EmptyString else String a EmptyString
      | r => String a r
      end
  end.

(** *** Formatting: [str] and [repr], as f-strings use them *)

Definition squote : ascii := "039"%char.
Definition dquote : ascii := "034"%char.
Definition backslash : ascii := "092"%char.

Fixpoint mem_char (c : ascii) (s : string) : bool :=
  match s with
  | EmptyString => false
  | String a s' => Ascii.eqb a c || mem_char c s'
  end.

Definition hex_digit (n : N) : ascii :=
  ascii_of_N (if N.ltb n 10 then 48 + n else 87 + n)%N.

Definition hex_escape (c : ascii) : string :=
  let n := N_of_ascii c in
  String backslash
    (String "x" (String (hex_digit (N.div n 16))
                        (String (hex_digit (N.modulo n 16)) EmptyString))).

(** One ASCII character of [repr(s)] inside quotes [q]. *)
Definition repr_char (q c : ascii) : string :=
  let n := N_of_ascii c in
  if Ascii.eqb c q || Ascii.eqb c backslash then
    String backslash (String c EmptyString)
  else if N.eqb n 9 then String backslash "t"
  else if N.eqb n 10 then String backslash "n"
  else if N.eqb n 13 then String backslash "r"
  else if N.ltb n 32 || N.eqb n 127 then hex_escape c
  else String c EmptyString.

(** The code points from 128 up that [str.isprintable] rejects, as ranges
    with both ends included: the categories Cc, Cf, Cs, Co, Cn, Zl, Zp and Zs
    of the Unicode database 14.0.0 that CPython 3.11 carries. *)
Definition not_printable : list (N * N) :=
  [(128, 160); (173, 173); (888, 889); (896, 899); (907, 907); (909, 909);
   (930, 930); (1328, 1328); (1367, 1368); (1419, 1420); (1424, 1424);
   (1480, 1487); (1515, 1518); (1525, 1541); (1564, 1564); (1757, 1757);
   (1806, 1807); (1867, 1868); (1970, 1983); (2043, 2044); (2094, 2095);
   (2111, 2111); (2140, 2141); (2143, 2143); (2155, 2159); (2191, 2199);
   (2274, 2274); (2436, 2436); (2445, 2446); (2449, 2450); (2473, 2473);
   (2481, 2481); (2483, 2485); (2490, 2491); (2501, 2502); (2505, 2506);
   (2511, 2518); (2520, 2523); (2526, 2526); (2532, 2533); (2559, 2560);
   (2564, 2564); (2571, 2574); (2577, 2578); (2601, 2601); (2609, 2609);
   (2612, 2612); (2615, 2615); (2618, 2619); (2621, 2621); (2627, 2630);
   (2633, 2634); (2638, 2640); (2642, 2648); (2653, 2653); (2655, 2661);
   (2679, 2688); (2692, 2692); (2702, 2702); (2706, 2706); (2729, 2729);
   (2737, 2737); (2740, 2740); (2746, 2747); (2758, 2758); (2762, 2762);
   (2766, 2767); (2769, 2783); (2788, 2789); (2802, 2808); (2816, 2816);
   (2820, 2820); (2829, 2830); (2833, 2834); (2857, 2857); (2865, 2865);
   (2868, 2868); (2874, 2875); (2885, 2886); (2889, 2890); (2894, 2900);
   (2904, 2907); (2910, 2910); (2916, 2917); (2936, 2945); (2948, 2948);
   (2955, 2957); (2961, 2961); (2966, 2968); (2971, 2971); (2973, 2973);
   (2976, 2978); (2981, 2983); (2987, 2989); (3002, 3005); (3011, 3013);
   (3017, 3017); (3022, 3023); (3025, 3030); (3032, 3045); (3067, 3071);
   (3085, 3085); (3089, 3089); (3113, 3113); (3130, 3131); (3141, 3141);
   (3145, 3145); (3150, 3156); (3159, 3159); (3163, 3164); (3166, 3167);
   (3172, 3173); (3184, 3190); (3213, 3213); (3217, 3217); (3241, 3241);
   (3252, 3252); (3258, 3259); (3269, 3269); (3273, 3273); (3278, 3284);
   (3287, 3292); (3295, 3295); (3300, 3301); (3312, 3312); (3315, 3327);
   (3341, 3341); (3345, 3345); (3397, 3397); (3401, 3401); (3408, 3411);
   (3428, 3429); (3456, 3456); (3460, 3460); (3479, 3481); (3506, 3506);
   (3516, 3516); (3518, 3519); (3527, 3529); (3531, 3534); (3541, 3541);
   (3543, 3543); (3552, 3557); (3568, 3569); (3573, 3584); (3643, 3646);
   (3676, 3712); (3715, 3715); (3717, 3717); (3723, 3723); (3748, 3748);
   (3750, 3750); (3774, 3775); (3781, 3781); (3783, 3783); (3790, 3791);
   (3802, 3803); (3808, 3839); (3912, 3912); (3949, 3952); (3992, 3992);
   (4029, 4029); (4045, 4045); (4059, 4095); (4294, 4294); (4296, 4300);
   (4302, 4303); (4681, 4681); (4686, 4687); (4695, 4695); (4697, 4697);
   (4702, 4703); (4745, 4745); (4750, 4751); (4785, 4785); (4790, 4791);
   (4799, 4799); (4801, 4801); (4806, 4807); (4823, 4823); (4881, 4881);
   (4886, 4887); (4955, 4956); (4989, 4991); (5018, 5023); (5110, 5111);
   (5118, 5119); (5760, 5760); (5789, 5791); (5881, 5887); (5910, 5918);
   (5943, 5951); (5972, 5983); (5997, 5997); (6001, 6001); (6004, 6015);
   (6110, 6111); (6122, 6127); (6138, 6143); (6158, 6158); (6170, 6175);
   (6265, 6271); (6315, 6319); (6390, 6399); (6431, 6431); (6444, 6447);
   (6460, 6463); (6465, 6467); (6510, 6511); (6517, 6527); (6572, 6575);
   (6602, 6607); (6619, 6621); (6684, 6685); (6751, 6751); (6781, 6782);
   (6794, 6799); (6810, 6815); (6830, 6831); (6863, 6911); (6989, 6991);
   (7039, 7039); (7156, 7163); (7224, 7226); (7242, 7244); (7305, 7311);
   (7355, 7356); (7368, 7375); (7419, 7423); (7958, 7959); (7966, 7967);
   (8006, 8007); (8014, 8015); (8024, 8024); (8026, 8026); (8028, 8028);
   (8030, 8030); (8062, 8063); (8117, 8117); (8133, 8133); (8148, 8149);
   (8156, 8156); (8176, 8177); (8181, 8181); (8191, 8207); (8232, 8239);
   (8287, 8303); (8306, 8307); (8335, 8335); (8349, 8351); (8385, 8399);
   (8433, 8447); (8588, 8591); (9255, 9279); (9291, 9311); (11124, 11125);
   (11158, 11158); (11508, 11512); (11558, 11558); (11560, 11564);
   (11566, 11567); (11624, 11630); (11633, 11646); (11671, 11679);
   (11687, 11687); (11695, 11695); (11703, 11703); (11711, 11711);
   (11719, 11719); (11727, 11727); (11735, 11735); (11743, 11743);
   (11870, 11903); (11930, 11930); (12020, 12031); (12246, 12271);
   (12284, 12288); (12352, 12352); (12439, 12440); (12544, 12548);
   (12592, 12592); (12687, 12687); (12772, 12783); (12831, 12831);
   (42125, 42127); (42183, 42191); (42540, 42559); (42744, 42751);
   (42955, 42959); (42962, 42962); (42964, 42964); (42970, 42993);
   (43053, 43055); (43066, 43071); (43128, 43135); (43206, 43213);
   (43226, 43231); (43348, 43358); (43389, 43391); (43470, 43470);
   (43482, 43485); (43519, 43519); (43575, 43583); (43598, 43599);
   (43610, 43611); (43715, 43738); (43767, 43776); (43783, 43784);
   (43791, 43792); (43799, 43807); (43815, 43815); (43823, 43823);
   (43884, 43887); (44014, 44015); (44026, 44031); (55204, 55215);
   (55239, 55242); (55292, 63743); (64110, 64111); (64218, 64255);
   (64263, 64274); (64280, 64284); (64311, 64311); (64317, 64317);
   (64319, 64319); (64322, 64322); (64325, 64325); (64451, 64466);
   (64912, 64913); (64968, 64974); (64976, 65007); (65050, 65055);
   (65107, 65107); (65127, 65127); (65132, 65135); (65141, 65141);
   (65277, 65280); (65471, 65473); (65480, 65481); (65488, 65489);
   (65496, 65497); (65501, 65503); (65511, 65511); (65519, 65531);
   (65534, 65535); (65548, 65548); (65575, 65575); (65595, 65595);
   (65598, 65598); (65614, 65615); (65630, 65663); (65787, 65791);
   (65795, 65798); (65844, 65846); (65935, 65935); (65949, 65951);
   (65953, 65999); (66046, 66175); (66205, 66207); (66257, 66271);
   (66300, 66303); (66340, 66348); (66379, 66383); (66427, 66431);
   (66462, 66462); (66500, 66503); (66518, 66559); (66718, 66719);
   (66730, 66735); (66772, 66775); (66812, 66815); (66856, 66863);
   (66916, 66926); (66939, 66939); (66955, 66955); (66963, 66963);
   (66966, 66966); (66978, 66978); (66994, 66994); (67002, 67002);
   (67005, 67071); (67383, 67391); (67414, 67423); (67432, 67455);
   (67462, 67462); (67505, 67505); (67515, 67583); (67590, 67591);
   (67593, 67593); (67638, 67638); (67641, 67643); (67645, 67646);
   (67670, 67670); (67743, 67750); (67760, 67807); (67827, 67827);
   (67830, 67834); (67868, 67870); (67898, 67902); (67904, 67967);
   (68024, 68027); (68048, 68049); (68100, 68100); (68103, 68107);
   (68116, 68116); (68120, 68120); (68150, 68151); (68155, 68158);
   (68169, 68175); (68185, 68191); (68256, 68287); (68327, 68330);
   (68343, 68351); (68406, 68408); (68438, 68439); (68467, 68471);
   (68498, 68504); (68509, 68520); (68528, 68607); (68681, 68735);
   (68787, 68799); (68851, 68857); (68904, 68911); (68922, 69215);
   (69247, 69247); (69290, 69290); (69294, 69295); (69298, 69375);
   (69416, 69423); (69466, 69487); (69514, 69551); (69580, 69599);
   (69623, 69631); (69710, 69713); (69750, 69758); (69821, 69821);
   (69827, 69839); (69865, 69871); (69882, 69887); (69941, 69941);
   (69960, 69967); (70007, 70015); (70112, 70112); (70133, 70143);
   (70162, 70162); (70207, 70271); (70279, 70279); (70281, 70281);
   (70286, 70286); (70302, 70302); (70314, 70319); (70379, 70383);
   (70394, 70399); (70404, 70404); (70413, 70414); (70417, 70418);
   (70441, 70441); (70449, 70449); (70452, 70452); (70458, 70458);
   (70469, 70470); (70473, 70474); (70478, 70479); (70481, 70486);
   (70488, 70492); (70500, 70501); (70509, 70511); (70517, 70655);
   (70748, 70748); (70754, 70783); (70856, 70863); (70874, 71039);
   (71094, 71095); (71134, 71167); (71237, 71247); (71258, 71263);
   (71277, 71295); (71354, 71359); (71370, 71423); (71451, 71452);
   (71468, 71471); (71495, 71679); (71740, 71839); (71923, 71934);
   (71943, 71944); (71946, 71947); (71956, 71956); (71959, 71959);
   (71990, 71990); (71993, 71994); (72007, 72015); (72026, 72095);
   (72104, 72105); (72152, 72153); (72165, 72191); (72264, 72271);
   (72355, 72367); (72441, 72703); (72713, 72713); (72759, 72759);
   (72774, 72783); (72813, 72815); (72848, 72849); (72872, 72872);
   (72887, 72959); (72967, 72967); (72970, 72970); (73015, 73017);
   (73019, 73019); (73022, 73022); (73032, 73039); (73050, 73055);
   (73062, 73062); (73065, 73065); (73103, 73103); (73106, 73106);
   (73113, 73119); (73130, 73439); (73465, 73647); (73649, 73663);
   (73714, 73726); (74650, 74751); (74863, 74863); (74869, 74879);
   (75076, 77711); (77811, 77823); (78895, 82943); (83527, 92159);
   (92729, 92735); (92767, 92767); (92778, 92781); (92863, 92863);
   (92874, 92879); (92910, 92911); (92918, 92927); (92998, 93007);
   (93018, 93018); (93026, 93026); (93048, 93052); (93072, 93759);
   (93851, 93951); (94027, 94030); (94088, 94094); (94112, 94175);
   (94181, 94191); (94194, 94207); (100344, 100351); (101590, 101631);
   (101641, 110575); (110580, 110580); (110588, 110588); (110591, 110591);
   (110883, 110927); (110931, 110947); (110952, 110959); (111356, 113663);
   (113771, 113775); (113789, 113791); (113801, 113807); (113818, 113819);
   (113824, 118527); (118574, 118575); (118599, 118607); (118724, 118783);
   (119030, 119039); (119079, 119080); (119155, 119162); (119275, 119295);
   (119366, 119519); (119540, 119551); (119639, 119647); (119673, 119807);
   (119893, 119893); (119965, 119965); (119968, 119969); (119971, 119972);
   (119975, 119976); (119981, 119981); (119994, 119994); (119996, 119996);
   (120004, 120004); (120070, 120070); (120075, 120076); (120085, 120085);
   (120093, 120093); (120122, 120122); (120127, 120127); (120133, 120133);
   (120135, 120137); (120145, 120145); (120486, 120487); (120780, 120781);
   (121484, 121498); (121504, 121504); (121520, 122623); (122655, 122879);
   (122887, 122887); (122905, 122906); (122914, 122914); (122917, 122917);
   (122923, 123135); (123181, 123183); (123198, 123199); (123210, 123213);
   (123216, 123535); (123567, 123583); (123642, 123646); (123648, 124895);
   (124903, 124903); (124908, 124908); (124911, 124911); (124927, 124927);
   (125125, 125126); (125143, 125183); (125260, 125263); (125274, 125277);
   (125280, 126064); (126133, 126208); (126270, 126463); (126468, 126468);
   (126496, 126496); (126499, 126499); (126501, 126502); (126504, 126504);
   (126515, 126515); (126520, 126520); (126522, 126522); (126524, 126529);
   (126531, 126534); (126536, 126536); (126538, 126538); (126540, 126540);
   (126544, 126544); (126547, 126547); (126549, 126550); (126552, 126552);
   (126554, 126554); (126556, 126556); (126558, 126558); (126560, 126560);
   (126563, 126563); (126565, 126566); (126571, 126571); (126579, 126579);
   (126584, 126584); (126589, 126589); (126591, 126591); (126602, 126602);
   (126620, 126624); (126628, 126628); (126634, 126634); (126652, 126703);
   (126706, 126975); (127020, 127023); (127124, 127135); (127151, 127152);
   (127168, 127168); (127184, 127184); (127222, 127231); (127406, 127461);
   (127491, 127503); (127548, 127551); (127561, 127567); (127570, 127583);
   (127590, 127743); (128728, 128732); (128749, 128751); (128765, 128767);
   (128884, 128895); (128985, 128991); (129004, 129007); (129009, 129023);
   (129036, 129039); (129096, 129103); (129114, 129119); (129160, 129167);
   (129198, 129199); (129202, 129279); (129620, 129631); (129646, 129647);
   (129653, 129655); (129661, 129663); (129671, 129679); (129709, 129711);
   (129723, 129727); (129734, 129743); (129754, 129759); (129768, 129775);
   (129783, 129791); (129939, 129939); (129995, 130031); (130042, 131071);
   (173792, 173823); (177977, 177983); (178206, 178207); (183970, 183983);
   (191457, 194559); (195102, 196607); (201547, 917759); (918000, 1114111)]%N.

Definition printable (cp : N) : bool :=
  negb (existsb (fun r => N.leb (fst r) cp && N.leb cp (snd r)) not_printable).

(** [digits] hexadecimal digits of [n], lower case. *)
Fixpoint hex_of (digits : nat) (n : N) : string :=
  match digits with
  | O => EmptyString
  | S d => hex_of d (N.div n 16) ++ String (hex_digit (N.modulo n 16)) ""
  end.

(** The escape of a code point that is not printable. *)
Definition escape_code (cp : N) : string :=
  String backslash
    (if N.leb cp 255 then String "x" (hex_of 2 cp)
     else if N.leb cp 65535 then String "u" (hex_of 4 cp)
     else String "U" (hex_of 8 cp)).

(** A character from 128 up: its bytes [raw] when it is printable, its
    escape otherwise. *)
Definition repr_code (cp : N) (raw : string) : string :=
  if printable cp then raw else escape_code cp.

(** The characters of [repr(s)] inside quotes [q], byte by byte: [k]
    continuation bytes are still awaited for the character whose bytes so far
    are [raw] and whose bits so far are [cp].  Bytes that encode no character
    are copied. *)
Fixpoint repr_from (q : ascii) (k : nat) (cp : N) (raw : string) (s : string)
  : string :=
  match s with
  | EmptyString => raw
  | String c s' =>
      let fresh :=
        if N.ltb (N_of_ascii c) 128 then repr_char q c ++ repr_from q 0 0 "" s'
        else match lead c with
             | Some (k1, bits) => repr_from q k1 bits (String c "") s'
             | None => String c (repr_from q 0 0 "" s')
             end in
      match k with
      | O => fresh
      | S k' =>
          if continuation c then
            let cp' := (cp * 64 + (N_of_ascii c - 128))%N in
            let raw' := raw ++ String c "" in
            match k' with
            | O => repr_code cp' raw' ++ repr_from q 0 0 "" s'
            | S _ => repr_from q k' cp' raw' s'
            end
          else raw ++ fresh
      end
  end.

Definition repr_chars (q : ascii) (s : string) : string :=
  repr_from q 0 0 "" s.

Definition repr_str (s : string) : string :=
  let q := if mem_char squote s && negb (mem_char dquote s)
           then dquote else squote in
  String q (repr_chars q s ++ String q EmptyString).

Definition str_int (z : Z) : string := NilZero.string_of_int (Z.to_int z).

Fixpoint repr (v : value) : string :=
  match v with
  | PNone => "None"
  | PBool true => "True"
  | PBool false => "False"
  | PInt z => str_int z
  | PStr s => repr_str s
  | PList l =>
      "[" ++
      (fix go (l : list value) : string :=
         match l with
         | [] => ""
         | [x] => repr x
         | x :: l' => repr x ++ ", " ++ go l'
         end) l ++ "]"
  | PDict d =>
      "{" ++
      (fix go (d : list (string * value)) : string :=
         match d with
         | [] => ""
         | [(k, x)] => repr_str k ++ ": " ++ repr x
         | (k, x) :: d' => repr_str k ++ ": " ++ repr x ++ ", " ++ go d'
         end) d ++ "}"
  end.

(** [str(v)], which is what [f"{v}"] inserts. *)
Definition str (v : value) : string :=
  match v with
  | PStr s => s
  | _ => repr v
  end.

End Py.

Import Py.

(** ** Requests, answers and programs *)

Inductive method : Type := GET | POST | PATCH | DELETE.

(** What [requests.get/post/patch/delete] are called with. *)
Record request : Type := mkRequest {
  meth : method;
  url : string;
  headers : list (string * string);
  params : list (string * string);
  json : option value          (* the [json=] keyword argument *)
}.

(** The body of the answer as [json.loads(response.text)] sees it: the decoded
    document, or [None] when the text is not JSON. *)
Definition response : Type := option value.

(** The [result] dictionary handed to [module.exit_json]. *)
Record result : Type := mkResult {
  changed : bool;
  category_id : option value
}.

(** A program: the requests it issues, each followed by what it does with the
    answer, down to the way it ends. *)
Inductive prog (A : Type) : Type :=
| Ret (a : A)                                   (* [return a] *)
| Raise (e : exn)                               (* an uncaught exception *)
| FailJson (msg : string)                       (* [module.fail_json(msg=msg)] *)
| ExitJson (r : result)                         (* [module.exit_json( **r )] *)
| Call (rq : request) (k : response -> prog A). (* [requests.<method>(...)] *)

Arguments Ret {A} a.
Arguments Raise {A} e.
Arguments FailJson {A} msg.
Arguments ExitJson {A} r.
Arguments Call {A} rq k.

Fixpoint bind {A B : Type} (p : prog A) (f : A -> prog B) : prog B :=
  match p with
  | Ret a => f a
  | Raise e => Raise e
  | FailJson msg => FailJson msg
  | ExitJson r => ExitJson r
  | Call rq k => Call rq (fun resp => bind (k resp) f)
  end.

Notation "x <- p ;; q" := (bind p (fun x => q))
  (at level 61, p at next level, right associativity).
Notation "p ;; q" := (bind p (fun _ => q))
  (at level 61, right associativity).

(** An operation of [Py] that may raise. *)
Definition lift {A : Type} (r : exn + A) : prog A :=
  match r with
  | inl e => Raise e
  | inr a => Ret a
  end.

Definition requests_get (u : string) (hs ps : list (string * string))
  : prog response :=
  Call (mkRequest GET u hs ps None) Ret.

Definition requests_post (u : string) (payload : value)
  (hs : list (string * string)) : prog response :=
  Call (mkRequest POST u hs [] (Some payload)) Ret.

Definition requests_patch (u : string) (payload : value)
  (hs : list (string * string)) : prog response :=
  Call (mkRequest PATCH u hs [] (Some payload)) Ret.

Definition requests_delete (u : string) (hs : list (string * string))
  : prog response :=
  Call (mkRequest DELETE u hs [] None) Ret.

Definition json_loads (r : response) : prog value :=
  match r with
  | Some v => Ret v
  | None => Raise JSONDecodeError
  end.

(** [f"{snipe_url.rstrip('/')}"] and the [Authorization] header. *)
Definition base (snipe_url : string) : string := rstrip "/" snipe_url.

Definition bearer (api_key : string) : list (string * string) :=
  [("Authorization", "Bearer " ++ api_key)].

(** ** [module_utils/snipeit.py] *)

Definition get_category (snipe_url api_key name category_type : string)
  : prog value :=
  let payload := [("name", name); ("category_type", category_type)] in
  response <- requests_get (base snipe_url ++ "/api/v1/categories")
                           (bearer api_key) payload ;;
  data <- json_loads response ;;
  total <- lift (getitem data "total") ;;
  if Py.eq total (PInt 0) then Ret PNone
  else
    rows <- lift (getitem data "rows") ;;
    lift (getitem0 rows).

Definition get_model (snipe_url api_key name : string) : prog value :=
  let payload := [("name", name)] in
  response <- requests_get (base snipe_url ++ "/api/v1/models")
                           (bearer api_key) payload ;;
  data <- json_loads response ;;
  total <- lift (getitem data "total") ;;
  if Py.eq total (PInt 0) then Ret PNone
  else
    rows <- lift (getitem data "rows") ;;
    lift (getitem0 rows).

Definition get_entry (snipe_url api_key asset_tag : string) : prog value :=
  response <- requests_get
                (base snipe_url ++ "/api/v1/hardware/bytag/" ++ asset_tag)
                (bearer api_key) [] ;;
  data <- json_loads response ;;
  has_tag <- lift (in_keys "asset_tag" data) ;;
  if has_tag then Ret data
  else
    status <- lift (getitem data "status") ;;
    absent <- (if Py.eq status (PStr "error") then
                 messages <- lift (getitem data "messages") ;;
                 Ret (Py.eq messages (PStr "Asset does not exist."))
               else Ret false) ;;
    if absent then Ret PNone
    else
      status <- lift (getitem data "status") ;;
      if Py.eq status (PStr "error") then
        messages <- lift (getitem data "messages") ;;
        FailJson ("Error retrieving entry: " ++ Py.str messages)
      else FailJson "Unknown response from SnipeIT".

(** The four lines that end every mutating function, after its request:
    [data = json.loads(response.text)], [fail_json] with [what] and
    [data['messages']] when [data["status"] == "error"], else [return True]. *)
Definition check_error (what : string) (response : response) : prog bool :=
  data <- json_loads response ;;
  status <- lift (getitem data "status") ;;
  if Py.eq status (PStr "error") then
    messages <- lift (getitem data "messages") ;;
    FailJson (what ++ Py.str messages)
  else Ret true.

(** ** [modules/snipeit_category.py] *)

Definition create_category (snipe_url api_key name category_type : string)
  (dry_run : bool) : prog bool :=
  category <- get_category snipe_url api_key name category_type ;;
  if truthy category then Ret false
  else if negb (truthy category) && dry_run then Ret true
  else
    let payload := PDict [("name", PStr name);
                          ("category_type", PStr category_type)] in
    response <- requests_post (base snipe_url ++ "/api/v1/categories")
                              payload (bearer api_key) ;;
    check_error "Error creating category: " response.

Module Category.

(** The [category_type] option: the framework admits the four [choices] of
    the argument spec only, and ends the module before [run_module] does
    anything for any other value. *)
Inductive type_choice : Type := asset | accessory | consumable | component.

Definition choice_name (c : type_choice) : string :=
  match c with
  | asset => "asset"
  | accessory => "accessory"
  | consumable => "consumable"
  | component => "component"
  end.

Record params : Type := mkParams {
  snipe_url : string;
  api_key : string;
  name : string;
  category_type : type_choice
}.

Definition run_module (m : params) : prog unit :=
  changed <- create_category (snipe_url m) (api_key m) (name m)
                             (choice_name (category_type m)) false ;;
  category <- get_category (snipe_url m) (api_key m) (name m)
                           (choice_name (category_type m)) ;;
  id <- lift (getitem category "id") ;;
  ExitJson (mkResult changed (Some id)).

End Category.

(** ** [modules/snipeit_model.py] *)

(** Truth value of an optional integer argument ([None] or an [int]). *)
Definition truthy_int (o : option Z) : bool :=
  match o with
  | None => false
  | Some z => negb (Z.eqb z 0)
  end.

(** An optional integer argument as the Python object it is. *)
Definition opt_int (o : option Z) : value :=
  match o with
  | None => PNone
  | Some z => PInt z
  end.

(** Lines 98-103: the payload literal and the conditional item assignment. *)
Definition model_payload (name : string) (category_id : value)
  (manufacturer_id : option Z) : list (string * value) :=
  let payload := [("name", PStr name); ("category_id", category_id)] in
  if truthy_int manufacturer_id
  then assoc_set "manufacturer_id" (opt_int manufacturer_id) payload
  else payload.

Definition create_model (snipe_url api_key name : string) (category_id : value)
  (dry_run : bool) (manufacturer_id : option Z) : prog bool :=
  model <- get_model snipe_url api_key name ;;
  if truthy model then Ret false
  else if negb (truthy model) && dry_run then Ret true
  else
    let payload := PDict (model_payload name category_id manufacturer_id) in
    response <- requests_post (base snipe_url ++ "/api/v1/models")
                              payload (bearer api_key) ;;
    check_error "Error creating model: " response.

Module Model.

Record params : Type := mkParams {
  snipe_url : string;
  api_key : string;
  name : string;
  category : string;
  manufacturer_id : option Z;
  dry_run : bool
}.

Definition run_module (m : params) : prog unit :=
  category' <- get_category (snipe_url m) (api_key m) (category m) "asset" ;;
  if negb (truthy category') then
    FailJson ("Category " ++ category m ++ " not found!")
  else
    category_id <- lift (getitem category' "id") ;;
    changed <- create_model (snipe_url m) (api_key m) (name m) category_id
                            (dry_run m) (manufacturer_id m) ;;
    ExitJson (mkResult changed None).

End Model.

(** ** [modules/snipeit_entry.py] *)

Definition create_entry (snipe_url api_key asset_tag : string) (status_id : Z)
  (model_id : value) (dry_run : bool) : prog bool :=
  entry <- get_entry snipe_url api_key asset_tag ;;
  if truthy entry then Ret false
  else if negb (truthy entry) && dry_run then Ret true
  else
    let payload := PDict [("asset_tag", PStr asset_tag);
                          ("status_id", PInt status_id);
                          ("model_id", model_id)] in
    response <- requests_post (base snipe_url ++ "/api/v1/hardware")
                              payload (bearer api_key) ;;
    check_error "Error creating entry: " response.

Definition delete_entry (snipe_url api_key asset_tag : string)
  (dry_run : bool) : prog bool :=
  entry <- get_entry snipe_url api_key asset_tag ;;
  if negb (truthy entry) then Ret false
  else if truthy entry && dry_run then Ret true
  else
    id <- lift (getitem entry "id") ;;
    response <- requests_delete
                  (base snipe_url ++ "/api/v1/hardware/" ++ Py.str id)
                  (bearer api_key) ;;
    check_error "Error deleting entry: " response.

(** [entry[field]["id"]], as both update functions read it. *)
Definition remote_id (entry : value) (field : string) : prog value :=
  sub <- lift (getitem entry field) ;;
  lift (getitem sub "id").

Definition update_entry_model (snipe_url api_key asset_tag : string)
  (model_id : value) (dry_run : bool) : prog bool :=
  entry <- get_entry snipe_url api_key asset_tag ;;
  current <- remote_id entry "model" ;;
  if Py.eq current model_id then Ret false
  else
    current <- remote_id entry "model" ;;
    if negb (Py.eq current model_id) && dry_run then Ret true
    else
      let payload := PDict [("model_id", model_id)] in
      id <- lift (getitem entry "id") ;;
      response <- requests_patch
                    (base snipe_url ++ "/api/v1/hardware/" ++ Py.str id)
                    payload (bearer api_key) ;;
      check_error "Error updating entry: " response.

Definition update_entry_status_label (snipe_url api_key asset_tag : string)
  (status_id : Z) (dry_run : bool) : prog bool :=
  entry <- get_entry snipe_url api_key asset_tag ;;
  current <- remote_id entry "status_label" ;;
  if Py.eq current (PInt status_id) then Ret false
  else
    current <- remote_id entry "status_label" ;;
    if negb (Py.eq current (PInt status_id)) && dry_run then Ret true
    else
      let payload := PDict [("status_id", PInt status_id)] in
      id <- lift (getitem entry "id") ;;
      response <- requests_patch
                    (base snipe_url ++ "/api/v1/hardware/" ++ Py.str id)
                    payload (bearer api_key) ;;
      check_error "Error updating entry: " response.

Module Entry.

(** The [state] option: the framework admits the two [choices] only. *)
Inductive state_choice : Type := present | absent.

Record params : Type := mkParams {
  asset_tag : string;
  snipe_url : string;
  api_key : string;
  status_id : Z;
  model_name : option string;     (* [None] when the task leaves it out *)
  state : state_choice;
  check_mode : bool               (* [module.check_mode] *)
}.

(** [not module.params["model_name"]]. *)
Definition unset (o : option string) : bool :=
  match o with
  | None => true
  | Some s => String.eqb s ""
  end.

Definition verify_params (m : params) : prog unit :=
  match state m with
  | present =>
      if unset (model_name m)
      then FailJson "model_name is required when state is present"
      else Ret tt
  | absent => Ret tt
  end.

Definition run_module (m : params) : prog unit :=
  verify_params m ;;
  match state m with
  | absent =>
      changed <- delete_entry (snipe_url m) (api_key m) (asset_tag m)
                              (check_mode m) ;;
      ExitJson (mkResult changed None)
  | present =>
      let dry_run := check_mode m in
      match model_name m with
      | None =>
          (* not reached: [verify_params] has already failed the module *)
          FailJson "model_name is required when state is present"
      | Some name =>
          model <- get_model (snipe_url m) (api_key m) name ;;
          if negb (truthy model) then
            FailJson ("Model " ++ name ++ " does not exist")
          else
            model_id <- lift (getitem model "id") ;;
            changed <- create_entry (snipe_url m) (api_key m) (asset_tag m)
                                    (status_id m) model_id dry_run ;;
            model_id <- lift (getitem model "id") ;;
            updated <- update_entry_model (snipe_url m) (api_key m)
                                          (asset_tag m) model_id dry_run ;;
            let changed := updated || changed in
            updated <- update_entry_status_label (snipe_url m) (api_key m)
                         (asset_tag m) (status_id m) dry_run ;;
            let changed := updated || changed in
            ExitJson (mkResult changed None)
      end
  end.

End Entry.

(** ** Running a program against a server *)

(** How a run ends. *)
Inductive outcome (A : Type) : Type :=
| Returned (a : A)
| Raised (e : exn)
| Failed (msg : string)
| Exited (r : result).

Arguments Returned {A} a.
Arguments Raised {A} e.
Arguments Failed {A} msg.
Arguments Exited {A} r.

(** One request together with the answer it got. *)
Definition exchange : Type := request * response.

Definition mutating (rq : request) : bool :=
  match meth rq with
  | GET => false
  | _ => true
  end.

Section Run.

(** The service: any state machine that answers requests. *)
Variable server : Type.
Variable handle : server -> request -> response * server.

(** The outcome, the exchanges in the order they happened, and the state the
    server is left in. *)
Fixpoint run {A : Type} (p : prog A) (s : server)
  : outcome A * list exchange * server :=
  match p with
  | Ret a => (Returned a, [], s)
  | Raise e => (Raised e, [], s)
  | FailJson msg => (Failed msg, [], s)
  | ExitJson r => (Exited r, [], s)
  | Call rq k =>
      let (resp, s') := handle s rq in
      let '(o, log, s'') := run (k resp) s' in
      (o, (rq, resp) :: log, s'')
  end.

Definition outcome_of {A : Type} (p : prog A) (s : server) : outcome A :=
  fst (fst (run p s)).

Definition log_of {A : Type} (p : prog A) (s : server) : list exchange :=
  snd (fst (run p s)).

Definition server_after {A : Type} (p : prog A) (s : server) : server :=
  snd (run p s).

Definition requests_of {A : Type} (p : prog A) (s : server) : list request :=
  map fst (log_of p s).

End Run.

Arguments run {server} handle {A} p s.
Arguments outcome_of {server} handle {A} p s.
Arguments log_of {server} handle {A} p s.
Arguments server_after {server} handle {A} p s.
Arguments requests_of {server} handle {A} p s.

(** A server that plays back a fixed list of answers, whatever is asked; once
    the list is used up the body is no longer JSON. *)
Definition scripted (s : list response) (rq : request)
  : response * list response :=
  match s with
  | [] => (None, [])
  | r :: s' => (r, s')
  end.

(** ** The requests of the API surface, by name *)

Definition category_lookup (snipe_url api_key name category_type : string)
  : request :=
  mkRequest GET (base snipe_url ++ "/api/v1/categories") (bearer api_key)
            [("name", name); ("category_type", category_type)] None.

Definition category_create (snipe_url api_key name category_type : string)
  : request :=
  mkRequest POST (base snipe_url ++ "/api/v1/categories") (bearer api_key) []
            (Some (PDict [("name", PStr name);
                          ("category_type", PStr category_type)])).

Definition model_lookup (snipe_url api_key name : string) : request :=
  mkRequest GET (base snipe_url ++ "/api/v1/models") (bearer api_key)
            [("name", name)] None.

Definition model_create (snipe_url api_key name : string) (category_id : value)
  (manufacturer_id : option Z) : request :=
  mkRequest POST (base snipe_url ++ "/api/v1/models") (bearer api_key) []
            (Some (PDict (model_payload name category_id manufacturer_id))).

Definition entry_lookup (snipe_url api_key asset_tag : string) : request :=
  mkRequest GET (base snipe_url ++ "/api/v1/hardware/bytag/" ++ asset_tag)
            (bearer api_key) [] None.

Definition entry_create (snipe_url api_key asset_tag : string) (status_id : Z)
  (model_id : value) : request :=
  mkRequest POST (base snipe_url ++ "/api/v1/hardware") (bearer api_key) []
            (Some (PDict [("asset_tag", PStr asset_tag);
                          ("status_id", PInt status_id);
                          ("model_id", model_id)])).

Definition entry_delete (snipe_url api_key : string) (id : value) : request :=
  mkRequest DELETE (base snipe_url ++ "/api/v1/hardware/" ++ Py.str id)
            (bearer api_key) [] None.

Definition entry_patch (snipe_url api_key : string) (id : value)
  (field : string) (v : value) : request :=
  mkRequest PATCH (base snipe_url ++ "/api/v1/hardware/" ++ Py.str id)
            (bearer api_key) [] (Some (PDict [(field, v)])).

(** The two requests of the category module, for its parameters. *)
Definition category_module_lookup (m : Category.params) : request :=
  category_lookup (Category.snipe_url m) (Category.api_key m)
                  (Category.name m)
                  (Category.choice_name (Category.category_type m)).

Definition category_module_create (m : Category.params) : request :=
  category_create (Category.snipe_url m) (Category.api_key m)
                  (Category.name m)
                  (Category.choice_name (Category.category_type m)).

(** ** Properties of every request a program can issue *)

(** [only_requests Q p]: whatever the answers, each request [p] issues
    satisfies [Q]. *)
Fixpoint only_requests {A : Type} (Q : request -> Prop) (p : prog A) : Prop :=
  match p with
  | Call rq k => Q rq /\ forall resp, only_requests Q (k resp)
  | _ => True
  end.

(** An error envelope with its [messages]. *)
Definition error_envelope (resp : response) (messages : value) : Prop :=
  exists data,
    resp = Some data /\
    getitem data "status" = inr (PStr "error") /\
    getitem data "messages" = inr messages.

(** The answer is [data], and [data["status"] == "error"] holds. *)
Definition status_error (resp : response) (data : value) : Prop :=
  resp = Some data /\
  exists status,
    getitem data "status" = inr status /\ Py.eq status (PStr "error") = true.

(** How a program [rest] ends on an answer [data] whose status is ["error"]:
    in [fail_json] with [str(data["messages"])] at the end of the text, or,
    when [data["messages"]] raises, in that exception. *)
Definition ends_on_error {A : Type} (data : value) (rest : prog A) : Prop :=
  match getitem data "messages" with
  | inr messages => exists what, rest = FailJson (what ++ Py.str messages)
  | inl e => rest = Raise e
  end.

(** [fatal_on_error p]: whenever a mutating request of [p] is answered with
    the status ["error"], what is left of [p] ends as [ends_on_error] says. *)
Fixpoint fatal_on_error {A : Type} (p : prog A) : Prop :=
  match p with
  | Call rq k =>
      forall resp,
        (mutating rq = true ->
         forall data, status_error resp data -> ends_on_error data (k resp)) /\
        fatal_on_error (k resp)
  | _ => True
  end.

(** ** The operations of the collection *)

(** Every function of the four files that talks to the service, with the
    arguments it is called with; the index is the type it returns. *)
Inductive operation : Type -> Type :=
| op_get_category (snipe_url api_key name category_type : string)
  : operation value
| op_get_model (snipe_url api_key name : string) : operation value
| op_get_entry (snipe_url api_key asset_tag : string) : operation value
| op_create_category (snipe_url api_key name category_type : string)
    (dry_run : bool) : operation bool
| op_create_model (snipe_url api_key name : string) (category_id : value)
    (dry_run : bool) (manufacturer_id : option Z) : operation bool
| op_create_entry (snipe_url api_key asset_tag : string) (status_id : Z)
    (model_id : value) (dry_run : bool) : operation bool
| op_delete_entry (snipe_url api_key asset_tag : string) (dry_run : bool)
  : operation bool
| op_update_entry_model (snipe_url api_key asset_tag : string)
    (model_id : value) (dry_run : bool) : operation bool
| op_update_entry_status_label (snipe_url api_key asset_tag : string)
    (status_id : Z) (dry_run : bool) : operation bool
| op_category_module (m : Category.params) : operation unit
| op_model_module (m : Model.params) : operation unit
| op_entry_module (m : Entry.params) : operation unit.

Definition program {A : Type} (op : operation A) : prog A :=
  match op with
  | op_get_category u k n t => get_category u k n t
  | op_get_model u k n => get_model u k n
  | op_get_entry u k t => get_entry u k t
  | op_create_category u k n t d => create_category u k n t d
  | op_create_model u k n c d m => create_model u k n c d m
  | op_create_entry u k t st mo d => create_entry u k t st mo d
  | op_delete_entry u k t d => delete_entry u k t d
  | op_update_entry_model u k t mo d => update_entry_model u k t mo d
  | op_update_entry_status_label u k t st d =>
      update_entry_status_label u k t st d
  | op_category_module m => Category.run_module m
  | op_model_module m => Model.run_module m
  | op_entry_module m => Entry.run_module m
  end.

(** The dry-run flag an operation is run with, when it takes one: the
    [dry_run] argument of a function, the [dry_run] option of the model
    module, [check_mode] of the entry module.  The category module has none
    (it passes [dry_run=False]). *)
Definition dry_run_flag {A : Type} (op : operation A) : option bool :=
  match op with
  | op_get_category _ _ _ _ | op_get_model _ _ _ | op_get_entry _ _ _ => None
  | op_create_category _ _ _ _ d => Some d
  | op_create_model _ _ _ _ d _ => Some d
  | op_create_entry _ _ _ _ _ d => Some d
  | op_delete_entry _ _ _ d => Some d
  | op_update_entry_model _ _ _ _ d => Some d
  | op_update_entry_status_label _ _ _ _ d => Some d
  | op_category_module _ => None
  | op_model_module m => Some (Model.dry_run m)
  | op_entry_module m => Some (Entry.check_mode m)
  end.

(** The [snipe_url] an operation is given. *)
Definition snipe_url_of {A : Type} (op : operation A) : string :=
  match op with
  | op_get_category u _ _ _ | op_get_model u _ _ | op_get_entry u _ _
  | op_create_category u _ _ _ _ | op_create_model u _ _ _ _ _
  | op_create_entry u _ _ _ _ _ | op_delete_entry u _ _ _
  | op_update_entry_model u _ _ _ _
  | op_update_entry_status_label u _ _ _ _ => u
  | op_category_module m => Category.snipe_url m
  | op_model_module m => Model.snipe_url m
  | op_entry_module m => Entry.snipe_url m
  end.

(** The same operation pointed at another [snipe_url]. *)
Definition with_snipe_url {A : Type} (u : string) (op : operation A)
  : operation A :=
  match op with
  | op_get_category _ k n t => op_get_category u k n t
  | op_get_model _ k n => op_get_model u k n
  | op_get_entry _ k t => op_get_entry u k t
  | op_create_category _ k n t d => op_create_category u k n t d
  | op_create_model _ k n c d m => op_create_model u k n c d m
  | op_create_entry _ k t st mo d => op_create_entry u k t st mo d
  | op_delete_entry _ k t d => op_delete_entry u k t d
  | op_update_entry_model _ k t mo d => op_update_entry_model u k t mo d
  | op_update_entry_status_label _ k t st d =>
      op_update_entry_status_label u k t st d
  | op_category_module m =>
      op_category_module
        (Category.mkParams u (Category.api_key m) (Category.name m)
                           (Category.category_type m))
  | op_model_module m =>
      op_model_module
        (Model.mkParams u (Model.api_key m) (Model.name m) (Model.category m)
                        (Model.manufacturer_id m) (Model.dry_run m))
  | op_entry_module m =>
      op_entry_module
        (Entry.mkParams (Entry.asset_tag m) u (Entry.api_key m)
                        (Entry.status_id m) (Entry.model_name m)
                        (Entry.state m) (Entry.check_mode m))
  end.

(** [n] slashes. *)
Definition slashes (n : nat) : string := string_of_list_ascii (repeat "/"%char n).

(** ** Endpoints *)

(** The four endpoints the interface description lists, under the stripped
    base URL. *)
Definition listed_endpoint (snipe_url u : string) : Prop :=
  u = base snipe_url ++ "/api/v1/categories" \/
  u = base snipe_url ++ "/api/v1/models" \/
  u = base snipe_url ++ "/api/v1/hardware" \/
  exists tag, u = base snipe_url ++ "/api/v1/hardware/bytag/" ++ tag.

(** What the code uses: the four, and the record of one entry addressed by the
    id found in a lookup. *)
Definition api_surface (snipe_url : string) (rq : request) : Prop :=
  (meth rq = GET /\ url rq = base snipe_url ++ "/api/v1/categories") \/
  (meth rq = POST /\ url rq = base snipe_url ++ "/api/v1/categories") \/
  (meth rq = GET /\ url rq = base snipe_url ++ "/api/v1/models") \/
  (meth rq = POST /\ url rq = base snipe_url ++ "/api/v1/models") \/
  (meth rq = POST /\ url rq = base snipe_url ++ "/api/v1/hardware") \/
  (meth rq = GET /\
   exists tag, url rq = base snipe_url ++ "/api/v1/hardware/bytag/" ++ tag) \/
  ((meth rq = PATCH \/ meth rq = DELETE) /\
   exists id, url rq = base snipe_url ++ "/api/v1/hardware/" ++ Py.str id).

(** The [api_key] an operation is given. *)
Definition api_key_of {A : Type} (op : operation A) : string :=
  match op with
  | op_get_category _ k _ _ | op_get_model _ k _ | op_get_entry _ k _
  | op_create_category _ k _ _ _ | op_create_model _ k _ _ _ _
  | op_create_entry _ k _ _ _ _ | op_delete_entry _ k _ _
  | op_update_entry_model _ k _ _ _
  | op_update_entry_status_label _ k _ _ _ => k
  | op_category_module m => Category.api_key m
  | op_model_module m => Model.api_key m
  | op_entry_module m => Entry.api_key m
  end.

(** The requests the code is written to issue for a base URL and a key: the
    lookups always, the mutating ones only outside a dry run. *)
Inductive written_request (u k : string) (dry_run : bool) : request -> Prop :=
| wr_category_lookup n t :
    written_request u k dry_run (category_lookup u k n t)
| wr_model_lookup n :
    written_request u k dry_run (model_lookup u k n)
| wr_entry_lookup tag :
    written_request u k dry_run (entry_lookup u k tag)
| wr_category_create n t :
    dry_run = false -> written_request u k dry_run (category_create u k n t)
| wr_model_create n c m :
    dry_run = false -> written_request u k dry_run (model_create u k n c m)
| wr_entry_create tag st mo :
    dry_run = false ->
    written_request u k dry_run (entry_create u k tag st mo)
| wr_entry_delete id :
    dry_run = false -> written_request u k dry_run (entry_delete u k id)
| wr_entry_patch id field v :
    dry_run = false ->
    written_request u k dry_run (entry_patch u k id field v).

(** The flag in force: operations without one behave as real runs. *)
Definition dry_run_of {A : Type} (op : operation A) : bool :=
  match dry_run_flag op with
  | Some d => d
  | None => false
  end.

(** ** Reading an answer *)

(** The list envelope of [/categories] and [/models] reports nothing. *)
Definition row_missing (resp : response) : Prop :=
  exists data total,
    resp = Some data /\
    getitem data "total" = inr total /\
    Py.eq total (PInt 0) = true.

(** The list envelope holds [row] first. *)
Definition row_found (resp : response) (row : value) : Prop :=
  exists data total rows,
    resp = Some data /\
    getitem data "total" = inr total /\
    Py.eq total (PInt 0) = false /\
    getitem data "rows" = inr rows /\
    getitem0 rows = inr row.

(** [/hardware/bytag/{tag}] answers with the entry itself. *)
Definition entry_found (resp : response) (entry : value) : Prop :=
  resp = Some entry /\ in_keys "asset_tag" entry = inr true.

(** [/hardware/bytag/{tag}] answers with the error envelope that means
    absence. *)
Definition entry_missing (resp : response) : Prop :=
  exists data,
    resp = Some data /\
    in_keys "asset_tag" data = inr false /\
    getitem data "status" = inr (PStr "error") /\
    getitem data "messages" = inr (PStr "Asset does not exist.").

(** The answer to a mutating request is not an error envelope. *)
Definition accepted (resp : response) : Prop :=
  exists data status,
    resp = Some data /\
    getitem data "status" = inr status /\
    Py.eq status (PStr "error") = false.

(** The last character of a string, if any. *)
Fixpoint last_char (s : string) : option ascii :=
  match s with
  | EmptyString => None
  | String a EmptyString => Some a
  | String _ s' => last_char s'
  end.


(** ** Case analysis along the control flow of a program *)

(** One step: split on the next thing the program inspects. *)
Ltac prog_step :=
  match goal with
  | |- context [json_loads ?r] => destruct r; simpl
  | |- context [lift ?x] => destruct x eqn:?; simpl
  | |- context [if ?b then _ else _] => destruct b eqn:?; simpl
  end.

Ltac prog_cases := simpl; repeat prog_step.

(** [entry[field]["id"]] is [current]. *)
Definition remote_field (entry : value) (field : string) (current : value)
  : Prop :=
  exists sub, getitem entry field = inr sub /\ getitem sub "id" = inr current.

(** ** Dry runs against real runs *)

(** The same operation with its dry-run flag set to [d]; the lookups and the
    category module, which have no flag, are left as they are. *)
Definition with_dry_run {A : Type} (d : bool) (op : operation A)
  : operation A :=
  match op with
  | op_get_category u k n t => op_get_category u k n t
  | op_get_model u k n => op_get_model u k n
  | op_get_entry u k t => op_get_entry u k t
  | op_create_category u k n t _ => op_create_category u k n t d
  | op_create_model u k n c _ m => op_create_model u k n c d m
  | op_create_entry u k t st mo _ => op_create_entry u k t st mo d
  | op_delete_entry u k t _ => op_delete_entry u k t d
  | op_update_entry_model u k t mo _ => op_update_entry_model u k t mo d
  | op_update_entry_status_label u k t st _ =>
      op_update_entry_status_label u k t st d
  | op_category_module m => op_category_module m
  | op_model_module m =>
      op_model_module
        (Model.mkParams (Model.snipe_url m) (Model.api_key m) (Model.name m)
                        (Model.category m) (Model.manufacturer_id m) d)
  | op_entry_module m =>
      op_entry_module
        (Entry.mkParams (Entry.asset_tag m) (Entry.snipe_url m)
                        (Entry.api_key m) (Entry.status_id m)
                        (Entry.model_name m) (Entry.state m) d)
  end.

(** The operations that decide on one lookup of the resource itself: the six
    functions with a [dry_run] argument, the model module, and the entry
    module when it removes. *)
Definition single_decision {A : Type} (op : operation A) : bool :=
  match op with
  | op_get_category _ _ _ _ | op_get_model _ _ _ | op_get_entry _ _ _ => false
  | op_create_category _ _ _ _ _ | op_create_model _ _ _ _ _ _
  | op_create_entry _ _ _ _ _ _ | op_delete_entry _ _ _ _
  | op_update_entry_model _ _ _ _ _
  | op_update_entry_status_label _ _ _ _ _ => true
  | op_category_module _ => false
  | op_model_module _ => true
  | op_entry_module m =>
      match Entry.state m with
      | Entry.absent => true
      | Entry.present => false
      end
  end.

(** The run came to its end: a value was returned or [exit_json] called. *)
Definition completed {A : Type} (o : outcome A) : bool :=
  match o with
  | Returned _ | Exited _ => true
  | Raised _ | Failed _ => false
  end.

(** The exchanges of a log that are lookups. *)
Definition lookups_of (l : list exchange) : list exchange :=
  filter (fun x => negb (mutating (fst x))) l.

(** [f] run dry foretells [g] run for real, on a given server: whenever [g]
    comes to its end, [f] ends the same way after the lookups of [g] alone. *)
Definition foretells {A : Type} (server : Type)
  (handle : server -> request -> response * server) (f g : prog A) : Prop :=
  forall s,
    completed (outcome_of handle g s) = true ->
    outcome_of handle f s = outcome_of handle g s /\
    log_of handle f s = lookups_of (log_of handle g s).

(** ** Answers that are not JSON, and the number of requests *)

(** [decodes_first p]: after each request the first thing [p] does is decode
    the answer, so a body that is not JSON ends it in [JSONDecodeError]. *)
Fixpoint decodes_first {A : Type} (p : prog A) : Prop :=
  match p with
  | Call rq k =>
      k None = Raise JSONDecodeError /\ forall resp, decodes_first (k resp)
  | _ => True
  end.

(** [within w n p]: along every path of [p] the weights [w] of the requests
    add up to [n] at most. *)
Fixpoint within {A : Type} (w : request -> nat) (n : nat) (p : prog A)
  : Prop :=
  match p with
  | Call rq k => w rq <= n /\ forall resp, within w (n - w rq) (k resp)
  | _ => True
  end.

Definition each (rq : request) : nat := 1.

Definition each_mutating (rq : request) : nat :=
  if mutating rq then 1 else 0.

(** The most requests an operation is written to issue, and the most
    mutating ones among them. *)
Definition request_budget {A : Type} (op : operation A) : nat :=
  match op with
  | op_get_category _ _ _ _ | op_get_model _ _ _ | op_get_entry _ _ _ => 1
  | op_create_category _ _ _ _ _ | op_create_model _ _ _ _ _ _
  | op_create_entry _ _ _ _ _ _ | op_delete_entry _ _ _ _
  | op_update_entry_model _ _ _ _ _
  | op_update_entry_status_label _ _ _ _ _ => 2
  | op_category_module _ => 3
  | op_model_module _ => 3
  | op_entry_module _ => 7
  end.

Definition mutation_budget {A : Type} (op : operation A) : nat :=
  match op with
  | op_get_category _ _ _ _ | op_get_model _ _ _ | op_get_entry _ _ _ => 0
  | op_entry_module _ => 3
  | _ => 1
  end.

(** ** The shape of a request *)

(** Authenticated by the bearer token and nothing else; a JSON object as body
    on [POST] and [PATCH], none on [GET] and [DELETE]; query parameters on
    lookups only. *)
Definition well_formed (api_key : string) (rq : request) : Prop :=
  headers rq = [("Authorization", "Bearer " ++ api_key)] /\
  match meth rq with
  | GET | DELETE => json rq = None
  | POST | PATCH => exists d, json rq = Some (PDict d)
  end /\
  (mutating rq = true -> params rq = []).

(** ** Sample data

    The task of the module's [EXAMPLES] section and the kind of answers the
    service gives, for runs on concrete input. *)

Module Demo.

Definition snipe : string := "http://localhost:8080/".
Definition key : string := "1234567890abcdef".
Definition tag : string := "example_asset001".

(** The entry module's example task, for real and in check mode. *)
Definition present_task (check_mode : bool) : Entry.params :=
  Entry.mkParams tag snipe key 2 (Some "server") Entry.present check_mode.

Definition absent_task (check_mode : bool) : Entry.params :=
  Entry.mkParams tag snipe key 2 None Entry.absent check_mode.

Definition no_rows : response :=
  Some (PDict [("total", PInt 0); ("rows", PList [])]).

Definition asset_category : value :=
  PDict [("id", PInt 4); ("name", PStr "servers");
         ("category_type", PStr "asset")].

Definition category_rows : response :=
  Some (PDict [("total", PInt 1); ("rows", PList [asset_category])]).

(** A model named [server], filed under category 4. *)
Definition server_model : value :=
  PDict [("id", PInt 3); ("name", PStr "server");
         ("category", PDict [("id", PInt 4); ("name", PStr "servers")])].

Definition model_rows : response :=
  Some (PDict [("total", PInt 1); ("rows", PList [server_model])]).

Definition missing_asset : response :=
  Some (PDict [("status", PStr "error");
               ("messages", PStr "Asset does not exist.");
               ("payload", PNone)]).

Definition success : response :=
  Some (PDict [("status", PStr "success"); ("messages", PStr "Done.");
               ("payload", PNone)]).

Definition refusal : string := "You do not have permission to do that.".

(** The envelope of a request that failed validation: [messages] is an
    object. *)
Definition invalid : response :=
  Some (PDict [("status", PStr "error");
               ("messages",
                PDict [("name", PList [PStr "The name field is required."])]);
               ("payload", PNone)]).

Definition refused : response :=
  Some (PDict [("status", PStr "error"); ("messages", PStr refusal);
               ("payload", PNone)]).

(** A hardware entry with the given model and status label. *)
Definition asset (model_id status_id : Z) : value :=
  PDict [("id", PInt 9); ("asset_tag", PStr tag);
         ("model", PDict [("id", PInt model_id)]);
         ("status_label", PDict [("id", PInt status_id)])].

(** A service that knows the model [server] and holds at most one hardware
    entry: lookups read the state, [POST] stores the entry described by the
    payload, [PATCH] and [DELETE] answer success ([DELETE] empties the
    state). *)
Definition stored (payload : option value) : option value :=
  match payload with
  | Some p =>
      match getitem p "model_id", getitem p "status_id" with
      | inr (PInt mo), inr (PInt st) => Some (asset mo st)
      | _, _ => None
      end
  | None => None
  end.

Definition one_asset (s : option value) (rq : request)
  : response * option value :=
  match meth rq with
  | GET =>
      if String.eqb (url rq) "http://localhost:8080/api/v1/models"
      then (model_rows, s)
      else match s with
           | Some entry => (Some entry, s)
           | None => (missing_asset, s)
           end
  | POST => (success, stored (json rq))
  | PATCH => (success, s)
  | DELETE => (success, None)
  end.

(** The model and category modules' tasks. *)
Definition model_task (dry_run : bool) : Model.params :=
  Model.mkParams snipe key "server" "servers" (Some 7%Z) dry_run.

Definition category_task : Category.params :=
  Category.mkParams snipe key "servers" Category.asset.

(** An answer that is neither an entry nor an error envelope. *)
Definition odd : response :=
  Some (PDict [("status", PStr "success"); ("messages", PStr "Hello.")]).

(** A list envelope that counts a row it does not hold. *)
Definition hollow_rows : response :=
  Some (PDict [("total", PInt 1); ("rows", PList [])]).

(** An entry answer without an [id]. *)
Definition anonymous_asset : value :=
  PDict [("asset_tag", PStr tag); ("model", PDict [("id", PInt 1)])].

End Demo.

(** Reduce a run whose next answers have been rewritten in. *)
Ltac run_simpl :=
  cbv beta iota zeta;
  cbn [truthy negb andb orb app bind lift json_loads fst snd].

(** ** Basic facts *)

Example repr_of_validation_errors :
  Py.str (PDict [("name", PList [PStr "The name field is required."]);
                 ("id", PInt (-7)); ("ok", PBool true); ("n", PNone)])
  = "{'name': ['The name field is required.'], 'id': -7, 'ok': True, 'n': None}".
Proof. vm_compute. reflexivity. Qed.

Example base_of_example_url : base "http://localhost:8080/" = "http://localhost:8080".
Proof. reflexivity. Qed.

Example rstrip_keeps_inner_slashes : rstrip "/" "a/b//" = "a/b".
Proof. reflexivity. Qed.

Example false_equals_zero : Py.eq (PBool false) (PInt 0) = true.
Proof. reflexivity. Qed.

(** A no-break space (U+00A0, bytes 194 160) is escaped, an accented letter
    (U+00E9, bytes 195 169) is kept, a zero-width space (U+200B) is escaped. *)
Example repr_of_no_break_space :
  Py.str (PList [PStr (String "a" (String "194" (String "160" "b")))])
  = "['a\xa0b']".
Proof. vm_compute. reflexivity. Qed.

Example repr_of_accented_letter :
  Py.repr (PStr (String "195" (String "169" EmptyString)))
  = String "039" (String "195" (String "169" (String "039" EmptyString))).
Proof. vm_compute. reflexivity. Qed.

Example repr_of_zero_width_space :
  Py.repr (PStr (String "226" (String "128" (String "139" EmptyString))))
  = "'\u200b'".
Proof. vm_compute. reflexivity. Qed.

Example first_character_of_text :
  getitem0 (PStr (String "195" (String "169" "a")))
  = inr (PStr (String "195" (String "169" EmptyString))).
Proof. reflexivity. Qed.

Lemma rstrip_all (c : ascii) (n : nat) :
  rstrip c (string_of_list_ascii (repeat c n)) = "".
Proof.
  induction n as [|n IH]; simpl; [reflexivity|].
  rewrite IH, Ascii.eqb_refl. reflexivity.
Qed.

Lemma rstrip_app_repeat (c : ascii) (s : string) (n : nat) :
  rstrip c (s ++ string_of_list_ascii (repeat c n)) = rstrip c s.
Proof.
  induction s as [|a s IH]; simpl.
  - apply rstrip_all.
  - rewrite IH. reflexivity.
Qed.

Lemma rstrip_decompose (c : ascii) (s : string) :
  exists n, s = rstrip c s ++ string_of_list_ascii (repeat c n).
Proof.
  induction s as [|a s [n IH]]; simpl.
  - exists 0. reflexivity.
  - destruct (rstrip c s) eqn:E.
    + destruct (Ascii.eqb_spec a c) as [->|ne].
      * exists (S n). simpl. simpl in IH. congruence.
      * exists n. simpl. simpl in IH. congruence.
    + exists n. simpl. simpl in IH. congruence.
Qed.

Lemma rstrip_last (c : ascii) (s : string) : last_char (rstrip c s) <> Some c.
Proof.
  induction s as [|a s IH]; simpl; [discriminate|].
  destruct (rstrip c s) eqn:E.
  - destruct (Ascii.eqb_spec a c); simpl; congruence.
  - simpl in *. exact IH.
Qed.

Lemma eq_str_true (v : value) (s : string) :
  Py.eq v (PStr s) = true <-> v = PStr s.
Proof.
  destruct v; simpl; try (split; discriminate).
  rewrite String.eqb_eq. split; congruence.
Qed.

Lemma in_keys_truthy (k : string) (v : value) :
  in_keys k v = inr true -> truthy v = true.
Proof.
  destruct v; simpl; try discriminate.
  destruct d; simpl; [discriminate | reflexivity].
Qed.

Lemma only_requests_bind {A B : Type} (Q : request -> Prop) (p : prog A)
  (f : A -> prog B) :
  only_requests Q p -> (forall a, only_requests Q (f a)) ->
  only_requests Q (bind p f).
Proof.
  intros Hp Hf. induction p as [a|e|msg|r|rq k IH]; simpl; auto.
  destruct Hp as [Hq Hk]. split; [exact Hq|]. intro resp. apply IH, Hk.
Qed.

Lemma only_requests_weaken {A : Type} (Q Q' : request -> Prop) (p : prog A) :
  (forall rq, Q rq -> Q' rq) -> only_requests Q p -> only_requests Q' p.
Proof.
  intros HQ. induction p as [a|e|msg|r|rq k IH]; simpl; auto.
  intros [Hq Hk]. split; [auto|]. intro resp. apply IH, Hk.
Qed.

Lemma only_requests_run {A : Type} (Q : request -> Prop) (p : prog A) :
  only_requests Q p ->
  forall (server : Type) (handle : server -> request -> response * server) s,
    Forall Q (requests_of handle p s).
Proof.
  intros Hp server handle. unfold requests_of, log_of.
  induction p as [a|e|msg|r|rq k IH]; intro s; simpl; try constructor.
  - destruct Hp as [Hq Hk].
    destruct (handle s rq) as [resp s'].
    specialize (IH resp (Hk resp) s').
    destruct (run handle (k resp) s') as [[o l] s'']. simpl in *.
    constructor; assumption.
Qed.

Lemma fatal_on_error_bind {A B : Type} (p : prog A) (f : A -> prog B) :
  fatal_on_error p -> (forall a, fatal_on_error (f a)) ->
  fatal_on_error (bind p f).
Proof.
  intros Hp Hf. induction p as [a|e|msg|r|rq k IH]; simpl; auto.
  intro resp. destruct (Hp resp) as [Herr Hk]. split.
  - intros Hm data Hst. specialize (Herr Hm data Hst).
    unfold ends_on_error in *.
    destruct (getitem data "messages") as [e|messages].
    + rewrite Herr. reflexivity.
    + destruct Herr as [what E]. exists what. rewrite E. reflexivity.
  - apply IH, Hk.
Qed.

Lemma fatal_on_error_run {A : Type} (p : prog A) :
  fatal_on_error p ->
  forall (server : Type) (handle : server -> request -> response * server) s
         l1 rq resp l2 data,
    log_of handle p s = (l1 ++ (rq, resp) :: l2)%list ->
    mutating rq = true ->
    status_error resp data ->
    l2 = [] /\
    match getitem data "messages" with
    | inr messages =>
        exists what, outcome_of handle p s = Failed (what ++ Py.str messages)
    | inl e => outcome_of handle p s = Raised e
    end.
Proof.
  intros Hp server handle. unfold log_of, outcome_of.
  induction p as [a|e|msg|r|rq0 k IH]; intros s l1 rq resp l2 data;
    simpl; try (destruct l1; discriminate).
  destruct (handle s rq0) as [resp0 s'] eqn:Eh.
  destruct (Hp resp0) as [Herr Hk].
  specialize (IH resp0 Hk s').
  destruct (run handle (k resp0) s') as [[o l] s''] eqn:Er. simpl in *.
  destruct l1 as [|x l1]; simpl; intros El Hm Hst.
  - injection El as -> -> <-.
    specialize (Herr Hm data Hst). unfold ends_on_error in Herr.
    destruct (getitem data "messages") as [e|messages].
    + rewrite Herr in Er. simpl in Er. injection Er as <- <- _.
      split; reflexivity.
    + destruct Herr as [what E].
      rewrite E in Er. simpl in Er. injection Er as <- <- _.
      split; [reflexivity | exists what; reflexivity].
  - injection El as _ El. eapply IH; eauto.
Qed.

(** ** Footprints: the requests each function can issue *)

Section Footprint.

Variable Q : request -> Prop.
Variables snipe_url api_key : string.

Lemma get_category_footprint (name category_type : string) :
  Q (category_lookup snipe_url api_key name category_type) ->
  only_requests Q (get_category snipe_url api_key name category_type).
Proof.
  intro H. unfold get_category, requests_get. simpl.
  split; [exact H|]. intro resp. prog_cases; exact I.
Qed.

Lemma get_model_footprint (name : string) :
  Q (model_lookup snipe_url api_key name) ->
  only_requests Q (get_model snipe_url api_key name).
Proof.
  intro H. unfold get_model, requests_get. simpl.
  split; [exact H|]. intro resp. prog_cases; exact I.
Qed.

Lemma get_entry_footprint (asset_tag : string) :
  Q (entry_lookup snipe_url api_key asset_tag) ->
  only_requests Q (get_entry snipe_url api_key asset_tag).
Proof.
  intro H. unfold get_entry, requests_get. simpl.
  split; [exact H|]. intro resp. prog_cases; exact I.
Qed.

Lemma check_error_footprint (what : string) (resp : response) :
  only_requests Q (check_error what resp).
Proof. unfold check_error. prog_cases; exact I. Qed.

Lemma remote_id_footprint (entry : value) (field : string) :
  only_requests Q (remote_id entry field).
Proof. unfold remote_id. prog_cases; exact I. Qed.

Lemma create_category_footprint (name category_type : string)
  (dry_run : bool) :
  Q (category_lookup snipe_url api_key name category_type) ->
  (dry_run = false ->
   Q (category_create snipe_url api_key name category_type)) ->
  only_requests Q
    (create_category snipe_url api_key name category_type dry_run).
Proof.
  intros Hl Hc. unfold create_category.
  apply only_requests_bind; [apply get_category_footprint, Hl|].
  intro category. destruct (truthy category); simpl; [exact I|].
  destruct dry_run; simpl; [exact I|].
  split; [apply Hc; reflexivity|]. intro resp. apply check_error_footprint.
Qed.

Lemma create_model_footprint (name : string) (category_id : value)
  (dry_run : bool) (manufacturer_id : option Z) :
  Q (model_lookup snipe_url api_key name) ->
  (dry_run = false ->
   Q (model_create snipe_url api_key name category_id manufacturer_id)) ->
  only_requests Q
    (create_model snipe_url api_key name category_id dry_run
                  manufacturer_id).
Proof.
  intros Hl Hc. unfold create_model.
  apply only_requests_bind; [apply get_model_footprint, Hl|].
  intro model. destruct (truthy model); simpl; [exact I|].
  destruct dry_run; simpl; [exact I|].
  split; [apply Hc; reflexivity|]. intro resp. apply check_error_footprint.
Qed.

Lemma create_entry_footprint (asset_tag : string) (status_id : Z)
  (model_id : value) (dry_run : bool) :
  Q (entry_lookup snipe_url api_key asset_tag) ->
  (dry_run = false ->
   Q (entry_create snipe_url api_key asset_tag status_id model_id)) ->
  only_requests Q
    (create_entry snipe_url api_key asset_tag status_id model_id dry_run).
Proof.
  intros Hl Hc. unfold create_entry.
  apply only_requests_bind; [apply get_entry_footprint, Hl|].
  intro entry. destruct (truthy entry); simpl; [exact I|].
  destruct dry_run; simpl; [exact I|].
  split; [apply Hc; reflexivity|]. intro resp. apply check_error_footprint.
Qed.

Lemma delete_entry_footprint (asset_tag : string) (dry_run : bool) :
  Q (entry_lookup snipe_url api_key asset_tag) ->
  (dry_run = false -> forall id, Q (entry_delete snipe_url api_key id)) ->
  only_requests Q (delete_entry snipe_url api_key asset_tag dry_run).
Proof.
  intros Hl Hd. unfold delete_entry.
  apply only_requests_bind; [apply get_entry_footprint, Hl|].
  intro entry. destruct (truthy entry); simpl; [|exact I].
  destruct dry_run; simpl; [exact I|].
  destruct (getitem entry "id") as [e|id]; simpl; [exact I|].
  split; [apply Hd; reflexivity|]. intro resp. apply check_error_footprint.
Qed.

Lemma update_entry_model_footprint (asset_tag : string) (model_id : value)
  (dry_run : bool) :
  Q (entry_lookup snipe_url api_key asset_tag) ->
  (dry_run = false ->
   forall id, Q (entry_patch snipe_url api_key id "model_id" model_id)) ->
  only_requests Q
    (update_entry_model snipe_url api_key asset_tag model_id dry_run).
Proof.
  intros Hl Hp. unfold update_entry_model.
  apply only_requests_bind; [apply get_entry_footprint, Hl|].
  intro entry.
  unfold remote_id. simpl.
  destruct (getitem entry "model") as [e|sub]; simpl; [exact I|].
  destruct (getitem sub "id") as [e|current]; simpl; [exact I|].
  destruct (Py.eq current model_id); simpl; [exact I|].
  destruct dry_run; simpl; [exact I|].
  destruct (getitem entry "id") as [e|id]; simpl; [exact I|].
  split; [apply Hp; reflexivity|]. intro resp. apply check_error_footprint.
Qed.

Lemma update_entry_status_label_footprint (asset_tag : string)
  (status_id : Z) (dry_run : bool) :
  Q (entry_lookup snipe_url api_key asset_tag) ->
  (dry_run = false ->
   forall id,
     Q (entry_patch snipe_url api_key id "status_id" (PInt status_id))) ->
  only_requests Q
    (update_entry_status_label snipe_url api_key asset_tag status_id
                               dry_run).
Proof.
  intros Hl Hp. unfold update_entry_status_label.
  apply only_requests_bind; [apply get_entry_footprint, Hl|].
  intro entry.
  unfold remote_id. simpl.
  destruct (getitem entry "status_label") as [e|sub]; simpl; [exact I|].
  destruct (getitem sub "id") as [e|current]; simpl; [exact I|].
  destruct (Py.eq current (PInt status_id)); simpl; [exact I|].
  destruct dry_run; simpl; [exact I|].
  destruct (getitem entry "id") as [e|id]; simpl; [exact I|].
  split; [apply Hp; reflexivity|]. intro resp. apply check_error_footprint.
Qed.

End Footprint.

(** ** Footprint of every operation *)

Lemma category_module_footprint (Q : request -> Prop) (m : Category.params) :
  (forall rq,
     written_request (Category.snipe_url m) (Category.api_key m) false rq ->
     Q rq) ->
  only_requests Q (Category.run_module m).
Proof.
  intro H. unfold Category.run_module.
  apply only_requests_bind.
  - apply create_category_footprint; intros; apply H; constructor; auto.
  - intro changed. apply only_requests_bind.
    + apply get_category_footprint, H. constructor.
    + intro category. prog_cases; exact I.
Qed.

Lemma model_module_footprint (Q : request -> Prop) (m : Model.params) :
  (forall rq,
     written_request (Model.snipe_url m) (Model.api_key m) (Model.dry_run m)
                     rq -> Q rq) ->
  only_requests Q (Model.run_module m).
Proof.
  intro H. unfold Model.run_module.
  apply only_requests_bind.
  - apply get_category_footprint, H. constructor.
  - intro category. destruct (truthy category); cbn [bind lift negb only_requests]; [|exact I].
    destruct (getitem category "id") as [e|id]; cbn [bind lift negb only_requests]; [exact I|].
    apply only_requests_bind.
    + apply create_model_footprint; intros; apply H; constructor; auto.
    + intro changed. exact I.
Qed.

Lemma entry_module_footprint (Q : request -> Prop) (m : Entry.params) :
  (forall rq,
     written_request (Entry.snipe_url m) (Entry.api_key m)
                     (Entry.check_mode m) rq -> Q rq) ->
  only_requests Q (Entry.run_module m).
Proof.
  intro H. unfold Entry.run_module, Entry.verify_params.
  destruct (Entry.state m).
  - destruct (Entry.unset (Entry.model_name m)); cbn [bind lift negb only_requests]; [exact I|].
    destruct (Entry.model_name m) as [name|]; [|exact I].
    apply only_requests_bind; [apply get_model_footprint, H; constructor|].
    intro model. destruct (truthy model); cbn [bind lift negb only_requests]; [|exact I].
    destruct (getitem model "id") as [e|id]; cbn [bind lift negb only_requests]; [exact I|].
    apply only_requests_bind;
      [apply create_entry_footprint; intros; apply H; constructor; auto|].
    intro changed.
    apply only_requests_bind;
      [apply update_entry_model_footprint; intros; apply H; constructor; auto|].
    intro updated.
    apply only_requests_bind;
      [apply update_entry_status_label_footprint; intros; apply H;
       constructor; auto|].
    intro updated'. exact I.
  - cbn [bind]. apply only_requests_bind;
      [apply delete_entry_footprint; intros; apply H; constructor; auto|].
    intro changed. exact I.
Qed.

Lemma operation_footprint {A : Type} (op : operation A) :
  only_requests
    (written_request (snipe_url_of op) (api_key_of op) (dry_run_of op))
    (program op).
Proof.
  destruct op; simpl.
  - apply get_category_footprint. constructor.
  - apply get_model_footprint. constructor.
  - apply get_entry_footprint. constructor.
  - apply create_category_footprint; intros; constructor; auto.
  - apply create_model_footprint; intros; constructor; auto.
  - apply create_entry_footprint; intros; constructor; auto.
  - apply delete_entry_footprint; intros; constructor; auto.
  - apply update_entry_model_footprint; intros; constructor; auto.
  - apply update_entry_status_label_footprint; intros; constructor; auto.
  - apply category_module_footprint. auto.
  - apply model_module_footprint. auto.
  - apply entry_module_footprint. auto.
Qed.

Lemma written_request_surface (u k : string) (d : bool) (rq : request) :
  written_request u k d rq -> api_surface u rq.
Proof.
  unfold api_surface. intros []; simpl.
  - left. auto.
  - do 2 right. left. auto.
  - do 5 right. left. eauto.
  - right. left. auto.
  - do 3 right. left. auto.
  - do 4 right. left. auto.
  - do 6 right. eauto.
  - do 6 right. eauto.
Qed.

Lemma written_request_dry (u k : string) (rq : request) :
  written_request u k true rq -> meth rq = GET.
Proof. intros []; try reflexivity; discriminate. Qed.

(** ** Dry runs *)

(** C4.  Whatever the operation and whatever the service answers, when the
    operation's dry-run flag is true every request it issues is a [GET]: no
    [POST], [PATCH] or [DELETE] leaves the program. *)
Theorem dry_run_issues_only_gets {A : Type} (op : operation A) :
  dry_run_flag op = Some true ->
  forall (server : Type) (handle : server -> request -> response * server) s,
    Forall (fun rq => meth rq = GET) (requests_of handle (program op) s).
Proof.
  intros Hflag server handle s.
  apply only_requests_run.
  apply only_requests_weaken
    with (Q := written_request (snipe_url_of op) (api_key_of op) true).
  - intros rq. apply written_request_dry.
  - pose proof (operation_footprint op) as H.
    unfold dry_run_of in H. rewrite Hflag in H. exact H.
Qed.

Lemma dry_run_issues_only_gets_witness :
  dry_run_flag (op_entry_module (Demo.present_task true)) = Some true /\
  Forall (fun rq => meth rq = GET)
         (requests_of Demo.one_asset
                      (program (op_entry_module (Demo.present_task true)))
                      (Some (Demo.asset 1 2))).
Proof.
  split; [reflexivity|].
  apply (dry_run_issues_only_gets (op_entry_module (Demo.present_task true))).
  reflexivity.
Defined.

(** ** The API surface *)

(** C8, as stated, fails: deleting an entry that exists sends [DELETE] to
    [/api/v1/hardware/9], which is none of the four listed endpoints. *)
Lemma delete_leaves_listed_endpoints :
  exists rq,
    In rq (requests_of Demo.one_asset
                       (program (op_delete_entry Demo.snipe Demo.key Demo.tag
                                                 false))
                       (Some (Demo.asset 3 2))) /\
    url rq = "http://localhost:8080/api/v1/hardware/9" /\
    ~ listed_endpoint Demo.snipe (url rq).
Proof.
  exists (entry_delete Demo.snipe Demo.key (PInt 9)).
  split; [right; left; reflexivity|].
  split; [reflexivity|].
  unfold listed_endpoint.
  change (base Demo.snipe) with "http://localhost:8080".
  intros [H|[H|[H|[t H]]]]; discriminate H.
Qed.

(** C8, amended.  Every request of every operation goes to the stripped base
    URL followed by one of five paths, each with its methods: [GET]/[POST]
    [/api/v1/categories], [GET]/[POST] [/api/v1/models], [POST]
    [/api/v1/hardware], [GET] [/api/v1/hardware/bytag/{tag}], and
    [PATCH]/[DELETE] [/api/v1/hardware/{id}]. *)
Theorem requests_within_api_surface {A : Type} (op : operation A) :
  forall (server : Type) (handle : server -> request -> response * server) s,
    Forall (api_surface (snipe_url_of op)) (requests_of handle (program op) s).
Proof.
  intros server handle s.
  apply only_requests_run.
  eapply only_requests_weaken; [|apply operation_footprint].
  intros rq. apply written_request_surface.
Qed.

(** ** Trailing slashes of [snipe_url] *)

Lemma base_slashes (u : string) (n : nat) : base (u ++ slashes n) = base u.
Proof. unfold base, slashes. apply rstrip_app_repeat. Qed.

Lemma program_slashes {A : Type} (op : operation A) (u : string) (n : nat) :
  program (with_snipe_url (u ++ slashes n) op) = program (with_snipe_url u op).
Proof.
  destruct op; simpl;
    unfold get_category, get_model, get_entry, create_category, create_model,
      create_entry, delete_entry, update_entry_model,
      update_entry_status_label, Category.run_module, Model.run_module,
      Entry.run_module, Entry.verify_params,
      get_category, get_model, get_entry, create_category, create_model,
      create_entry, delete_entry, update_entry_model,
      update_entry_status_label; simpl;
    rewrite ?base_slashes; reflexivity.
Qed.

Lemma written_request_url (u k : string) (d : bool) (rq : request) :
  written_request u k d rq ->
  exists path, url rq = base u ++ "/api/v1/" ++ path.
Proof.
  intros []; simpl.
  - exists "categories". reflexivity.
  - exists "models". reflexivity.
  - exists ("hardware/bytag/" ++ tag). reflexivity.
  - exists "categories". reflexivity.
  - exists "models". reflexivity.
  - exists "hardware". reflexivity.
  - exists ("hardware/" ++ Py.str id). reflexivity.
  - exists ("hardware/" ++ Py.str id). reflexivity.
Qed.

(** C9.  [base snipe_url] is [snipe_url] without its trailing slashes (what
    was cut is slashes only, and what is left does not end in one); every
    request URL of every operation is [base snipe_url] followed by an endpoint
    path; and two invocations whose [snipe_url]s differ only in the number of
    trailing slashes are the same program, so they issue identical requests. *)
Theorem trailing_slashes_do_not_matter {A : Type} (op : operation A)
  (u : string) (n m : nat) :
  (exists k, u = base u ++ slashes k) /\
  last_char (base u) <> Some "/"%char /\
  (forall (server : Type) (handle : server -> request -> response * server) s,
     Forall (fun rq => exists path, url rq = base u ++ "/api/v1/" ++ path)
            (requests_of handle (program (with_snipe_url u op)) s)) /\
  program (with_snipe_url (u ++ slashes n) op)
  = program (with_snipe_url (u ++ slashes m) op).
Proof.
  split; [apply rstrip_decompose|].
  split; [apply rstrip_last|].
  split.
  - intros server handle s. apply only_requests_run.
    eapply only_requests_weaken; [|apply operation_footprint].
    intros rq Hw. apply written_request_url in Hw.
    replace (snipe_url_of (with_snipe_url u op)) with u in Hw
      by (destruct op; reflexivity).
    exact Hw.
  - rewrite !program_slashes. reflexivity.
Qed.

(** ** Error envelopes answering a mutating request *)

Lemma check_error_on_status_error (what : string) (resp : response)
  (data : value) :
  status_error resp data -> ends_on_error data (check_error what resp).
Proof.
  intros (-> & status & Hs & He). unfold ends_on_error, check_error. simpl.
  rewrite Hs. simpl. rewrite He.
  destruct (getitem data "messages") as [e|messages]; simpl.
  - reflexivity.
  - exists what. reflexivity.
Qed.

Lemma check_error_fatal (what : string) (resp : response) :
  fatal_on_error (check_error what resp).
Proof. unfold check_error. prog_cases; exact I. Qed.

Lemma call_check_fatal (rq : request) (what : string) :
  fatal_on_error (response <- Call rq Ret ;; check_error what response).
Proof.
  simpl. intro resp. split.
  - intros _ data Hst. apply check_error_on_status_error, Hst.
  - apply check_error_fatal.
Qed.

Lemma get_category_fatal (u k n t : string) :
  fatal_on_error (get_category u k n t).
Proof.
  unfold get_category, requests_get. simpl. intro resp.
  split; [discriminate|]. prog_cases; exact I.
Qed.

Lemma get_model_fatal (u k n : string) : fatal_on_error (get_model u k n).
Proof.
  unfold get_model, requests_get. simpl. intro resp.
  split; [discriminate|]. prog_cases; exact I.
Qed.

Lemma get_entry_fatal (u k t : string) : fatal_on_error (get_entry u k t).
Proof.
  unfold get_entry, requests_get. simpl. intro resp.
  split; [discriminate|]. prog_cases; exact I.
Qed.

Lemma create_category_fatal (u k n t : string) (d : bool) :
  fatal_on_error (create_category u k n t d).
Proof.
  unfold create_category.
  apply fatal_on_error_bind; [apply get_category_fatal|]. intro category.
  destruct (truthy category); cbn [negb andb]; [exact I|].
  destruct d; [exact I|]. apply call_check_fatal.
Qed.

Lemma create_model_fatal (u k n : string) (c : value) (d : bool)
  (m : option Z) :
  fatal_on_error (create_model u k n c d m).
Proof.
  unfold create_model.
  apply fatal_on_error_bind; [apply get_model_fatal|]. intro model.
  destruct (truthy model); cbn [negb andb]; [exact I|].
  destruct d; [exact I|]. apply call_check_fatal.
Qed.

Lemma create_entry_fatal (u k t : string) (st : Z) (mo : value) (d : bool) :
  fatal_on_error (create_entry u k t st mo d).
Proof.
  unfold create_entry.
  apply fatal_on_error_bind; [apply get_entry_fatal|]. intro entry.
  destruct (truthy entry); cbn [negb andb]; [exact I|].
  destruct d; [exact I|]. apply call_check_fatal.
Qed.

Lemma delete_entry_fatal (u k t : string) (d : bool) :
  fatal_on_error (delete_entry u k t d).
Proof.
  unfold delete_entry.
  apply fatal_on_error_bind; [apply get_entry_fatal|]. intro entry.
  destruct (truthy entry); cbn [negb andb]; [|exact I].
  destruct d; [exact I|].
  destruct (getitem entry "id") as [e|id]; cbn [bind lift]; [exact I|].
  apply call_check_fatal.
Qed.

Lemma update_entry_model_fatal (u k t : string) (mo : value) (d : bool) :
  fatal_on_error (update_entry_model u k t mo d).
Proof.
  unfold update_entry_model.
  apply fatal_on_error_bind; [apply get_entry_fatal|]. intro entry.
  unfold remote_id.
  destruct (getitem entry "model") as [e|sub]; cbn [bind lift]; [exact I|].
  destruct (getitem sub "id") as [e|current]; cbn [bind lift]; [exact I|].
  destruct (Py.eq current mo); cbn [negb andb]; [exact I|].
  destruct d; [exact I|].
  destruct (getitem entry "id") as [e|id]; cbn [bind lift]; [exact I|].
  apply call_check_fatal.
Qed.

Lemma update_entry_status_label_fatal (u k t : string) (st : Z) (d : bool) :
  fatal_on_error (update_entry_status_label u k t st d).
Proof.
  unfold update_entry_status_label.
  apply fatal_on_error_bind; [apply get_entry_fatal|]. intro entry.
  unfold remote_id.
  destruct (getitem entry "status_label") as [e|sub]; cbn [bind lift];
    [exact I|].
  destruct (getitem sub "id") as [e|current]; cbn [bind lift]; [exact I|].
  destruct (Py.eq current (PInt st)); cbn [negb andb]; [exact I|].
  destruct d; [exact I|].
  destruct (getitem entry "id") as [e|id]; cbn [bind lift]; [exact I|].
  apply call_check_fatal.
Qed.

Lemma operation_fatal {A : Type} (op : operation A) :
  fatal_on_error (program op).
Proof.
  destruct op; cbn [program].
  - apply get_category_fatal.
  - apply get_model_fatal.
  - apply get_entry_fatal.
  - apply create_category_fatal.
  - apply create_model_fatal.
  - apply create_entry_fatal.
  - apply delete_entry_fatal.
  - apply update_entry_model_fatal.
  - apply update_entry_status_label_fatal.
  - unfold Category.run_module.
    apply fatal_on_error_bind; [apply create_category_fatal|]. intro changed.
    apply fatal_on_error_bind; [apply get_category_fatal|]. intro category.
    prog_cases; exact I.
  - unfold Model.run_module.
    apply fatal_on_error_bind; [apply get_category_fatal|]. intro category.
    destruct (truthy category); cbn [negb]; [|exact I].
    destruct (getitem category "id") as [e|id]; cbn [bind lift]; [exact I|].
    apply fatal_on_error_bind; [apply create_model_fatal|]. intro changed.
    exact I.
  - unfold Entry.run_module, Entry.verify_params.
    destruct (Entry.state m).
    + destruct (Entry.unset (Entry.model_name m)); cbn [bind]; [exact I|].
      destruct (Entry.model_name m) as [name|]; [|exact I].
      apply fatal_on_error_bind; [apply get_model_fatal|]. intro model.
      destruct (truthy model); cbn [negb]; [|exact I].
      destruct (getitem model "id") as [e|id]; cbn [bind lift]; [exact I|].
      apply fatal_on_error_bind; [apply create_entry_fatal|]. intro changed.
      apply fatal_on_error_bind; [apply update_entry_model_fatal|].
      intro updated.
      apply fatal_on_error_bind; [apply update_entry_status_label_fatal|].
      intro updated'. exact I.
    + cbn [bind].
      apply fatal_on_error_bind; [apply delete_entry_fatal|]. intro changed.
      exact I.
Qed.

(** C6.  In the run of any operation against any service: if a mutating
    request ([POST], [PATCH], [DELETE]) is answered with the status ["error"],
    that exchange is the last one of the run.  When the answer holds
    [messages], whatever its value, the run ends in [fail_json] with a
    message that ends in [str(messages)]; for a [messages] that is a text
    this is the text itself, unaltered.  When the answer holds no [messages],
    the run ends in the uncaught exception the subscript raises. *)
Theorem error_envelope_is_fatal {A : Type} (op : operation A)
  (server : Type) (handle : server -> request -> response * server) s
  (l1 l2 : list exchange) (rq : request) (resp : response)
  (data status : value) :
  log_of handle (program op) s = (l1 ++ (rq, resp) :: l2)%list ->
  mutating rq = true ->
  resp = Some data ->
  getitem data "status" = inr status ->
  Py.eq status (PStr "error") = true ->
  l2 = [] /\
  match getitem data "messages" with
  | inr messages =>
      exists what,
        outcome_of handle (program op) s = Failed (what ++ Py.str messages)
  | inl e => outcome_of handle (program op) s = Raised e
  end /\
  forall text,
    getitem data "messages" = inr (PStr text) ->
    exists what, outcome_of handle (program op) s = Failed (what ++ text).
Proof.
  intros Hlog Hm Hresp Hs He.
  assert (Hst : status_error resp data)
    by (split; [exact Hresp | exists status; split; assumption]).
  destruct (fatal_on_error_run (program op) (operation_fatal op) server handle
                               s l1 rq resp l2 data Hlog Hm Hst)
    as [Hlast Hend].
  split; [exact Hlast|]. split; [exact Hend|].
  intros text Ht. rewrite Ht in Hend. exact Hend.
Qed.

Lemma error_envelope_is_fatal_witness :
  log_of scripted
         (program (op_create_category Demo.snipe Demo.key "servers" "asset"
                                      false))
         [Demo.no_rows; Demo.invalid]
  = ([(category_lookup Demo.snipe Demo.key "servers" "asset", Demo.no_rows)]
     ++ (category_create Demo.snipe Demo.key "servers" "asset", Demo.invalid)
     :: [])%list /\
  exists what,
    outcome_of scripted
               (program (op_create_category Demo.snipe Demo.key "servers"
                                            "asset" false))
               [Demo.no_rows; Demo.invalid]
    = Failed (what ++ "{'name': ['The name field is required.']}").
Proof.
  split; [reflexivity|].
  exact (proj1 (proj2
    (error_envelope_is_fatal
       (op_create_category Demo.snipe Demo.key "servers" "asset" false)
       (list response) scripted [Demo.no_rows; Demo.invalid]
       [(category_lookup Demo.snipe Demo.key "servers" "asset",
         Demo.no_rows)]
       []
       (category_create Demo.snipe Demo.key "servers" "asset")
       Demo.invalid
       (PDict [("status", PStr "error");
               ("messages",
                PDict [("name", PList [PStr "The name field is required."])]);
               ("payload", PNone)])
       (PStr "error") eq_refl eq_refl eq_refl eq_refl eq_refl))).
Defined.

(** ** Runs, one answer at a time *)

Section RunFacts.

Variable server : Type.
Variable handle : server -> request -> response * server.

Lemma run_bind {A B : Type} (p : prog A) (f : A -> prog B) (s : server) :
  run handle (bind p f) s
  = let '(o, l, s') := run handle p s in
    match o with
    | Returned a =>
        let '(o', l', s'') := run handle (f a) s' in (o', (l ++ l')%list, s'')
    | Raised e => (Raised e, l, s')
    | Failed msg => (Failed msg, l, s')
    | Exited r => (Exited r, l, s')
    end.
Proof.
  revert s. induction p as [a|e|msg|r|rq k IH]; intro s; simpl.
  - destruct (run handle (f a) s) as [[o l] s']. reflexivity.
  - reflexivity.
  - reflexivity.
  - reflexivity.
  - destruct (handle s rq) as [resp s']. rewrite IH.
    destruct (run handle (k resp) s') as [[o l] s''].
    destruct o; try reflexivity.
    destruct (run handle (f a) s'') as [[o' l'] s3]. reflexivity.
Qed.

Lemma run_get_category_missing (u k n t : string) (s s1 : server)
  (resp : response) :
  handle s (category_lookup u k n t) = (resp, s1) ->
  row_missing resp ->
  run handle (get_category u k n t) s
  = (Returned PNone, [(category_lookup u k n t, resp)], s1).
Proof.
  intros Hh (data & total & -> & Ht & Hz).
  unfold get_category, requests_get, category_lookup in *. simpl.
  rewrite Hh. simpl. rewrite Ht. simpl. rewrite Hz. reflexivity.
Qed.

Lemma run_get_category_found (u k n t : string) (s s1 : server)
  (resp : response) (row : value) :
  handle s (category_lookup u k n t) = (resp, s1) ->
  row_found resp row ->
  run handle (get_category u k n t) s
  = (Returned row, [(category_lookup u k n t, resp)], s1).
Proof.
  intros Hh (data & total & rows & -> & Ht & Hz & Hr & H0).
  unfold get_category, requests_get, category_lookup in *. simpl.
  rewrite Hh. simpl. rewrite Ht. simpl. rewrite Hz. simpl.
  rewrite Hr. simpl. rewrite H0. reflexivity.
Qed.

Lemma run_get_model_missing (u k n : string) (s s1 : server)
  (resp : response) :
  handle s (model_lookup u k n) = (resp, s1) ->
  row_missing resp ->
  run handle (get_model u k n) s
  = (Returned PNone, [(model_lookup u k n, resp)], s1).
Proof.
  intros Hh (data & total & -> & Ht & Hz).
  unfold get_model, requests_get, model_lookup in *. simpl.
  rewrite Hh. simpl. rewrite Ht. simpl. rewrite Hz. reflexivity.
Qed.

Lemma run_get_model_found (u k n : string) (s s1 : server)
  (resp : response) (row : value) :
  handle s (model_lookup u k n) = (resp, s1) ->
  row_found resp row ->
  run handle (get_model u k n) s
  = (Returned row, [(model_lookup u k n, resp)], s1).
Proof.
  intros Hh (data & total & rows & -> & Ht & Hz & Hr & H0).
  unfold get_model, requests_get, model_lookup in *. simpl.
  rewrite Hh. simpl. rewrite Ht. simpl. rewrite Hz. simpl.
  rewrite Hr. simpl. rewrite H0. reflexivity.
Qed.

Lemma run_get_entry_found (u k t : string) (s s1 : server)
  (resp : response) (entry : value) :
  handle s (entry_lookup u k t) = (resp, s1) ->
  entry_found resp entry ->
  run handle (get_entry u k t) s
  = (Returned entry, [(entry_lookup u k t, resp)], s1).
Proof.
  intros Hh [-> Hk].
  unfold get_entry, requests_get, entry_lookup in *. simpl in *.
  rewrite Hh. simpl. rewrite Hk. reflexivity.
Qed.

Lemma run_get_entry_missing (u k t : string) (s s1 : server)
  (resp : response) :
  handle s (entry_lookup u k t) = (resp, s1) ->
  entry_missing resp ->
  run handle (get_entry u k t) s
  = (Returned PNone, [(entry_lookup u k t, resp)], s1).
Proof.
  intros Hh (data & -> & Hk & Hs & Hm).
  unfold get_entry, requests_get, entry_lookup in *. simpl in *.
  rewrite Hh. simpl. rewrite Hk. simpl. rewrite Hs. simpl.
  rewrite Hm. reflexivity.
Qed.

Lemma run_get_entry_error (u k t : string) (s s1 : server)
  (data messages : value) :
  handle s (entry_lookup u k t) = (Some data, s1) ->
  in_keys "asset_tag" data = inr false ->
  getitem data "status" = inr (PStr "error") ->
  getitem data "messages" = inr messages ->
  Py.eq messages (PStr "Asset does not exist.") = false ->
  run handle (get_entry u k t) s
  = (Failed ("Error retrieving entry: " ++ Py.str messages),
     [(entry_lookup u k t, Some data)], s1).
Proof.
  intros Hh Hk Hs Hm Hne.
  unfold get_entry, requests_get, entry_lookup in *. simpl in *.
  rewrite Hh. simpl. rewrite Hk. simpl. rewrite Hs. simpl.
  rewrite Hm. simpl. rewrite Hne. reflexivity.
Qed.

Lemma run_call_accepted (rq : request) (what : string) (s s1 : server)
  (resp : response) :
  handle s rq = (resp, s1) ->
  accepted resp ->
  run handle (response <- Call rq Ret ;; check_error what response) s
  = (Returned true, [(rq, resp)], s1).
Proof.
  intros Hh (data & status & -> & Hs & Hne).
  unfold check_error. simpl. rewrite Hh. simpl. rewrite Hs. simpl.
  rewrite Hne. reflexivity.
Qed.

Lemma run_create_category_new (u k n t : string) (s s1 s2 : server)
  (r1 r2 : response) :
  handle s (category_lookup u k n t) = (r1, s1) -> row_missing r1 ->
  handle s1 (category_create u k n t) = (r2, s2) -> accepted r2 ->
  run handle (create_category u k n t false) s
  = (Returned true,
     [(category_lookup u k n t, r1); (category_create u k n t, r2)], s2).
Proof.
  intros H1 Hm H2 Ha. unfold create_category.
  rewrite run_bind, (run_get_category_missing _ _ _ _ _ _ _ H1 Hm). run_simpl.
  unfold requests_post.
  fold (category_create u k n t).
  rewrite (run_call_accepted _ _ _ _ _ H2 Ha). reflexivity.
Qed.

Lemma run_create_category_dry (u k n t : string) (s s1 : server)
  (r1 : response) :
  handle s (category_lookup u k n t) = (r1, s1) -> row_missing r1 ->
  run handle (create_category u k n t true) s
  = (Returned true, [(category_lookup u k n t, r1)], s1).
Proof.
  intros H1 Hm. unfold create_category.
  rewrite run_bind, (run_get_category_missing _ _ _ _ _ _ _ H1 Hm). run_simpl.
  reflexivity.
Qed.

Lemma run_create_category_existing (u k n t : string) (d : bool)
  (s s1 : server) (r1 : response) (row : value) :
  handle s (category_lookup u k n t) = (r1, s1) -> row_found r1 row ->
  truthy row = true ->
  run handle (create_category u k n t d) s
  = (Returned false, [(category_lookup u k n t, r1)], s1).
Proof.
  intros H1 Hf Ht. unfold create_category.
  rewrite run_bind, (run_get_category_found _ _ _ _ _ _ _ _ H1 Hf).
  run_simpl. rewrite Ht. reflexivity.
Qed.

Lemma run_create_model_new (u k n : string) (c : value) (m : option Z)
  (s s1 s2 : server) (r1 r2 : response) :
  handle s (model_lookup u k n) = (r1, s1) -> row_missing r1 ->
  handle s1 (model_create u k n c m) = (r2, s2) -> accepted r2 ->
  run handle (create_model u k n c false m) s
  = (Returned true,
     [(model_lookup u k n, r1); (model_create u k n c m, r2)], s2).
Proof.
  intros H1 Hm H2 Ha. unfold create_model.
  rewrite run_bind, (run_get_model_missing _ _ _ _ _ _ H1 Hm). run_simpl.
  unfold requests_post.
  fold (model_create u k n c m).
  rewrite (run_call_accepted _ _ _ _ _ H2 Ha). reflexivity.
Qed.

Lemma run_create_model_dry (u k n : string) (c : value) (m : option Z)
  (s s1 : server) (r1 : response) :
  handle s (model_lookup u k n) = (r1, s1) -> row_missing r1 ->
  run handle (create_model u k n c true m) s
  = (Returned true, [(model_lookup u k n, r1)], s1).
Proof.
  intros H1 Hm. unfold create_model.
  rewrite run_bind, (run_get_model_missing _ _ _ _ _ _ H1 Hm). run_simpl.
  reflexivity.
Qed.

Lemma run_create_model_existing (u k n : string) (c : value) (d : bool)
  (m : option Z) (s s1 : server) (r1 : response) (row : value) :
  handle s (model_lookup u k n) = (r1, s1) -> row_found r1 row ->
  truthy row = true ->
  run handle (create_model u k n c d m) s
  = (Returned false, [(model_lookup u k n, r1)], s1).
Proof.
  intros H1 Hf Ht. unfold create_model.
  rewrite run_bind, (run_get_model_found _ _ _ _ _ _ _ H1 Hf).
  run_simpl. rewrite Ht. reflexivity.
Qed.

Lemma run_create_entry_new (u k t : string) (st : Z) (mo : value)
  (s s1 s2 : server) (r1 r2 : response) :
  handle s (entry_lookup u k t) = (r1, s1) -> entry_missing r1 ->
  handle s1 (entry_create u k t st mo) = (r2, s2) -> accepted r2 ->
  run handle (create_entry u k t st mo false) s
  = (Returned true,
     [(entry_lookup u k t, r1); (entry_create u k t st mo, r2)], s2).
Proof.
  intros H1 Hm H2 Ha. unfold create_entry.
  rewrite run_bind, (run_get_entry_missing _ _ _ _ _ _ H1 Hm). run_simpl.
  unfold requests_post.
  fold (entry_create u k t st mo).
  rewrite (run_call_accepted _ _ _ _ _ H2 Ha). reflexivity.
Qed.

Lemma run_create_entry_dry (u k t : string) (st : Z) (mo : value)
  (s s1 : server) (r1 : response) :
  handle s (entry_lookup u k t) = (r1, s1) -> entry_missing r1 ->
  run handle (create_entry u k t st mo true) s
  = (Returned true, [(entry_lookup u k t, r1)], s1).
Proof.
  intros H1 Hm. unfold create_entry.
  rewrite run_bind, (run_get_entry_missing _ _ _ _ _ _ H1 Hm). run_simpl.
  reflexivity.
Qed.

Lemma run_create_entry_existing (u k t : string) (st : Z) (mo : value)
  (d : bool) (s s1 : server) (r1 : response) (entry : value) :
  handle s (entry_lookup u k t) = (r1, s1) -> entry_found r1 entry ->
  run handle (create_entry u k t st mo d) s
  = (Returned false, [(entry_lookup u k t, r1)], s1).
Proof.
  intros H1 Hf. unfold create_entry.
  rewrite run_bind, (run_get_entry_found _ _ _ _ _ _ _ H1 Hf).
  run_simpl. destruct Hf as [_ Hk]. rewrite (in_keys_truthy _ _ Hk).
  reflexivity.
Qed.

Lemma run_delete_entry_missing (u k t : string) (d : bool) (s s1 : server)
  (r1 : response) :
  handle s (entry_lookup u k t) = (r1, s1) -> entry_missing r1 ->
  run handle (delete_entry u k t d) s
  = (Returned false, [(entry_lookup u k t, r1)], s1).
Proof.
  intros H1 Hm. unfold delete_entry.
  rewrite run_bind, (run_get_entry_missing _ _ _ _ _ _ H1 Hm). run_simpl.
  reflexivity.
Qed.

Lemma run_delete_entry_dry (u k t : string) (s s1 : server)
  (r1 : response) (entry : value) :
  handle s (entry_lookup u k t) = (r1, s1) -> entry_found r1 entry ->
  run handle (delete_entry u k t true) s
  = (Returned true, [(entry_lookup u k t, r1)], s1).
Proof.
  intros H1 Hf. unfold delete_entry.
  rewrite run_bind, (run_get_entry_found _ _ _ _ _ _ _ H1 Hf).
  run_simpl. destruct Hf as [_ Hk]. rewrite (in_keys_truthy _ _ Hk).
  reflexivity.
Qed.

Lemma run_delete_entry_found (u k t : string) (s s1 s2 : server)
  (r1 r2 : response) (entry id : value) :
  handle s (entry_lookup u k t) = (r1, s1) -> entry_found r1 entry ->
  getitem entry "id" = inr id ->
  handle s1 (entry_delete u k id) = (r2, s2) -> accepted r2 ->
  run handle (delete_entry u k t false) s
  = (Returned true,
     [(entry_lookup u k t, r1); (entry_delete u k id, r2)], s2).
Proof.
  intros H1 Hf Hid H2 Ha. unfold delete_entry.
  rewrite run_bind, (run_get_entry_found _ _ _ _ _ _ _ H1 Hf).
  run_simpl. destruct Hf as [_ Hk]. rewrite (in_keys_truthy _ _ Hk).
  run_simpl. rewrite Hid. run_simpl.
  unfold requests_delete. fold (entry_delete u k id).
  rewrite (run_call_accepted _ _ _ _ _ H2 Ha). reflexivity.
Qed.

Lemma run_update_entry_model_same (u k t : string) (mo : value) (d : bool)
  (s s1 : server) (r1 : response) (entry current : value) :
  handle s (entry_lookup u k t) = (r1, s1) -> entry_found r1 entry ->
  remote_field entry "model" current -> Py.eq current mo = true ->
  run handle (update_entry_model u k t mo d) s
  = (Returned false, [(entry_lookup u k t, r1)], s1).
Proof.
  intros H1 Hf (sub & Hs & Hc) He. unfold update_entry_model, remote_id.
  rewrite run_bind, (run_get_entry_found _ _ _ _ _ _ _ H1 Hf).
  run_simpl. rewrite Hs. run_simpl. rewrite Hc. run_simpl. rewrite He.
  reflexivity.
Qed.

Lemma run_update_entry_model_dry (u k t : string) (mo : value)
  (s s1 : server) (r1 : response) (entry current : value) :
  handle s (entry_lookup u k t) = (r1, s1) -> entry_found r1 entry ->
  remote_field entry "model" current -> Py.eq current mo = false ->
  run handle (update_entry_model u k t mo true) s
  = (Returned true, [(entry_lookup u k t, r1)], s1).
Proof.
  intros H1 Hf (sub & Hs & Hc) He. unfold update_entry_model, remote_id.
  rewrite run_bind, (run_get_entry_found _ _ _ _ _ _ _ H1 Hf).
  run_simpl. rewrite Hs. run_simpl. rewrite Hc. run_simpl. rewrite He.
  reflexivity.
Qed.

Lemma run_update_entry_model_differs (u k t : string) (mo : value)
  (s s1 s2 : server) (r1 r2 : response) (entry current id : value) :
  handle s (entry_lookup u k t) = (r1, s1) -> entry_found r1 entry ->
  remote_field entry "model" current -> Py.eq current mo = false ->
  getitem entry "id" = inr id ->
  handle s1 (entry_patch u k id "model_id" mo) = (r2, s2) -> accepted r2 ->
  run handle (update_entry_model u k t mo false) s
  = (Returned true,
     [(entry_lookup u k t, r1); (entry_patch u k id "model_id" mo, r2)], s2).
Proof.
  intros H1 Hf (sub & Hs & Hc) He Hid H2 Ha.
  unfold update_entry_model, remote_id.
  rewrite run_bind, (run_get_entry_found _ _ _ _ _ _ _ H1 Hf).
  run_simpl. rewrite Hs. run_simpl. rewrite Hc. run_simpl. rewrite He.
  run_simpl. rewrite Hid. run_simpl.
  unfold requests_patch. fold (entry_patch u k id "model_id" mo).
  rewrite (run_call_accepted _ _ _ _ _ H2 Ha). reflexivity.
Qed.

Lemma run_update_entry_status_label_same (u k t : string) (st : Z)
  (d : bool) (s s1 : server) (r1 : response) (entry current : value) :
  handle s (entry_lookup u k t) = (r1, s1) -> entry_found r1 entry ->
  remote_field entry "status_label" current ->
  Py.eq current (PInt st) = true ->
  run handle (update_entry_status_label u k t st d) s
  = (Returned false, [(entry_lookup u k t, r1)], s1).
Proof.
  intros H1 Hf (sub & Hs & Hc) He.
  unfold update_entry_status_label, remote_id.
  rewrite run_bind, (run_get_entry_found _ _ _ _ _ _ _ H1 Hf).
  run_simpl. rewrite Hs. run_simpl. rewrite Hc. run_simpl. rewrite He.
  reflexivity.
Qed.

Lemma run_update_entry_status_label_dry (u k t : string) (st : Z)
  (s s1 : server) (r1 : response) (entry current : value) :
  handle s (entry_lookup u k t) = (r1, s1) -> entry_found r1 entry ->
  remote_field entry "status_label" current ->
  Py.eq current (PInt st) = false ->
  run handle (update_entry_status_label u k t st true) s
  = (Returned true, [(entry_lookup u k t, r1)], s1).
Proof.
  intros H1 Hf (sub & Hs & Hc) He.
  unfold update_entry_status_label, remote_id.
  rewrite run_bind, (run_get_entry_found _ _ _ _ _ _ _ H1 Hf).
  run_simpl. rewrite Hs. run_simpl. rewrite Hc. run_simpl. rewrite He.
  reflexivity.
Qed.

Lemma run_update_entry_status_label_differs (u k t : string) (st : Z)
  (s s1 s2 : server) (r1 r2 : response) (entry current id : value) :
  handle s (entry_lookup u k t) = (r1, s1) -> entry_found r1 entry ->
  remote_field entry "status_label" current ->
  Py.eq current (PInt st) = false ->
  getitem entry "id" = inr id ->
  handle s1 (entry_patch u k id "status_id" (PInt st)) = (r2, s2) ->
  accepted r2 ->
  run handle (update_entry_status_label u k t st false) s
  = (Returned true,
     [(entry_lookup u k t, r1);
      (entry_patch u k id "status_id" (PInt st), r2)], s2).
Proof.
  intros H1 Hf (sub & Hs & Hc) He Hid H2 Ha.
  unfold update_entry_status_label, remote_id.
  rewrite run_bind, (run_get_entry_found _ _ _ _ _ _ _ H1 Hf).
  run_simpl. rewrite Hs. run_simpl. rewrite Hc. run_simpl. rewrite He.
  run_simpl. rewrite Hid. run_simpl.
  unfold requests_patch. fold (entry_patch u k id "status_id" (PInt st)).
  rewrite (run_call_accepted _ _ _ _ _ H2 Ha). reflexivity.
Qed.

End RunFacts.

(** ** The payload of [create_model] *)

Lemma model_payload_spelled_out (name : string) (category_id : value)
  (manufacturer_id : option Z) :
  model_payload name category_id manufacturer_id
  = ([("name", PStr name); ("category_id", category_id)]
     ++ (if truthy_int manufacturer_id
         then [("manufacturer_id", opt_int manufacturer_id)]
         else []))%list.
Proof.
  unfold model_payload. destruct (truthy_int manufacturer_id); reflexivity.
Qed.

(** C10.  In a real run of [create_model] whose lookup reports the model
    absent, the second request is the [POST] to [/api/v1/models], and its
    payload is [name] and [category_id] followed by [manufacturer_id] exactly
    when that argument is truthy: the key is in the payload if and only if
    the argument is truthy, so [0] and [None] both leave it out.  No run of
    [create_model], dry or real, posts any other payload. *)
Theorem manufacturer_id_sent_iff_truthy (snipe_url api_key name : string)
  (category_id : value) (manufacturer_id : option Z) (server : Type)
  (handle : server -> request -> response * server) (s s1 : server)
  (r1 : response) :
  handle s (model_lookup snipe_url api_key name) = (r1, s1) ->
  row_missing r1 ->
  exists payload,
    payload
    = ([("name", PStr name); ("category_id", category_id)]
       ++ (if truthy_int manufacturer_id
           then [("manufacturer_id", opt_int manufacturer_id)]
           else []))%list /\
    requests_of handle
      (create_model snipe_url api_key name category_id false manufacturer_id)
      s
    = [model_lookup snipe_url api_key name;
       mkRequest POST (base snipe_url ++ "/api/v1/models") (bearer api_key)
                 [] (Some (PDict payload))] /\
    in_keys "manufacturer_id" (PDict payload)
    = inr (truthy_int manufacturer_id) /\
    (manufacturer_id = Some 0%Z \/ manufacturer_id = None ->
     payload = [("name", PStr name); ("category_id", category_id)]) /\
    forall dry_run (server' : Type)
           (handle' : server' -> request -> response * server') s',
      Forall (fun rq => meth rq = POST -> json rq = Some (PDict payload))
             (requests_of handle'
                (create_model snipe_url api_key name category_id dry_run
                              manufacturer_id) s').
Proof.
  intros H1 Hm. eexists. split; [reflexivity|].
  rewrite <- model_payload_spelled_out.
  split; [|split; [|split]].
  - unfold requests_of, log_of, create_model.
    rewrite run_bind. erewrite run_get_model_missing by eassumption.
    run_simpl. unfold requests_post, check_error, model_lookup. simpl.
    destruct (handle s1 _) as [r2 s2].
    prog_cases; reflexivity.
  - unfold model_payload. destruct manufacturer_id as [z|]; simpl.
    + destruct (Z.eqb z 0); reflexivity.
    + reflexivity.
  - intros [-> | ->]; reflexivity.
  - intros dry_run server' handle' s'. apply only_requests_run.
    apply create_model_footprint.
    + discriminate.
    + intros _ _. reflexivity.
Qed.

Lemma manufacturer_id_sent_iff_truthy_witness :
  exists payload,
    payload
    = [("name", PStr "server"); ("category_id", PInt 4);
       ("manufacturer_id", PInt 7)] /\
    requests_of scripted
      (create_model Demo.snipe Demo.key "server" (PInt 4) false (Some 7%Z))
      [Demo.no_rows; Demo.success]
    = [model_lookup Demo.snipe Demo.key "server";
       mkRequest POST "http://localhost:8080/api/v1/models"
                 (bearer Demo.key) [] (Some (PDict payload))].
Proof.
  destruct (manufacturer_id_sent_iff_truthy Demo.snipe Demo.key "server"
              (PInt 4) (Some 7%Z) (list response) scripted
              [Demo.no_rows; Demo.success] [Demo.success] Demo.no_rows
              eq_refl
              (ex_intro _ _ (ex_intro _ _
                 (conj eq_refl (conj eq_refl eq_refl)))))
    as (payload & Hp & Hreq & _).
  exists payload. split; [exact Hp | exact Hreq].
Defined.

(** ** Lookups *)

(** C2 (the code departs from it).  An error envelope that does not mean
    absence makes the two list lookups, [get_model] and [get_category], end in
    an uncaught [KeyError] on ["total"]: they never look at [status] or
    [messages], and [fail_json] is not reached, where [get_entry] on the same
    answer ends in [fail_json] with the envelope's [messages]. *)
Lemma list_lookup_error_envelope_raises :
  error_envelope Demo.refused (PStr Demo.refusal) /\
  outcome_of scripted (get_model Demo.snipe Demo.key "server") [Demo.refused]
  = Raised (KeyError "total") /\
  outcome_of scripted (get_category Demo.snipe Demo.key "servers" "asset")
             [Demo.refused]
  = Raised (KeyError "total") /\
  (forall msg,
     outcome_of scripted (get_model Demo.snipe Demo.key "server")
                [Demo.refused]
     <> Failed msg) /\
  outcome_of scripted (get_entry Demo.snipe Demo.key Demo.tag) [Demo.refused]
  = Failed ("Error retrieving entry: " ++ Demo.refusal).
Proof.
  split.
  - eexists. repeat split; reflexivity.
  - repeat split; try reflexivity. intros msg H. discriminate H.
Qed.

(** X20.  [get_entry] tells the cases apart by the answer's payload:
    an answer holding [asset_tag] is the entry; the error envelope whose
    [messages] is "Asset does not exist." gives [None]; any other error
    envelope ends the run in [fail_json] with its [messages].  [get_category]
    and [get_model] read the list envelope: [total == 0] gives [None],
    otherwise the first row is returned.  Each lookup is one [GET]. *)
Theorem lookup_outcomes (server : Type)
  (handle : server -> request -> response * server) (s s1 : server)
  (resp : response) (u k : string) :
  (forall t,
     handle s (entry_lookup u k t) = (resp, s1) ->
     (forall entry,
        entry_found resp entry ->
        run handle (get_entry u k t) s
        = (Returned entry, [(entry_lookup u k t, resp)], s1)) /\
     (entry_missing resp ->
      run handle (get_entry u k t) s
      = (Returned PNone, [(entry_lookup u k t, resp)], s1)) /\
     (forall data messages,
        resp = Some data ->
        in_keys "asset_tag" data = inr false ->
        getitem data "status" = inr (PStr "error") ->
        getitem data "messages" = inr messages ->
        Py.eq messages (PStr "Asset does not exist.") = false ->
        run handle (get_entry u k t) s
        = (Failed ("Error retrieving entry: " ++ Py.str messages),
           [(entry_lookup u k t, resp)], s1))) /\
  (forall n t,
     handle s (category_lookup u k n t) = (resp, s1) ->
     (row_missing resp ->
      run handle (get_category u k n t) s
      = (Returned PNone, [(category_lookup u k n t, resp)], s1)) /\
     (forall row,
        row_found resp row ->
        run handle (get_category u k n t) s
        = (Returned row, [(category_lookup u k n t, resp)], s1))) /\
  (forall n,
     handle s (model_lookup u k n) = (resp, s1) ->
     (row_missing resp ->
      run handle (get_model u k n) s
      = (Returned PNone, [(model_lookup u k n, resp)], s1)) /\
     (forall row,
        row_found resp row ->
        run handle (get_model u k n) s
        = (Returned row, [(model_lookup u k n, resp)], s1))).
Proof.
  split; [|split].
  - intros t Hh. split; [|split].
    + intros entry Hf. apply run_get_entry_found; assumption.
    + intro Hm. apply run_get_entry_missing; assumption.
    + intros data messages -> Hk Hs Hm Hne.
      apply run_get_entry_error; assumption.
  - intros n t Hh. split.
    + intro Hm. apply run_get_category_missing; assumption.
    + intros row Hf. apply run_get_category_found; assumption.
  - intros n Hh. split.
    + intro Hm. apply run_get_model_missing; assumption.
    + intros row Hf. apply run_get_model_found; assumption.
Qed.

Lemma lookup_outcomes_witness :
  run scripted (get_entry Demo.snipe Demo.key Demo.tag) [Demo.refused]
  = (Failed ("Error retrieving entry: " ++ Demo.refusal),
     [(entry_lookup Demo.snipe Demo.key Demo.tag, Demo.refused)], []) /\
  run scripted (get_entry Demo.snipe Demo.key Demo.tag) [Demo.missing_asset]
  = (Returned PNone,
     [(entry_lookup Demo.snipe Demo.key Demo.tag, Demo.missing_asset)], []) /\
  run scripted (get_model Demo.snipe Demo.key "server") [Demo.model_rows]
  = (Returned Demo.server_model,
     [(model_lookup Demo.snipe Demo.key "server", Demo.model_rows)], []).
Proof.
  split; [|split].
  - destruct (lookup_outcomes (list response) scripted [Demo.refused] []
                              Demo.refused Demo.snipe Demo.key)
      as [He _].
    destruct (He Demo.tag eq_refl) as (_ & _ & Herr).
    exact (Herr _ (PStr Demo.refusal) eq_refl eq_refl eq_refl eq_refl eq_refl).
  - destruct (lookup_outcomes (list response) scripted [Demo.missing_asset] []
                              Demo.missing_asset Demo.snipe Demo.key)
      as [He _].
    destruct (He Demo.tag eq_refl) as (_ & Hmiss & _).
    apply Hmiss. eexists. repeat split; reflexivity.
  - destruct (lookup_outcomes (list response) scripted [Demo.model_rows] []
                              Demo.model_rows Demo.snipe Demo.key)
      as (_ & _ & Hm).
    destruct (Hm "server" eq_refl) as [_ Hfound].
    apply Hfound. do 3 eexists. repeat split; reflexivity.
Defined.

(** ** Creating twice *)

(** C3.  For each of [create_category], [create_model] and [create_entry], in
    a real run: when the first lookup reports the resource absent, the [POST]
    is accepted, and the next lookup on the server so left reports the
    resource, the first invocation returns [True] after one lookup and one
    [POST], and the second invocation, started where the first left the
    server, returns [False] after its lookup alone. *)
Theorem create_twice (server : Type)
  (handle : server -> request -> response * server) (s0 s1 s2 s3 : server)
  (r1 r2 r3 : response) (u k : string) :
  (forall n t row,
     handle s0 (category_lookup u k n t) = (r1, s1) -> row_missing r1 ->
     handle s1 (category_create u k n t) = (r2, s2) -> accepted r2 ->
     handle s2 (category_lookup u k n t) = (r3, s3) -> row_found r3 row ->
     truthy row = true ->
     run handle (create_category u k n t false) s0
     = (Returned true,
        [(category_lookup u k n t, r1); (category_create u k n t, r2)], s2) /\
     run handle (create_category u k n t false) s2
     = (Returned false, [(category_lookup u k n t, r3)], s3)) /\
  (forall n c m row,
     handle s0 (model_lookup u k n) = (r1, s1) -> row_missing r1 ->
     handle s1 (model_create u k n c m) = (r2, s2) -> accepted r2 ->
     handle s2 (model_lookup u k n) = (r3, s3) -> row_found r3 row ->
     truthy row = true ->
     run handle (create_model u k n c false m) s0
     = (Returned true,
        [(model_lookup u k n, r1); (model_create u k n c m, r2)], s2) /\
     run handle (create_model u k n c false m) s2
     = (Returned false, [(model_lookup u k n, r3)], s3)) /\
  (forall t st mo entry,
     handle s0 (entry_lookup u k t) = (r1, s1) -> entry_missing r1 ->
     handle s1 (entry_create u k t st mo) = (r2, s2) -> accepted r2 ->
     handle s2 (entry_lookup u k t) = (r3, s3) -> entry_found r3 entry ->
     run handle (create_entry u k t st mo false) s0
     = (Returned true,
        [(entry_lookup u k t, r1); (entry_create u k t st mo, r2)], s2) /\
     run handle (create_entry u k t st mo false) s2
     = (Returned false, [(entry_lookup u k t, r3)], s3)).
Proof.
  split; [|split].
  - intros n t row H1 Hm H2 Ha H3 Hf Ht. split.
    + eapply run_create_category_new; eassumption.
    + eapply run_create_category_existing; eassumption.
  - intros n c m row H1 Hm H2 Ha H3 Hf Ht. split.
    + eapply run_create_model_new; eassumption.
    + eapply run_create_model_existing; eassumption.
  - intros t st mo entry H1 Hm H2 Ha H3 Hf. split.
    + eapply run_create_entry_new; eassumption.
    + eapply run_create_entry_existing; eassumption.
Qed.

Lemma create_twice_witness :
  (run scripted (create_category Demo.snipe Demo.key "servers" "asset" false)
       [Demo.no_rows; Demo.success; Demo.category_rows]
   = (Returned true,
      [(category_lookup Demo.snipe Demo.key "servers" "asset", Demo.no_rows);
       (category_create Demo.snipe Demo.key "servers" "asset", Demo.success)],
      [Demo.category_rows]) /\
   run scripted (create_category Demo.snipe Demo.key "servers" "asset" false)
       [Demo.category_rows]
   = (Returned false,
      [(category_lookup Demo.snipe Demo.key "servers" "asset",
        Demo.category_rows)], [])) /\
  (run Demo.one_asset
       (create_entry Demo.snipe Demo.key Demo.tag 2 (PInt 3) false) None
   = (Returned true,
      [(entry_lookup Demo.snipe Demo.key Demo.tag, Demo.missing_asset);
       (entry_create Demo.snipe Demo.key Demo.tag 2 (PInt 3), Demo.success)],
      Some (Demo.asset 3 2)) /\
   run Demo.one_asset
       (create_entry Demo.snipe Demo.key Demo.tag 2 (PInt 3) false)
       (Some (Demo.asset 3 2))
   = (Returned false,
      [(entry_lookup Demo.snipe Demo.key Demo.tag, Some (Demo.asset 3 2))],
      Some (Demo.asset 3 2))).
Proof.
  split.
  - destruct (create_twice (list response) scripted
                [Demo.no_rows; Demo.success; Demo.category_rows]
                [Demo.success; Demo.category_rows] [Demo.category_rows] []
                Demo.no_rows Demo.success Demo.category_rows
                Demo.snipe Demo.key) as [Hc _].
    apply (Hc "servers" "asset" Demo.asset_category); try reflexivity.
    + do 2 eexists. repeat split; reflexivity.
    + do 2 eexists. repeat split; reflexivity.
    + do 3 eexists. repeat split; reflexivity.
  - destruct (create_twice (option value) Demo.one_asset
                None None (Some (Demo.asset 3 2)) (Some (Demo.asset 3 2))
                Demo.missing_asset Demo.success (Some (Demo.asset 3 2))
                Demo.snipe Demo.key) as (_ & _ & He).
    apply (He Demo.tag 2%Z (PInt 3) (Demo.asset 3 2)); try reflexivity.
    + eexists. repeat split; reflexivity.
    + do 2 eexists. repeat split; reflexivity.
    + split; reflexivity.
Defined.

(** ** A resource that is found *)

(** C5, as stated, fails for models: a model found under the desired name but
    filed under category 4 is left alone when category 5 is asked for; the
    run is the lookup alone and reports no change. *)
Lemma found_model_is_not_updated :
  remote_field Demo.server_model "category" (PInt 4) /\
  Py.eq (PInt 4) (PInt 5) = false /\
  run scripted
      (create_model Demo.snipe Demo.key "server" (PInt 5) false None)
      [Demo.model_rows]
  = (Returned false,
     [(model_lookup Demo.snipe Demo.key "server", Demo.model_rows)], []).
Proof.
  split; [|split].
  - eexists. split; reflexivity.
  - reflexivity.
  - reflexivity.
Qed.

(** C5, amended.  Hardware entries are reconciled field by field:
    [update_entry_model] (and likewise [update_entry_status_label]) looks the
    entry up by its asset tag; when the remote id equals the desired one it
    returns [False] after the lookup alone; when it differs, in a real run
    with the [PATCH] accepted, it sends one [PATCH] to the entry's own id
    carrying that one field and returns [True].  Categories and models have no
    update: once the lookup finds a row, [create_category] and [create_model]
    return [False] after the lookup alone, whatever the arguments. *)
Theorem found_resource_reconciliation (server : Type)
  (handle : server -> request -> response * server) (s s1 : server)
  (r1 : response) (u k : string) :
  (forall t entry,
     handle s (entry_lookup u k t) = (r1, s1) -> entry_found r1 entry ->
     (forall mo d current,
        remote_field entry "model" current -> Py.eq current mo = true ->
        run handle (update_entry_model u k t mo d) s
        = (Returned false, [(entry_lookup u k t, r1)], s1)) /\
     (forall mo current id r2 s2,
        remote_field entry "model" current -> Py.eq current mo = false ->
        getitem entry "id" = inr id ->
        handle s1 (entry_patch u k id "model_id" mo) = (r2, s2) ->
        accepted r2 ->
        run handle (update_entry_model u k t mo false) s
        = (Returned true,
           [(entry_lookup u k t, r1);
            (entry_patch u k id "model_id" mo, r2)], s2)) /\
     (forall st d current,
        remote_field entry "status_label" current ->
        Py.eq current (PInt st) = true ->
        run handle (update_entry_status_label u k t st d) s
        = (Returned false, [(entry_lookup u k t, r1)], s1)) /\
     (forall st current id r2 s2,
        remote_field entry "status_label" current ->
        Py.eq current (PInt st) = false ->
        getitem entry "id" = inr id ->
        handle s1 (entry_patch u k id "status_id" (PInt st)) = (r2, s2) ->
        accepted r2 ->
        run handle (update_entry_status_label u k t st false) s
        = (Returned true,
           [(entry_lookup u k t, r1);
            (entry_patch u k id "status_id" (PInt st), r2)], s2))) /\
  (forall n t d row,
     handle s (category_lookup u k n t) = (r1, s1) -> row_found r1 row ->
     truthy row = true ->
     run handle (create_category u k n t d) s
     = (Returned false, [(category_lookup u k n t, r1)], s1)) /\
  (forall n c d m row,
     handle s (model_lookup u k n) = (r1, s1) -> row_found r1 row ->
     truthy row = true ->
     run handle (create_model u k n c d m) s
     = (Returned false, [(model_lookup u k n, r1)], s1)).
Proof.
  split; [|split].
  - intros t entry H1 Hf. repeat split.
    + intros. eapply run_update_entry_model_same; eassumption.
    + intros. eapply run_update_entry_model_differs; eassumption.
    + intros. eapply run_update_entry_status_label_same; eassumption.
    + intros. eapply run_update_entry_status_label_differs; eassumption.
  - intros. eapply run_create_category_existing; eassumption.
  - intros. eapply run_create_model_existing; eassumption.
Qed.

Lemma found_resource_reconciliation_witness :
  run Demo.one_asset
      (update_entry_model Demo.snipe Demo.key Demo.tag (PInt 3) false)
      (Some (Demo.asset 1 2))
  = (Returned true,
     [(entry_lookup Demo.snipe Demo.key Demo.tag, Some (Demo.asset 1 2));
      (entry_patch Demo.snipe Demo.key (PInt 9) "model_id" (PInt 3),
       Demo.success)],
     Some (Demo.asset 1 2)) /\
  run Demo.one_asset
      (update_entry_status_label Demo.snipe Demo.key Demo.tag 2 false)
      (Some (Demo.asset 1 2))
  = (Returned false,
     [(entry_lookup Demo.snipe Demo.key Demo.tag, Some (Demo.asset 1 2))],
     Some (Demo.asset 1 2)).
Proof.
  destruct (found_resource_reconciliation (option value) Demo.one_asset
              (Some (Demo.asset 1 2)) (Some (Demo.asset 1 2))
              (Some (Demo.asset 1 2)) Demo.snipe Demo.key) as [He _].
  destruct (He Demo.tag (Demo.asset 1 2) eq_refl (conj eq_refl eq_refl))
    as (_ & Hdiff & Hsame & _).
  split.
  - apply (Hdiff (PInt 3) (PInt 1) (PInt 9) Demo.success
                 (Some (Demo.asset 1 2))); try reflexivity.
    + eexists. split; reflexivity.
    + do 2 eexists. repeat split; reflexivity.
  - apply (Hsame 2%Z false (PInt 2)); try reflexivity.
    eexists. split; reflexivity.
Defined.

(** ** Removing an entry *)

(** C7.  The entry module with [state=absent] looks the entry up once.  When
    the answer is the "Asset does not exist." envelope the run is that lookup
    alone and exits with [changed=False].  When the answer is the entry, in a
    real run with the [DELETE] accepted, the run is the lookup followed by
    one [DELETE] to the entry's id, and exits with [changed=True]. *)
Theorem absent_state_deletes_once (server : Type)
  (handle : server -> request -> response * server) (m : Entry.params)
  (s s1 : server) (r1 : response) :
  Entry.state m = Entry.absent ->
  handle s (entry_lookup (Entry.snipe_url m) (Entry.api_key m)
                         (Entry.asset_tag m)) = (r1, s1) ->
  (entry_missing r1 ->
   run handle (Entry.run_module m) s
   = (Exited (mkResult false None),
      [(entry_lookup (Entry.snipe_url m) (Entry.api_key m)
                     (Entry.asset_tag m), r1)], s1)) /\
  (forall entry id r2 s2,
     entry_found r1 entry ->
     Entry.check_mode m = false ->
     getitem entry "id" = inr id ->
     handle s1 (entry_delete (Entry.snipe_url m) (Entry.api_key m) id)
     = (r2, s2) ->
     accepted r2 ->
     run handle (Entry.run_module m) s
     = (Exited (mkResult true None),
        [(entry_lookup (Entry.snipe_url m) (Entry.api_key m)
                       (Entry.asset_tag m), r1);
         (entry_delete (Entry.snipe_url m) (Entry.api_key m) id, r2)], s2)).
Proof.
  intros Hstate H1.
  unfold Entry.run_module, Entry.verify_params. rewrite Hstate. cbn [bind].
  split.
  - intro Hm.
    rewrite run_bind, (run_delete_entry_missing _ _ _ _ _ _ _ _ _ H1 Hm).
    reflexivity.
  - intros entry id r2 s2 Hf Hreal Hid H2 Ha. rewrite Hreal.
    rewrite run_bind,
      (run_delete_entry_found _ _ _ _ _ _ _ _ _ _ _ _ H1 Hf Hid H2 Ha).
    reflexivity.
Qed.

Lemma absent_state_deletes_once_witness :
  run Demo.one_asset (Entry.run_module (Demo.absent_task false)) None
  = (Exited (mkResult false None),
     [(entry_lookup Demo.snipe Demo.key Demo.tag, Demo.missing_asset)],
     None) /\
  run Demo.one_asset (Entry.run_module (Demo.absent_task false))
      (Some (Demo.asset 3 2))
  = (Exited (mkResult true None),
     [(entry_lookup Demo.snipe Demo.key Demo.tag, Some (Demo.asset 3 2));
      (entry_delete Demo.snipe Demo.key (PInt 9), Demo.success)],
     None).
Proof.
  split.
  - apply (absent_state_deletes_once (option value) Demo.one_asset
             (Demo.absent_task false) None None Demo.missing_asset
             eq_refl eq_refl).
    eexists. repeat split; reflexivity.
  - apply (proj2 (absent_state_deletes_once (option value) Demo.one_asset
                    (Demo.absent_task false) (Some (Demo.asset 3 2))
                    (Some (Demo.asset 3 2)) (Some (Demo.asset 3 2))
                    eq_refl eq_refl)
                 (Demo.asset 3 2) (PInt 9) Demo.success None);
      try reflexivity.
    + split; reflexivity.
    + do 2 eexists. repeat split; reflexivity.
Defined.

(** ** The entry module with [state=present] *)

(** [verify_params] stops the module before any request when [model_name] is
    left out or empty; the [None] branch of [run_module] is never taken. *)
Lemma entry_module_requires_model_name (m : Entry.params) :
  Entry.state m = Entry.present ->
  Entry.unset (Entry.model_name m) = true ->
  Entry.run_module m
  = FailJson "model_name is required when state is present".
Proof.
  intros Hstate Hunset. unfold Entry.run_module, Entry.verify_params.
  rewrite Hstate, Hunset. reflexivity.
Qed.

(** An entry that already has the desired model and status label: four
    lookups, no mutating request, [changed=False], in check mode or not. *)
Lemma entry_module_in_sync (server : Type)
  (handle : server -> request -> response * server) (m : Entry.params)
  (name : string) (s s1 : server) (r0 r1 : response)
  (model model_id entry current_model current_status : value) :
  Entry.state m = Entry.present ->
  Entry.model_name m = Some name ->
  name <> "" ->
  handle s (model_lookup (Entry.snipe_url m) (Entry.api_key m) name)
  = (r0, s1) ->
  row_found r0 model -> truthy model = true ->
  getitem model "id" = inr model_id ->
  handle s1 (entry_lookup (Entry.snipe_url m) (Entry.api_key m)
                          (Entry.asset_tag m)) = (r1, s1) ->
  entry_found r1 entry ->
  remote_field entry "model" current_model ->
  Py.eq current_model model_id = true ->
  remote_field entry "status_label" current_status ->
  Py.eq current_status (PInt (Entry.status_id m)) = true ->
  run handle (Entry.run_module m) s
  = (Exited (mkResult false None),
     [(model_lookup (Entry.snipe_url m) (Entry.api_key m) name, r0);
      (entry_lookup (Entry.snipe_url m) (Entry.api_key m)
                    (Entry.asset_tag m), r1);
      (entry_lookup (Entry.snipe_url m) (Entry.api_key m)
                    (Entry.asset_tag m), r1);
      (entry_lookup (Entry.snipe_url m) (Entry.api_key m)
                    (Entry.asset_tag m), r1)], s1).
Proof.
  intros Hstate Hname Hne H0 Hf Ht Hid H1 Hfound Hmo Hmo_eq Hst Hst_eq.
  unfold Entry.run_module, Entry.verify_params.
  rewrite Hstate, Hname. unfold Entry.unset.
  destruct (String.eqb_spec name "") as [E|_]; [contradiction|].
  cbn [bind].
  rewrite run_bind, (run_get_model_found _ _ _ _ _ _ _ _ _ H0 Hf).
  run_simpl. rewrite Ht. run_simpl. rewrite Hid. run_simpl.
  rewrite run_bind,
    (run_create_entry_existing _ _ _ _ _ _ _ _ _ _ _ _ H1 Hfound).
  run_simpl.
  rewrite run_bind,
    (run_update_entry_model_same _ _ _ _ _ _ _ _ _ _ _ _ H1 Hfound Hmo Hmo_eq).
  run_simpl.
  rewrite run_bind,
    (run_update_entry_status_label_same _ _ _ _ _ _ _ _ _ _ _ _ H1 Hfound Hst
                                        Hst_eq).
  reflexivity.
Qed.

Example example_task_in_sync :
  run Demo.one_asset (Entry.run_module (Demo.present_task false))
      (Some (Demo.asset 3 2))
  = (Exited (mkResult false None),
     [(model_lookup Demo.snipe Demo.key "server", Demo.model_rows);
      (entry_lookup Demo.snipe Demo.key Demo.tag, Some (Demo.asset 3 2));
      (entry_lookup Demo.snipe Demo.key Demo.tag, Some (Demo.asset 3 2));
      (entry_lookup Demo.snipe Demo.key Demo.tag, Some (Demo.asset 3 2))],
     Some (Demo.asset 3 2)).
Proof.
  apply (entry_module_in_sync (option value) Demo.one_asset
           (Demo.present_task false) "server" (Some (Demo.asset 3 2))
           (Some (Demo.asset 3 2)) Demo.model_rows (Some (Demo.asset 3 2))
           Demo.server_model (PInt 3)
           (Demo.asset 3 2) (PInt 3) (PInt 2)); try reflexivity.
  - discriminate.
  - do 3 eexists. repeat split; reflexivity.
  - split; reflexivity.
  - eexists. split; reflexivity.
  - eexists. split; reflexivity.
Qed.

(** ** Check mode of the entry module *)

(** With [state=present] in check mode, when the model exists and the asset
    tag does not, [create_entry] predicts a change and [update_entry_model]
    then subscripts the [None] its own lookup returns: the run ends in an
    uncaught [TypeError] after three lookups. *)
Lemma check_mode_on_missing_entry_raises (server : Type)
  (handle : server -> request -> response * server) (m : Entry.params)
  (name : string) (s s0 s1 s2 : server) (r0 r1 r2 : response)
  (model model_id : value) :
  Entry.state m = Entry.present ->
  Entry.check_mode m = true ->
  Entry.model_name m = Some name ->
  name <> "" ->
  handle s (model_lookup (Entry.snipe_url m) (Entry.api_key m) name)
  = (r0, s0) ->
  row_found r0 model -> truthy model = true ->
  getitem model "id" = inr model_id ->
  handle s0 (entry_lookup (Entry.snipe_url m) (Entry.api_key m)
                          (Entry.asset_tag m)) = (r1, s1) ->
  entry_missing r1 ->
  handle s1 (entry_lookup (Entry.snipe_url m) (Entry.api_key m)
                          (Entry.asset_tag m)) = (r2, s2) ->
  entry_missing r2 ->
  run handle (Entry.run_module m) s
  = (Raised TypeError,
     [(model_lookup (Entry.snipe_url m) (Entry.api_key m) name, r0);
      (entry_lookup (Entry.snipe_url m) (Entry.api_key m)
                    (Entry.asset_tag m), r1);
      (entry_lookup (Entry.snipe_url m) (Entry.api_key m)
                    (Entry.asset_tag m), r2)], s2).
Proof.
  intros Hstate Hcheck Hname Hne H0 Hf Ht Hid H1 Hm1 H2 Hm2.
  unfold Entry.run_module, Entry.verify_params.
  rewrite Hstate, Hname, Hcheck. unfold Entry.unset.
  destruct (String.eqb_spec name "") as [E|_]; [contradiction|].
  cbn [bind].
  rewrite run_bind, (run_get_model_found _ _ _ _ _ _ _ _ _ H0 Hf).
  run_simpl. rewrite Ht. run_simpl. rewrite Hid. run_simpl.
  rewrite run_bind, (run_create_entry_dry _ _ _ _ _ _ _ _ _ _ H1 Hm1).
  run_simpl.
  rewrite run_bind. unfold update_entry_model.
  rewrite run_bind, (run_get_entry_missing _ _ _ _ _ _ _ _ H2 Hm2).
  reflexivity.
Qed.

(** C1 (the code departs from it).  On one and the same service, which knows
    the model and holds no entry for the asset tag, the real run of the entry
    module with [state=present] creates the entry and exits with
    [changed=True], while the check-mode run of the same task ends in an
    uncaught [TypeError] and reports nothing. *)
Theorem check_mode_diverges_on_new_asset :
  run Demo.one_asset (Entry.run_module (Demo.present_task false)) None
  = (Exited (mkResult true None),
     [(model_lookup Demo.snipe Demo.key "server", Demo.model_rows);
      (entry_lookup Demo.snipe Demo.key Demo.tag, Demo.missing_asset);
      (entry_create Demo.snipe Demo.key Demo.tag 2 (PInt 3), Demo.success);
      (entry_lookup Demo.snipe Demo.key Demo.tag, Some (Demo.asset 3 2));
      (entry_lookup Demo.snipe Demo.key Demo.tag, Some (Demo.asset 3 2))],
     Some (Demo.asset 3 2)) /\
  run Demo.one_asset (Entry.run_module (Demo.present_task true)) None
  = (Raised TypeError,
     [(model_lookup Demo.snipe Demo.key "server", Demo.model_rows);
      (entry_lookup Demo.snipe Demo.key Demo.tag, Demo.missing_asset);
      (entry_lookup Demo.snipe Demo.key Demo.tag, Demo.missing_asset)],
     None).
Proof.
  split.
  - reflexivity.
  - apply (check_mode_on_missing_entry_raises (option value) Demo.one_asset
             (Demo.present_task true) "server" None None None None
             Demo.model_rows Demo.missing_asset Demo.missing_asset
             Demo.server_model (PInt 3)); try reflexivity.
    + discriminate.
    + do 3 eexists. repeat split; reflexivity.
    + eexists. repeat split; reflexivity.
    + eexists. repeat split; reflexivity.
Qed.

(** * Further properties of the four files *)

(** ** [snipeit_entry.py]: the module before it creates or updates *)

(** X1.  With [state=present] and [model_name] left out or empty, the entry
    module ends in [fail_json] without having sent anything: the log is empty
    and the service is where it was. *)
Theorem entry_module_without_model_name (server : Type)
  (handle : server -> request -> response * server) (m : Entry.params)
  (s : server) :
  Entry.state m = Entry.present ->
  Entry.unset (Entry.model_name m) = true ->
  run handle (Entry.run_module m) s
  = (Failed "model_name is required when state is present", [], s).
Proof.
  intros Hstate Hunset.
  rewrite (entry_module_requires_model_name m Hstate Hunset). reflexivity.
Qed.

Lemma entry_module_without_model_name_witness :
  run Demo.one_asset
      (Entry.run_module
         (Entry.mkParams Demo.tag Demo.snipe Demo.key 2 (Some "")
                         Entry.present false))
      None
  = (Failed "model_name is required when state is present", [], None).
Proof.
  apply (entry_module_without_model_name (option value) Demo.one_asset
           (Entry.mkParams Demo.tag Demo.snipe Demo.key 2 (Some "")
                           Entry.present false) None);
    reflexivity.
Defined.

(** X2.  With [state=present], when the lookup of the model reports no row,
    the module ends in [fail_json] naming the model, after that one [GET]:
    no request about the entry is made, in check mode or not. *)
Theorem entry_module_unknown_model (server : Type)
  (handle : server -> request -> response * server) (m : Entry.params)
  (name : string) (s s1 : server) (r0 : response) :
  Entry.state m = Entry.present ->
  Entry.model_name m = Some name ->
  name <> "" ->
  handle s (model_lookup (Entry.snipe_url m) (Entry.api_key m) name)
  = (r0, s1) ->
  row_missing r0 ->
  run handle (Entry.run_module m) s
  = (Failed ("Model " ++ name ++ " does not exist"),
     [(model_lookup (Entry.snipe_url m) (Entry.api_key m) name, r0)], s1).
Proof.
  intros Hstate Hname Hne H0 Hm.
  unfold Entry.run_module, Entry.verify_params.
  rewrite Hstate, Hname. unfold Entry.unset.
  destruct (String.eqb_spec name "") as [E|_]; [contradiction|].
  cbn [bind].
  rewrite run_bind. erewrite run_get_model_missing by eassumption.
  reflexivity.
Qed.

Lemma entry_module_unknown_model_witness :
  run scripted (Entry.run_module (Demo.present_task true)) [Demo.no_rows]
  = (Failed "Model server does not exist",
     [(model_lookup Demo.snipe Demo.key "server", Demo.no_rows)], []).
Proof.
  apply (entry_module_unknown_model (list response) scripted
           (Demo.present_task true) "server" [Demo.no_rows] [] Demo.no_rows);
    try reflexivity.
  - discriminate.
  - do 2 eexists. repeat split; reflexivity.
Defined.

(** X3.  A real run with [state=present] on an asset tag the service does not
    know: the id of the model found by name goes into the [POST], together
    with the asset tag and the status id; both update functions still run
    afterwards (each re-reads the entry) and, finding the entry as it was
    asked for, send nothing; the module exits with [changed=True] after five
    exchanges. *)
Theorem entry_module_creates_new_asset (server : Type)
  (handle : server -> request -> response * server) (m : Entry.params)
  (name : string) (s s1 s2 s3 : server) (r0 r1 r2 r3 : response)
  (model model_id entry current_model current_status : value) :
  Entry.state m = Entry.present ->
  Entry.check_mode m = false ->
  Entry.model_name m = Some name ->
  name <> "" ->
  handle s (model_lookup (Entry.snipe_url m) (Entry.api_key m) name)
  = (r0, s1) ->
  row_found r0 model -> truthy model = true ->
  getitem model "id" = inr model_id ->
  handle s1 (entry_lookup (Entry.snipe_url m) (Entry.api_key m)
                          (Entry.asset_tag m)) = (r1, s2) ->
  entry_missing r1 ->
  handle s2 (entry_create (Entry.snipe_url m) (Entry.api_key m)
                          (Entry.asset_tag m) (Entry.status_id m) model_id)
  = (r2, s3) ->
  accepted r2 ->
  handle s3 (entry_lookup (Entry.snipe_url m) (Entry.api_key m)
                          (Entry.asset_tag m)) = (r3, s3) ->
  entry_found r3 entry ->
  remote_field entry "model" current_model ->
  Py.eq current_model model_id = true ->
  remote_field entry "status_label" current_status ->
  Py.eq current_status (PInt (Entry.status_id m)) = true ->
  run handle (Entry.run_module m) s
  = (Exited (mkResult true None),
     [(model_lookup (Entry.snipe_url m) (Entry.api_key m) name, r0);
      (entry_lookup (Entry.snipe_url m) (Entry.api_key m)
                    (Entry.asset_tag m), r1);
      (entry_create (Entry.snipe_url m) (Entry.api_key m) (Entry.asset_tag m)
                    (Entry.status_id m) model_id, r2);
      (entry_lookup (Entry.snipe_url m) (Entry.api_key m)
                    (Entry.asset_tag m), r3);
      (entry_lookup (Entry.snipe_url m) (Entry.api_key m)
                    (Entry.asset_tag m), r3)], s3).
Proof.
  intros Hstate Hreal Hname Hne H0 Hf Ht Hid H1 Hm1 H2 Ha H3 Hfound
         Hmo Hmo_eq Hst Hst_eq.
  unfold Entry.run_module, Entry.verify_params.
  rewrite Hstate, Hname, Hreal. unfold Entry.unset.
  destruct (String.eqb_spec name "") as [E|_]; [contradiction|].
  cbn [bind].
  rewrite run_bind. erewrite run_get_model_found by eassumption.
  run_simpl. rewrite Ht. run_simpl. rewrite Hid. run_simpl.
  rewrite run_bind. erewrite run_create_entry_new by eassumption.
  run_simpl.
  rewrite run_bind. erewrite run_update_entry_model_same by eassumption.
  run_simpl.
  rewrite run_bind.
  erewrite run_update_entry_status_label_same by eassumption.
  reflexivity.
Qed.

Lemma entry_module_creates_new_asset_witness :
  run Demo.one_asset (Entry.run_module (Demo.present_task false)) None
  = (Exited (mkResult true None),
     [(model_lookup Demo.snipe Demo.key "server", Demo.model_rows);
      (entry_lookup Demo.snipe Demo.key Demo.tag, Demo.missing_asset);
      (entry_create Demo.snipe Demo.key Demo.tag 2 (PInt 3), Demo.success);
      (entry_lookup Demo.snipe Demo.key Demo.tag, Some (Demo.asset 3 2));
      (entry_lookup Demo.snipe Demo.key Demo.tag, Some (Demo.asset 3 2))],
     Some (Demo.asset 3 2)).
Proof.
  apply (entry_module_creates_new_asset (option value) Demo.one_asset
           (Demo.present_task false) "server" None None None
           (Some (Demo.asset 3 2)) Demo.model_rows Demo.missing_asset
           Demo.success (Some (Demo.asset 3 2)) Demo.server_model (PInt 3)
           (Demo.asset 3 2) (PInt 3) (PInt 2)); try reflexivity.
  - discriminate.
  - do 3 eexists. repeat split; reflexivity.
  - eexists. repeat split; reflexivity.
  - do 2 eexists. repeat split; reflexivity.
  - split; reflexivity.
  - eexists. split; reflexivity.
  - eexists. split; reflexivity.
Defined.

(** X4.  In check mode with [state=present], on an entry that exists: the
    module makes four lookups and nothing else, and exits with [changed]
    true exactly when the entry's model id or its status label id differs
    ([!=]) from the one asked for. *)
Theorem check_mode_reports_drift (server : Type)
  (handle : server -> request -> response * server) (m : Entry.params)
  (name : string) (s s1 : server) (r0 r1 : response)
  (model model_id entry current_model current_status : value) :
  Entry.state m = Entry.present ->
  Entry.check_mode m = true ->
  Entry.model_name m = Some name ->
  name <> "" ->
  handle s (model_lookup (Entry.snipe_url m) (Entry.api_key m) name)
  = (r0, s1) ->
  row_found r0 model -> truthy model = true ->
  getitem model "id" = inr model_id ->
  handle s1 (entry_lookup (Entry.snipe_url m) (Entry.api_key m)
                          (Entry.asset_tag m)) = (r1, s1) ->
  entry_found r1 entry ->
  remote_field entry "model" current_model ->
  remote_field entry "status_label" current_status ->
  run handle (Entry.run_module m) s
  = (Exited
       (mkResult
          (negb (Py.eq current_model model_id)
           || negb (Py.eq current_status (PInt (Entry.status_id m))))
          None),
     [(model_lookup (Entry.snipe_url m) (Entry.api_key m) name, r0);
      (entry_lookup (Entry.snipe_url m) (Entry.api_key m)
                    (Entry.asset_tag m), r1);
      (entry_lookup (Entry.snipe_url m) (Entry.api_key m)
                    (Entry.asset_tag m), r1);
      (entry_lookup (Entry.snipe_url m) (Entry.api_key m)
                    (Entry.asset_tag m), r1)], s1).
Proof.
  intros Hstate Hcheck Hname Hne H0 Hf Ht Hid H1 Hfound Hmo Hst.
  unfold Entry.run_module, Entry.verify_params.
  rewrite Hstate, Hname, Hcheck. unfold Entry.unset.
  destruct (String.eqb_spec name "") as [E|_]; [contradiction|].
  cbn [bind].
  rewrite run_bind. erewrite run_get_model_found by eassumption.
  run_simpl. rewrite Ht. run_simpl. rewrite Hid. run_simpl.
  rewrite run_bind. erewrite run_create_entry_existing by eassumption.
  run_simpl. rewrite run_bind.
  destruct (Py.eq current_model model_id) eqn:Em;
    [erewrite run_update_entry_model_same by eassumption
    |erewrite run_update_entry_model_dry by eassumption];
    run_simpl; rewrite run_bind;
    (destruct (Py.eq current_status (PInt (Entry.status_id m))) eqn:Es;
     [erewrite run_update_entry_status_label_same by eassumption
     |erewrite run_update_entry_status_label_dry by eassumption]);
    reflexivity.
Qed.

Lemma check_mode_reports_drift_witness :
  run Demo.one_asset (Entry.run_module (Demo.present_task true))
      (Some (Demo.asset 1 2))
  = (Exited (mkResult true None),
     [(model_lookup Demo.snipe Demo.key "server", Demo.model_rows);
      (entry_lookup Demo.snipe Demo.key Demo.tag, Some (Demo.asset 1 2));
      (entry_lookup Demo.snipe Demo.key Demo.tag, Some (Demo.asset 1 2));
      (entry_lookup Demo.snipe Demo.key Demo.tag, Some (Demo.asset 1 2))],
     Some (Demo.asset 1 2)).
Proof.
  apply (check_mode_reports_drift (option value) Demo.one_asset
           (Demo.present_task true) "server" (Some (Demo.asset 1 2))
           (Some (Demo.asset 1 2)) Demo.model_rows (Some (Demo.asset 1 2))
           Demo.server_model (PInt 3) (Demo.asset 1 2) (PInt 1) (PInt 2));
    try reflexivity.
  - discriminate.
  - do 3 eexists. repeat split; reflexivity.
  - split; reflexivity.
  - eexists. split; reflexivity.
  - eexists. split; reflexivity.
Defined.

(** ** [snipeit_entry.py]: the functions on an entry that is not as expected *)

(** X5.  [update_entry_model] and [update_entry_status_label] do not test
    what their lookup returns: on an asset tag the service does not know they
    subscript [None] and end in an uncaught [TypeError] after the one [GET],
    whether [dry_run] is set or not. *)
Theorem update_of_missing_entry_raises (server : Type)
  (handle : server -> request -> response * server) (u k t : string)
  (s s1 : server) (r1 : response) :
  handle s (entry_lookup u k t) = (r1, s1) ->
  entry_missing r1 ->
  (forall mo d,
     run handle (update_entry_model u k t mo d) s
     = (Raised TypeError, [(entry_lookup u k t, r1)], s1)) /\
  (forall st d,
     run handle (update_entry_status_label u k t st d) s
     = (Raised TypeError, [(entry_lookup u k t, r1)], s1)).
Proof.
  intros H1 Hm. split.
  - intros mo d. unfold update_entry_model.
    rewrite run_bind. erewrite run_get_entry_missing by eassumption.
    reflexivity.
  - intros st d. unfold update_entry_status_label.
    rewrite run_bind. erewrite run_get_entry_missing by eassumption.
    reflexivity.
Qed.

Lemma update_of_missing_entry_raises_witness :
  run Demo.one_asset
      (update_entry_model Demo.snipe Demo.key Demo.tag (PInt 3) false) None
  = (Raised TypeError,
     [(entry_lookup Demo.snipe Demo.key Demo.tag, Demo.missing_asset)], None)
  /\
  run Demo.one_asset
      (update_entry_status_label Demo.snipe Demo.key Demo.tag 2 true) None
  = (Raised TypeError,
     [(entry_lookup Demo.snipe Demo.key Demo.tag, Demo.missing_asset)], None).
Proof.
  assert (Hm : entry_missing Demo.missing_asset)
    by (eexists; repeat split; reflexivity).
  destruct (update_of_missing_entry_raises (option value) Demo.one_asset
              Demo.snipe Demo.key Demo.tag None None Demo.missing_asset
              eq_refl Hm) as [Hmo Hst].
  split; [apply Hmo | apply Hst].
Defined.

(** X6.  An entry answer without an [id]: the dry run of [delete_entry]
    reports [True], while the real run raises [KeyError] on ["id"] when it
    builds the URL, before any [DELETE] is sent. *)
Theorem delete_of_entry_without_id (server : Type)
  (handle : server -> request -> response * server) (u k t : string)
  (s s1 : server) (r1 : response) (entry : value) :
  handle s (entry_lookup u k t) = (r1, s1) ->
  entry_found r1 entry ->
  getitem entry "id" = inl (KeyError "id") ->
  run handle (delete_entry u k t true) s
  = (Returned true, [(entry_lookup u k t, r1)], s1) /\
  run handle (delete_entry u k t false) s
  = (Raised (KeyError "id"), [(entry_lookup u k t, r1)], s1).
Proof.
  intros H1 Hf Hid. split.
  - eapply run_delete_entry_dry; eassumption.
  - unfold delete_entry.
    rewrite run_bind. erewrite run_get_entry_found by eassumption.
    run_simpl. destruct Hf as [_ Hk]. rewrite (in_keys_truthy _ _ Hk).
    run_simpl. rewrite Hid. reflexivity.
Qed.

Lemma delete_of_entry_without_id_witness :
  run scripted (delete_entry Demo.snipe Demo.key Demo.tag true)
      [Some Demo.anonymous_asset]
  = (Returned true,
     [(entry_lookup Demo.snipe Demo.key Demo.tag, Some Demo.anonymous_asset)],
     []) /\
  run scripted (delete_entry Demo.snipe Demo.key Demo.tag false)
      [Some Demo.anonymous_asset]
  = (Raised (KeyError "id"),
     [(entry_lookup Demo.snipe Demo.key Demo.tag, Some Demo.anonymous_asset)],
     []).
Proof.
  apply (delete_of_entry_without_id (list response) scripted Demo.snipe
           Demo.key Demo.tag [Some Demo.anonymous_asset] []
           (Some Demo.anonymous_asset) Demo.anonymous_asset);
    try reflexivity.
  split; reflexivity.
Defined.

(** ** [snipeit.py]: what the lookups can end in *)

(** X7.  Whatever the service answers, what [get_entry] returns is either
    [None] or an object that holds [asset_tag], hence a truthy one: for its
    callers [if entry:] and [entry is not None] are the same test. *)
Theorem get_entry_returns_none_or_entry (server : Type)
  (handle : server -> request -> response * server) (u k t : string)
  (s : server) (v : value) :
  outcome_of handle (get_entry u k t) s = Returned v ->
  v = PNone \/ (in_keys "asset_tag" v = inr true /\ truthy v = true).
Proof.
  unfold outcome_of, get_entry, requests_get. simpl.
  destruct (handle s _) as [resp s1].
  destruct resp as [data|]; simpl; [|discriminate].
  destruct (in_keys "asset_tag" data) as [e|[|]] eqn:Ek; simpl;
    try discriminate.
  - intro H. injection H as <-. right.
    split; [exact Ek | apply (in_keys_truthy _ _ Ek)].
  - destruct (getitem data "status") as [e|status]; simpl; [discriminate|].
    destruct (Py.eq status (PStr "error")); simpl.
    + destruct (getitem data "messages") as [e|messages]; simpl;
        [discriminate|].
      destruct (Py.eq messages (PStr "Asset does not exist.")); simpl.
      * intro H. injection H as <-. left. reflexivity.
      * discriminate.
    + discriminate.
Qed.

Lemma get_entry_returns_none_or_entry_witness :
  Demo.asset 3 2 = PNone \/
  (in_keys "asset_tag" (Demo.asset 3 2) = inr true /\
   truthy (Demo.asset 3 2) = true).
Proof.
  apply (get_entry_returns_none_or_entry (option value) Demo.one_asset
           Demo.snipe Demo.key Demo.tag (Some (Demo.asset 3 2))
           (Demo.asset 3 2)).
  reflexivity.
Defined.

(** X8.  An answer that holds neither [asset_tag] nor the status ["error"]
    makes [get_entry] end the module in [fail_json] with the fixed text
    "Unknown response from SnipeIT". *)
Theorem get_entry_unknown_response (server : Type)
  (handle : server -> request -> response * server) (u k t : string)
  (s s1 : server) (data status : value) :
  handle s (entry_lookup u k t) = (Some data, s1) ->
  in_keys "asset_tag" data = inr false ->
  getitem data "status" = inr status ->
  Py.eq status (PStr "error") = false ->
  run handle (get_entry u k t) s
  = (Failed "Unknown response from SnipeIT",
     [(entry_lookup u k t, Some data)], s1).
Proof.
  intros Hh Hk Hs Hne.
  unfold get_entry, requests_get, entry_lookup in *. simpl in *.
  rewrite Hh. simpl. rewrite Hk. simpl. rewrite Hs. simpl.
  rewrite Hne. reflexivity.
Qed.

Lemma get_entry_unknown_response_witness :
  run scripted (get_entry Demo.snipe Demo.key Demo.tag) [Demo.odd]
  = (Failed "Unknown response from SnipeIT",
     [(entry_lookup Demo.snipe Demo.key Demo.tag, Demo.odd)], []).
Proof.
  apply (get_entry_unknown_response (list response) scripted Demo.snipe
           Demo.key Demo.tag [Demo.odd] []
           (PDict [("status", PStr "success"); ("messages", PStr "Hello.")])
           (PStr "success"));
    reflexivity.
Defined.

(** X9.  [get_category] and [get_model] never end a run through [fail_json]
    or [exit_json]: whatever the service answers they return a value or raise
    an exception. *)
Theorem list_lookups_return_or_raise (server : Type)
  (handle : server -> request -> response * server) (u k : string)
  (s : server) :
  (forall n t,
     match outcome_of handle (get_category u k n t) s with
     | Returned _ | Raised _ => True
     | Failed _ | Exited _ => False
     end) /\
  (forall n,
     match outcome_of handle (get_model u k n) s with
     | Returned _ | Raised _ => True
     | Failed _ | Exited _ => False
     end).
Proof.
  split.
  - intros n t. unfold outcome_of, get_category, requests_get. simpl.
    destruct (handle s _) as [resp s1]. prog_cases; exact I.
  - intros n. unfold outcome_of, get_model, requests_get. simpl.
    destruct (handle s _) as [resp s1]. prog_cases; exact I.
Qed.

(** X10.  The list lookups trust [total]: a list envelope whose [total] is
    not [0] but whose [rows] is empty makes them raise [IndexError], and one
    without [rows] raises [KeyError] on ["rows"]. *)
Theorem list_lookup_of_hollow_envelope (server : Type)
  (handle : server -> request -> response * server) (u k : string)
  (s s1 : server) (data total : value) :
  getitem data "total" = inr total ->
  Py.eq total (PInt 0) = false ->
  (forall n,
     handle s (model_lookup u k n) = (Some data, s1) ->
     (getitem data "rows" = inr (PList []) ->
      run handle (get_model u k n) s
      = (Raised IndexError, [(model_lookup u k n, Some data)], s1)) /\
     (getitem data "rows" = inl (KeyError "rows") ->
      run handle (get_model u k n) s
      = (Raised (KeyError "rows"), [(model_lookup u k n, Some data)], s1))) /\
  (forall n t,
     handle s (category_lookup u k n t) = (Some data, s1) ->
     (getitem data "rows" = inr (PList []) ->
      run handle (get_category u k n t) s
      = (Raised IndexError, [(category_lookup u k n t, Some data)], s1)) /\
     (getitem data "rows" = inl (KeyError "rows") ->
      run handle (get_category u k n t) s
      = (Raised (KeyError "rows"),
         [(category_lookup u k n t, Some data)], s1))).
Proof.
  intros Ht Hz. split.
  - intros n Hh.
    unfold get_model, requests_get, model_lookup in *. simpl.
    rewrite Hh. simpl. rewrite Ht. simpl. rewrite Hz. simpl.
    split; intros ->; reflexivity.
  - intros n t Hh.
    unfold get_category, requests_get, category_lookup in *. simpl.
    rewrite Hh. simpl. rewrite Ht. simpl. rewrite Hz. simpl.
    split; intros ->; reflexivity.
Qed.

Lemma list_lookup_of_hollow_envelope_witness :
  run scripted (get_model Demo.snipe Demo.key "server") [Demo.hollow_rows]
  = (Raised IndexError,
     [(model_lookup Demo.snipe Demo.key "server", Demo.hollow_rows)], []).
Proof.
  destruct (list_lookup_of_hollow_envelope (list response) scripted
              Demo.snipe Demo.key [Demo.hollow_rows] []
              (PDict [("total", PInt 1); ("rows", PList [])]) (PInt 1)
              eq_refl eq_refl) as [Hm _].
  destruct (Hm "server" eq_refl) as [Hempty _].
  apply Hempty. reflexivity.
Defined.

(** ** [snipeit_model.py]: the module *)

(** X11.  The model module looks its category up among the categories of
    type ["asset"], whatever else exists under that name; when that lookup
    reports no row the module ends in [fail_json] naming the category after
    the one [GET], and no request about the model is made. *)
Theorem model_module_unknown_category (server : Type)
  (handle : server -> request -> response * server) (m : Model.params)
  (s s1 : server) (r0 : response) :
  handle s (category_lookup (Model.snipe_url m) (Model.api_key m)
                            (Model.category m) "asset") = (r0, s1) ->
  row_missing r0 ->
  run handle (Model.run_module m) s
  = (Failed ("Category " ++ Model.category m ++ " not found!"),
     [(category_lookup (Model.snipe_url m) (Model.api_key m)
                       (Model.category m) "asset", r0)], s1).
Proof.
  intros H0 Hm. unfold Model.run_module.
  rewrite run_bind. erewrite run_get_category_missing by eassumption.
  reflexivity.
Qed.

Lemma model_module_unknown_category_witness :
  run scripted (Model.run_module (Demo.model_task false)) [Demo.no_rows]
  = (Failed "Category servers not found!",
     [(category_lookup Demo.snipe Demo.key "servers" "asset", Demo.no_rows)],
     []).
Proof.
  apply (model_module_unknown_category (list response) scripted
           (Demo.model_task false) [Demo.no_rows] [] Demo.no_rows eq_refl).
  do 2 eexists. repeat split; reflexivity.
Defined.

(** X12.  The model module once its category is found: the id of the
    category row is what the [POST] carries as [category_id].  A model that
    is missing is created in a real run (three exchanges, [changed=True]) and
    only foretold with the [dry_run] option (two lookups, [changed=True]); a
    model that is found is left alone (two lookups, [changed=False]). *)
Theorem model_module_outcomes (server : Type)
  (handle : server -> request -> response * server) (m : Model.params)
  (s s1 s2 : server) (r0 r1 : response) (category category_id : value) :
  handle s (category_lookup (Model.snipe_url m) (Model.api_key m)
                            (Model.category m) "asset") = (r0, s1) ->
  row_found r0 category -> truthy category = true ->
  getitem category "id" = inr category_id ->
  handle s1 (model_lookup (Model.snipe_url m) (Model.api_key m)
                          (Model.name m)) = (r1, s2) ->
  (forall r2 s3,
     row_missing r1 -> Model.dry_run m = false ->
     handle s2 (model_create (Model.snipe_url m) (Model.api_key m)
                             (Model.name m) category_id
                             (Model.manufacturer_id m)) = (r2, s3) ->
     accepted r2 ->
     run handle (Model.run_module m) s
     = (Exited (mkResult true None),
        [(category_lookup (Model.snipe_url m) (Model.api_key m)
                          (Model.category m) "asset", r0);
         (model_lookup (Model.snipe_url m) (Model.api_key m) (Model.name m),
          r1);
         (model_create (Model.snipe_url m) (Model.api_key m) (Model.name m)
                       category_id (Model.manufacturer_id m), r2)], s3)) /\
  (row_missing r1 -> Model.dry_run m = true ->
   run handle (Model.run_module m) s
   = (Exited (mkResult true None),
      [(category_lookup (Model.snipe_url m) (Model.api_key m)
                        (Model.category m) "asset", r0);
       (model_lookup (Model.snipe_url m) (Model.api_key m) (Model.name m),
        r1)], s2)) /\
  (forall row,
     row_found r1 row -> truthy row = true ->
     run handle (Model.run_module m) s
     = (Exited (mkResult false None),
        [(category_lookup (Model.snipe_url m) (Model.api_key m)
                          (Model.category m) "asset", r0);
         (model_lookup (Model.snipe_url m) (Model.api_key m) (Model.name m),
          r1)], s2)).
Proof.
  intros H0 Hf Ht Hid H1. unfold Model.run_module.
  rewrite run_bind. erewrite run_get_category_found by eassumption.
  run_simpl. rewrite Ht. run_simpl. rewrite Hid. run_simpl.
  split; [|split].
  - intros r2 s3 Hm Hreal H2 Ha. rewrite Hreal.
    rewrite run_bind. erewrite run_create_model_new by eassumption.
    reflexivity.
  - intros Hm Hdry. rewrite Hdry.
    rewrite run_bind. erewrite run_create_model_dry by eassumption.
    reflexivity.
  - intros row Hfound Htr.
    rewrite run_bind. erewrite run_create_model_existing by eassumption.
    reflexivity.
Qed.

Lemma model_module_outcomes_witness :
  run scripted (Model.run_module (Demo.model_task false))
      [Demo.category_rows; Demo.no_rows; Demo.success]
  = (Exited (mkResult true None),
     [(category_lookup Demo.snipe Demo.key "servers" "asset",
       Demo.category_rows);
      (model_lookup Demo.snipe Demo.key "server", Demo.no_rows);
      (model_create Demo.snipe Demo.key "server" (PInt 4) (Some 7%Z),
       Demo.success)], []).
Proof.
  apply (proj1 (model_module_outcomes (list response) scripted
                  (Demo.model_task false)
                  [Demo.category_rows; Demo.no_rows; Demo.success]
                  [Demo.no_rows; Demo.success] [Demo.success]
                  Demo.category_rows Demo.no_rows Demo.asset_category
                  (PInt 4) eq_refl
                  (ex_intro _ _ (ex_intro _ _ (ex_intro _ _
                     (conj eq_refl (conj eq_refl (conj eq_refl
                        (conj eq_refl eq_refl)))))))
                  eq_refl eq_refl eq_refl)
               Demo.success []);
    try reflexivity.
  - do 2 eexists. repeat split; reflexivity.
  - do 2 eexists. repeat split; reflexivity.
Defined.

(** ** [snipeit_category.py]: the module *)

(** X13.  For each of the four category types the argument spec admits, the
    category module always looks the category up once more after
    [create_category] and reports the [id] of the row it then finds: after a
    creation the run is lookup, [POST], lookup with [changed=True]; on an
    existing category it is two lookups with [changed=False]. *)
Theorem category_module_reports_id (server : Type)
  (handle : server -> request -> response * server) (m : Category.params)
  (s s1 : server) (r1 : response) :
  handle s (category_module_lookup m)
  = (r1, s1) ->
  (forall r2 r3 s2 s3 row id,
     row_missing r1 ->
     handle s1 (category_module_create m)
     = (r2, s2) ->
     accepted r2 ->
     handle s2 (category_module_lookup m)
     = (r3, s3) ->
     row_found r3 row -> getitem row "id" = inr id ->
     run handle (Category.run_module m) s
     = (Exited (mkResult true (Some id)),
        [(category_module_lookup m, r1);
         (category_module_create m, r2);
         (category_module_lookup m, r3)],
        s3)) /\
  (forall r2 s2 row row' id,
     row_found r1 row -> truthy row = true ->
     handle s1 (category_module_lookup m)
     = (r2, s2) ->
     row_found r2 row' -> getitem row' "id" = inr id ->
     run handle (Category.run_module m) s
     = (Exited (mkResult false (Some id)),
        [(category_module_lookup m, r1);
         (category_module_lookup m, r2)],
        s2)).
Proof.
  unfold category_module_lookup, category_module_create.
  intros H1. unfold Category.run_module. split.
  - intros r2 r3 s2 s3 row id Hm H2 Ha H3 Hf Hid.
    rewrite run_bind. erewrite run_create_category_new by eassumption.
    run_simpl.
    rewrite run_bind. erewrite run_get_category_found by eassumption.
    run_simpl. rewrite Hid. reflexivity.
  - intros r2 s2 row row' id Hf Ht H2 Hf' Hid.
    rewrite run_bind. erewrite run_create_category_existing by eassumption.
    run_simpl.
    rewrite run_bind. erewrite run_get_category_found by eassumption.
    run_simpl. rewrite Hid. reflexivity.
Qed.

Lemma category_module_reports_id_witness :
  run scripted (Category.run_module Demo.category_task)
      [Demo.no_rows; Demo.success; Demo.category_rows]
  = (Exited (mkResult true (Some (PInt 4))),
     [(category_lookup Demo.snipe Demo.key "servers" "asset", Demo.no_rows);
      (category_create Demo.snipe Demo.key "servers" "asset", Demo.success);
      (category_lookup Demo.snipe Demo.key "servers" "asset",
       Demo.category_rows)], []).
Proof.
  apply (proj1 (category_module_reports_id (list response) scripted
                  Demo.category_task
                  [Demo.no_rows; Demo.success; Demo.category_rows]
                  [Demo.success; Demo.category_rows] Demo.no_rows eq_refl)
               Demo.success Demo.category_rows [Demo.category_rows] []
               Demo.asset_category (PInt 4));
    try reflexivity.
  - do 2 eexists. repeat split; reflexivity.
  - do 2 eexists. repeat split; reflexivity.
  - do 3 eexists. repeat split; reflexivity.
Defined.

(** X14.  When the lookup that follows an accepted creation still reports no
    row, the category module subscripts [None] and ends in an uncaught
    [TypeError]: the category has been posted, and no result is reported. *)
Theorem category_module_without_row_raises (server : Type)
  (handle : server -> request -> response * server) (m : Category.params)
  (s s1 s2 s3 : server) (r1 r2 r3 : response) :
  handle s (category_module_lookup m)
  = (r1, s1) ->
  row_missing r1 ->
  handle s1 (category_module_create m)
  = (r2, s2) ->
  accepted r2 ->
  handle s2 (category_module_lookup m)
  = (r3, s3) ->
  row_missing r3 ->
  run handle (Category.run_module m) s
  = (Raised TypeError,
     [(category_module_lookup m, r1);
      (category_module_create m, r2);
      (category_module_lookup m, r3)],
     s3).
Proof.
  unfold category_module_lookup, category_module_create.
  intros H1 Hm1 H2 Ha H3 Hm3. unfold Category.run_module.
  rewrite run_bind. erewrite run_create_category_new by eassumption.
  run_simpl.
  rewrite run_bind. erewrite run_get_category_missing by eassumption.
  reflexivity.
Qed.

Lemma category_module_without_row_raises_witness :
  run scripted (Category.run_module Demo.category_task)
      [Demo.no_rows; Demo.success; Demo.no_rows]
  = (Raised TypeError,
     [(category_lookup Demo.snipe Demo.key "servers" "asset", Demo.no_rows);
      (category_create Demo.snipe Demo.key "servers" "asset", Demo.success);
      (category_lookup Demo.snipe Demo.key "servers" "asset", Demo.no_rows)],
     []).
Proof.
  apply (category_module_without_row_raises (list response) scripted
           Demo.category_task
           [Demo.no_rows; Demo.success; Demo.no_rows]
           [Demo.success; Demo.no_rows] [Demo.no_rows] []
           Demo.no_rows Demo.success Demo.no_rows);
    try reflexivity.
  - do 2 eexists. repeat split; reflexivity.
  - do 2 eexists. repeat split; reflexivity.
  - do 2 eexists. repeat split; reflexivity.
Defined.

(** ** Every request, whatever the operation *)

Lemma written_request_well_formed (u k : string) (d : bool) (rq : request) :
  written_request u k d rq -> well_formed k rq.
Proof.
  unfold well_formed. intros []; simpl;
    (split; [reflexivity|]); (split; [|first [discriminate | reflexivity]]);
    try reflexivity; eexists; reflexivity.
Qed.

(** X15.  Every request of every operation carries the one header
    [Authorization: Bearer <api_key>]; [POST] and [PATCH] carry a JSON
    object and [GET] and [DELETE] no body; and only lookups carry query
    parameters. *)
Theorem every_request_is_well_formed {A : Type} (op : operation A) :
  forall (server : Type) (handle : server -> request -> response * server) s,
    Forall (well_formed (api_key_of op)) (requests_of handle (program op) s).
Proof.
  intros server handle s.
  apply only_requests_run.
  eapply only_requests_weaken; [|apply operation_footprint].
  intros rq. apply written_request_well_formed.
Qed.

(** ** Answers that are not JSON *)

Lemma decodes_first_bind {A B : Type} (p : prog A) (f : A -> prog B) :
  decodes_first p -> (forall a, decodes_first (f a)) ->
  decodes_first (bind p f).
Proof.
  intros Hp Hf. induction p as [a|e|msg|r|rq k IH]; simpl; auto.
  destruct Hp as [Hnone Hk]. split.
  - rewrite Hnone. reflexivity.
  - intro resp. apply IH, Hk.
Qed.

Lemma decodes_first_run {A : Type} (p : prog A) :
  decodes_first p ->
  forall (server : Type) (handle : server -> request -> response * server) s
         l1 rq l2,
    log_of handle p s = (l1 ++ (rq, None) :: l2)%list ->
    l2 = [] /\ outcome_of handle p s = Raised JSONDecodeError.
Proof.
  intros Hp server handle. unfold log_of, outcome_of.
  induction p as [a|e|msg|r|rq0 k IH]; intros s l1 rq l2;
    simpl; try (destruct l1; discriminate).
  destruct (handle s rq0) as [resp0 s'] eqn:Eh.
  destruct Hp as [Hnone Hk].
  specialize (IH resp0 (Hk resp0) s').
  destruct (run handle (k resp0) s') as [[o l] s''] eqn:Er. simpl in *.
  destruct l1 as [|x l1]; simpl; intros El.
  - injection El as -> -> <-.
    rewrite Hnone in Er. simpl in Er. injection Er as <- <- _.
    split; reflexivity.
  - injection El as _ El. eapply IH; eauto.
Qed.

Lemma call_check_decodes (rq : request) (what : string) :
  decodes_first (response <- Call rq Ret ;; check_error what response).
Proof.
  simpl. split; [reflexivity|]. intro resp.
  unfold check_error. prog_cases; exact I.
Qed.

Lemma get_category_decodes (u k n t : string) :
  decodes_first (get_category u k n t).
Proof.
  unfold get_category, requests_get. simpl.
  split; [reflexivity|]. intro resp. prog_cases; exact I.
Qed.

Lemma get_model_decodes (u k n : string) : decodes_first (get_model u k n).
Proof.
  unfold get_model, requests_get. simpl.
  split; [reflexivity|]. intro resp. prog_cases; exact I.
Qed.

Lemma get_entry_decodes (u k t : string) : decodes_first (get_entry u k t).
Proof.
  unfold get_entry, requests_get. simpl.
  split; [reflexivity|]. intro resp. prog_cases; exact I.
Qed.

Lemma create_category_decodes (u k n t : string) (d : bool) :
  decodes_first (create_category u k n t d).
Proof.
  unfold create_category.
  apply decodes_first_bind; [apply get_category_decodes|]. intro category.
  destruct (truthy category); cbn [negb andb]; [exact I|].
  destruct d; [exact I|]. apply call_check_decodes.
Qed.

Lemma create_model_decodes (u k n : string) (c : value) (d : bool)
  (m : option Z) :
  decodes_first (create_model u k n c d m).
Proof.
  unfold create_model.
  apply decodes_first_bind; [apply get_model_decodes|]. intro model.
  destruct (truthy model); cbn [negb andb]; [exact I|].
  destruct d; [exact I|]. apply call_check_decodes.
Qed.

Lemma create_entry_decodes (u k t : string) (st : Z) (mo : value) (d : bool) :
  decodes_first (create_entry u k t st mo d).
Proof.
  unfold create_entry.
  apply decodes_first_bind; [apply get_entry_decodes|]. intro entry.
  destruct (truthy entry); cbn [negb andb]; [exact I|].
  destruct d; [exact I|]. apply call_check_decodes.
Qed.

Lemma delete_entry_decodes (u k t : string) (d : bool) :
  decodes_first (delete_entry u k t d).
Proof.
  unfold delete_entry.
  apply decodes_first_bind; [apply get_entry_decodes|]. intro entry.
  destruct (truthy entry); cbn [negb andb]; [|exact I].
  destruct d; [exact I|].
  destruct (getitem entry "id") as [e|id]; cbn [bind lift]; [exact I|].
  apply call_check_decodes.
Qed.

Lemma update_entry_model_decodes (u k t : string) (mo : value) (d : bool) :
  decodes_first (update_entry_model u k t mo d).
Proof.
  unfold update_entry_model.
  apply decodes_first_bind; [apply get_entry_decodes|]. intro entry.
  unfold remote_id.
  destruct (getitem entry "model") as [e|sub]; cbn [bind lift]; [exact I|].
  destruct (getitem sub "id") as [e|current]; cbn [bind lift]; [exact I|].
  destruct (Py.eq current mo); cbn [negb andb]; [exact I|].
  destruct d; [exact I|].
  destruct (getitem entry "id") as [e|id]; cbn [bind lift]; [exact I|].
  apply call_check_decodes.
Qed.

Lemma update_entry_status_label_decodes (u k t : string) (st : Z) (d : bool) :
  decodes_first (update_entry_status_label u k t st d).
Proof.
  unfold update_entry_status_label.
  apply decodes_first_bind; [apply get_entry_decodes|]. intro entry.
  unfold remote_id.
  destruct (getitem entry "status_label") as [e|sub]; cbn [bind lift];
    [exact I|].
  destruct (getitem sub "id") as [e|current]; cbn [bind lift]; [exact I|].
  destruct (Py.eq current (PInt st)); cbn [negb andb]; [exact I|].
  destruct d; [exact I|].
  destruct (getitem entry "id") as [e|id]; cbn [bind lift]; [exact I|].
  apply call_check_decodes.
Qed.

Lemma operation_decodes {A : Type} (op : operation A) :
  decodes_first (program op).
Proof.
  destruct op; cbn [program].
  - apply get_category_decodes.
  - apply get_model_decodes.
  - apply get_entry_decodes.
  - apply create_category_decodes.
  - apply create_model_decodes.
  - apply create_entry_decodes.
  - apply delete_entry_decodes.
  - apply update_entry_model_decodes.
  - apply update_entry_status_label_decodes.
  - unfold Category.run_module.
    apply decodes_first_bind; [apply create_category_decodes|]. intro changed.
    apply decodes_first_bind; [apply get_category_decodes|]. intro category.
    prog_cases; exact I.
  - unfold Model.run_module.
    apply decodes_first_bind; [apply get_category_decodes|]. intro category.
    destruct (truthy category); cbn [negb]; [|exact I].
    destruct (getitem category "id") as [e|id]; cbn [bind lift]; [exact I|].
    apply decodes_first_bind; [apply create_model_decodes|]. intro changed.
    exact I.
  - unfold Entry.run_module, Entry.verify_params.
    destruct (Entry.state m).
    + destruct (Entry.unset (Entry.model_name m)); cbn [bind]; [exact I|].
      destruct (Entry.model_name m) as [name|]; [|exact I].
      apply decodes_first_bind; [apply get_model_decodes|]. intro model.
      destruct (truthy model); cbn [negb]; [|exact I].
      destruct (getitem model "id") as [e|id]; cbn [bind lift]; [exact I|].
      apply decodes_first_bind; [apply create_entry_decodes|]. intro changed.
      apply decodes_first_bind; [apply update_entry_model_decodes|].
      intro updated.
      apply decodes_first_bind; [apply update_entry_status_label_decodes|].
      intro updated'. exact I.
    + cbn [bind].
      apply decodes_first_bind; [apply delete_entry_decodes|]. intro changed.
      exact I.
Qed.

(** X16.  In the run of any operation against any service: an answer whose
    body is not JSON is the last exchange of the run, and the run ends in an
    uncaught [JSONDecodeError]; nothing is sent after it and neither
    [fail_json] nor [exit_json] is reached. *)
Theorem answer_that_is_not_json_is_fatal {A : Type} (op : operation A)
  (server : Type) (handle : server -> request -> response * server) s
  (l1 l2 : list exchange) (rq : request) :
  log_of handle (program op) s = (l1 ++ (rq, None) :: l2)%list ->
  l2 = [] /\ outcome_of handle (program op) s = Raised JSONDecodeError.
Proof.
  intro Hlog.
  exact (decodes_first_run (program op) (operation_decodes op) server handle
                           s l1 rq l2 Hlog).
Qed.

Lemma answer_that_is_not_json_is_fatal_witness :
  log_of scripted (program (op_category_module Demo.category_task))
         [Demo.no_rows; None; Demo.category_rows]
  = ([(category_lookup Demo.snipe Demo.key "servers" "asset", Demo.no_rows)]
     ++ (category_create Demo.snipe Demo.key "servers" "asset", None)
     :: [])%list /\
  outcome_of scripted (program (op_category_module Demo.category_task))
             [Demo.no_rows; None; Demo.category_rows]
  = Raised JSONDecodeError.
Proof.
  split; [reflexivity|].
  apply (answer_that_is_not_json_is_fatal
           (op_category_module Demo.category_task) (list response) scripted
           [Demo.no_rows; None; Demo.category_rows]
           [(category_lookup Demo.snipe Demo.key "servers" "asset",
             Demo.no_rows)]
           []
           (category_create Demo.snipe Demo.key "servers" "asset")).
  reflexivity.
Defined.

(** ** The number of requests *)

Lemma within_any {A : Type} (w : request -> nat) (n : nat) (p : prog A) :
  only_requests (fun _ => False) p -> within w n p.
Proof. destruct p; simpl; auto. intros [[] _]. Qed.

Lemma within_mono {A : Type} (w : request -> nat) (n m : nat) (p : prog A) :
  n <= m -> within w n p -> within w m p.
Proof.
  revert n m. induction p as [a|e|msg|r|rq k IH]; intros n m Hle; simpl; auto.
  intros [Hw Hk]. split; [lia|]. intro resp.
  apply (IH resp (n - w rq) (m - w rq)); [lia | apply Hk].
Qed.

Lemma within_bind {A B : Type} (w : request -> nat) (n m : nat) (p : prog A)
  (f : A -> prog B) :
  within w n p -> (forall a, within w m (f a)) -> within w (n + m) (bind p f).
Proof.
  revert n. induction p as [a|e|msg|r|rq k IH]; intros n Hp Hf; simpl; auto.
  - apply within_mono with (n := m); [lia | apply Hf].
  - destruct Hp as [Hw Hk]. split; [lia|]. intro resp.
    replace (n + m - w rq) with ((n - w rq) + m) by lia.
    apply IH; [apply Hk | exact Hf].
Qed.

Lemma within_run {A : Type} (w : request -> nat) (n : nat) (p : prog A) :
  within w n p ->
  forall (server : Type) (handle : server -> request -> response * server) s,
    list_sum (map w (requests_of handle p s)) <= n.
Proof.
  intros Hp server handle. unfold requests_of, log_of.
  revert n Hp. induction p as [a|e|msg|r|rq k IH]; intros n Hp s; simpl;
    try lia.
  destruct Hp as [Hw Hk].
  destruct (handle s rq) as [resp s'].
  specialize (IH resp (n - w rq) (Hk resp) s').
  destruct (run handle (k resp) s') as [[o l] s'']. simpl in *. lia.
Qed.

Lemma sum_each (l : list request) : list_sum (map each l) = length l.
Proof. induction l as [|rq l IH]; simpl; [reflexivity | rewrite IH; reflexivity]. Qed.

Lemma sum_each_mutating (l : list request) :
  list_sum (map each_mutating l) = length (filter mutating l).
Proof.
  induction l as [|rq l IH]; simpl; [reflexivity|].
  unfold each_mutating at 1. destruct (mutating rq); simpl; rewrite IH;
    reflexivity.
Qed.

Section Budget.

(** A weight that charges a lookup [a] at most and any request [b] at most. *)
Variable w : request -> nat.
Variables a b : nat.
Hypothesis lookup_weight : forall rq, meth rq = GET -> w rq <= a.
Hypothesis any_weight : forall rq, w rq <= b.

Lemma get_category_within (u k n t : string) :
  within w a (get_category u k n t).
Proof.
  unfold get_category, requests_get. simpl.
  split; [apply lookup_weight; reflexivity|]. intro resp.
  prog_cases; exact I.
Qed.

Lemma get_model_within (u k n : string) : within w a (get_model u k n).
Proof.
  unfold get_model, requests_get. simpl.
  split; [apply lookup_weight; reflexivity|]. intro resp.
  prog_cases; exact I.
Qed.

Lemma get_entry_within (u k t : string) : within w a (get_entry u k t).
Proof.
  unfold get_entry, requests_get. simpl.
  split; [apply lookup_weight; reflexivity|]. intro resp.
  prog_cases; exact I.
Qed.

Lemma call_check_within (rq : request) (what : string) :
  within w b (response <- Call rq Ret ;; check_error what response).
Proof.
  simpl. split; [apply any_weight|]. intro resp.
  unfold check_error. prog_cases; exact I.
Qed.

Lemma create_category_within (u k n t : string) (d : bool) :
  within w (a + b) (create_category u k n t d).
Proof.
  unfold create_category.
  apply within_bind; [apply get_category_within|]. intro category.
  destruct (truthy category); cbn [negb andb]; [exact I|].
  destruct d; [exact I|]. apply call_check_within.
Qed.

Lemma create_model_within (u k n : string) (c : value) (d : bool)
  (m : option Z) :
  within w (a + b) (create_model u k n c d m).
Proof.
  unfold create_model.
  apply within_bind; [apply get_model_within|]. intro model.
  destruct (truthy model); cbn [negb andb]; [exact I|].
  destruct d; [exact I|]. apply call_check_within.
Qed.

Lemma create_entry_within (u k t : string) (st : Z) (mo : value) (d : bool) :
  within w (a + b) (create_entry u k t st mo d).
Proof.
  unfold create_entry.
  apply within_bind; [apply get_entry_within|]. intro entry.
  destruct (truthy entry); cbn [negb andb]; [exact I|].
  destruct d; [exact I|]. apply call_check_within.
Qed.

Lemma delete_entry_within (u k t : string) (d : bool) :
  within w (a + b) (delete_entry u k t d).
Proof.
  unfold delete_entry.
  apply within_bind; [apply get_entry_within|]. intro entry.
  destruct (truthy entry); cbn [negb andb]; [|exact I].
  destruct d; [exact I|].
  destruct (getitem entry "id") as [e|id]; cbn [bind lift]; [exact I|].
  apply call_check_within.
Qed.

Lemma update_entry_model_within (u k t : string) (mo : value) (d : bool) :
  within w (a + b) (update_entry_model u k t mo d).
Proof.
  unfold update_entry_model.
  apply within_bind; [apply get_entry_within|]. intro entry.
  unfold remote_id.
  destruct (getitem entry "model") as [e|sub]; cbn [bind lift]; [exact I|].
  destruct (getitem sub "id") as [e|current]; cbn [bind lift]; [exact I|].
  destruct (Py.eq current mo); cbn [negb andb]; [exact I|].
  destruct d; [exact I|].
  destruct (getitem entry "id") as [e|id]; cbn [bind lift]; [exact I|].
  apply call_check_within.
Qed.

Lemma update_entry_status_label_within (u k t : string) (st : Z) (d : bool) :
  within w (a + b) (update_entry_status_label u k t st d).
Proof.
  unfold update_entry_status_label.
  apply within_bind; [apply get_entry_within|]. intro entry.
  unfold remote_id.
  destruct (getitem entry "status_label") as [e|sub]; cbn [bind lift];
    [exact I|].
  destruct (getitem sub "id") as [e|current]; cbn [bind lift]; [exact I|].
  destruct (Py.eq current (PInt st)); cbn [negb andb]; [exact I|].
  destruct d; [exact I|].
  destruct (getitem entry "id") as [e|id]; cbn [bind lift]; [exact I|].
  apply call_check_within.
Qed.

Lemma category_module_within (m : Category.params) :
  within w (a + b + a) (Category.run_module m).
Proof.
  unfold Category.run_module.
  apply within_bind; [apply create_category_within|]. intro changed.
  replace a with (a + 0) at 1 by lia.
  apply within_bind; [apply get_category_within|]. intro category.
  prog_cases; exact I.
Qed.

Lemma model_module_within (m : Model.params) :
  within w (a + (a + b)) (Model.run_module m).
Proof.
  unfold Model.run_module.
  apply within_bind; [apply get_category_within|]. intro category.
  destruct (truthy category); cbn [negb]; [|exact I].
  destruct (getitem category "id") as [e|id]; cbn [bind lift]; [exact I|].
  replace (a + b) with (a + b + 0) by lia.
  apply within_bind; [apply create_model_within|]. intro changed. exact I.
Qed.

Lemma entry_module_within (m : Entry.params) :
  within w (a + ((a + b) + ((a + b) + (a + b)))) (Entry.run_module m).
Proof.
  unfold Entry.run_module, Entry.verify_params.
  destruct (Entry.state m).
  - destruct (Entry.unset (Entry.model_name m)); cbn [bind]; [exact I|].
    destruct (Entry.model_name m) as [name|]; [|exact I].
    apply within_bind; [apply get_model_within|]. intro model.
    destruct (truthy model); cbn [negb]; [|exact I].
    destruct (getitem model "id") as [e|id]; cbn [bind lift]; [exact I|].
    apply within_bind; [apply create_entry_within|]. intro changed.
    apply within_bind; [apply update_entry_model_within|]. intro updated.
    replace (a + b) with (a + b + 0) by lia.
    apply within_bind; [apply update_entry_status_label_within|].
    intro updated'. exact I.
  - cbn [bind].
    apply within_mono with (n := a + b + 0); [lia|].
    apply within_bind; [apply delete_entry_within|]. intro changed. exact I.
Qed.

End Budget.

Lemma operation_within {A : Type} (op : operation A) :
  within each (request_budget op) (program op) /\
  within each_mutating (mutation_budget op) (program op).
Proof.
  assert (He : forall rq, meth rq = GET -> each rq <= 1) by (intros; unfold each; lia).
  assert (He' : forall rq, each rq <= 1) by (intros; unfold each; lia).
  assert (Hm : forall rq, meth rq = GET -> each_mutating rq <= 0)
    by (intros rq H; unfold each_mutating, mutating; rewrite H; lia).
  assert (Hm' : forall rq, each_mutating rq <= 1)
    by (intros rq; unfold each_mutating; destruct (mutating rq); lia).
  destruct op; cbn [program request_budget mutation_budget]; split.
  - apply (get_category_within each 1 He).
  - apply (get_category_within each_mutating 0 Hm).
  - apply (get_model_within each 1 He).
  - apply (get_model_within each_mutating 0 Hm).
  - apply (get_entry_within each 1 He).
  - apply (get_entry_within each_mutating 0 Hm).
  - apply (create_category_within each 1 1 He He').
  - apply (create_category_within each_mutating 0 1 Hm Hm').
  - apply (create_model_within each 1 1 He He').
  - apply (create_model_within each_mutating 0 1 Hm Hm').
  - apply (create_entry_within each 1 1 He He').
  - apply (create_entry_within each_mutating 0 1 Hm Hm').
  - apply (delete_entry_within each 1 1 He He').
  - apply (delete_entry_within each_mutating 0 1 Hm Hm').
  - apply (update_entry_model_within each 1 1 He He').
  - apply (update_entry_model_within each_mutating 0 1 Hm Hm').
  - apply (update_entry_status_label_within each 1 1 He He').
  - apply (update_entry_status_label_within each_mutating 0 1 Hm Hm').
  - apply (category_module_within each 1 1 He He').
  - apply (category_module_within each_mutating 0 1 Hm Hm').
  - apply (model_module_within each 1 1 He He').
  - apply (model_module_within each_mutating 0 1 Hm Hm').
  - apply (entry_module_within each 1 1 He He').
  - apply (entry_module_within each_mutating 0 1 Hm Hm').
Qed.

(** X17.  No operation retries or loops: against any service a lookup is one
    request, each function with a [dry_run] argument at most two of which at
    most one mutates, the category and model modules at most three with one
    mutation, and the entry module at most seven with three mutations. *)
Theorem requests_stay_within_budget {A : Type} (op : operation A) :
  forall (server : Type) (handle : server -> request -> response * server) s,
    length (requests_of handle (program op) s) <= request_budget op /\
    length (filter mutating (requests_of handle (program op) s))
    <= mutation_budget op.
Proof.
  intros server handle s. destruct (operation_within op) as [He Hm].
  split.
  - rewrite <- sum_each. apply within_run, He.
  - rewrite <- sum_each_mutating. apply within_run, Hm.
Qed.

(** ** What a dry run foretells *)

Lemma lookups_of_gets (l : list exchange) :
  Forall (fun rq => meth rq = GET) (map fst l) -> lookups_of l = l.
Proof.
  unfold lookups_of. induction l as [|x l IH]; simpl; [reflexivity|].
  intro H. inversion H as [|? ? Hx Hl]; subst.
  unfold mutating at 1. rewrite Hx. simpl. rewrite IH by assumption.
  reflexivity.
Qed.

Lemma lookups_of_app (l l' : list exchange) :
  lookups_of (l ++ l')%list = (lookups_of l ++ lookups_of l')%list.
Proof. unfold lookups_of. apply filter_app. Qed.

Lemma no_request_run {A : Type} (p : prog A) :
  only_requests (fun _ => False) p ->
  forall (server : Type) (handle : server -> request -> response * server)
         (s s' : server),
    log_of handle p s = [] /\
    outcome_of handle p s = outcome_of handle p s'.
Proof.
  intros Hp server handle s s'.
  destruct p; simpl in Hp; try (split; reflexivity).
  destruct Hp as [[] _].
Qed.

Section Foretell.

Variable server : Type.
Variable handle : server -> request -> response * server.

Lemma foretells_same {A : Type} (p : prog A) :
  only_requests (fun rq => meth rq = GET) p -> foretells server handle p p.
Proof.
  intros Hp s _. split; [reflexivity|].
  symmetry. apply lookups_of_gets.
  apply (only_requests_run _ p Hp server handle s).
Qed.

Lemma foretells_unfinished {A : Type} (f : prog A) (e : exn) :
  foretells server handle f (Raise e).
Proof. intros s H. discriminate H. Qed.

Lemma foretells_bind {A B : Type} (p : prog A) (f g : A -> prog B) :
  only_requests (fun rq => meth rq = GET) p ->
  (forall a, foretells server handle (f a) (g a)) ->
  foretells server handle (bind p f) (bind p g).
Proof.
  intros Hp Hfg s.
  pose proof (only_requests_run _ p Hp server handle s) as Hgets.
  unfold requests_of, outcome_of, log_of in *. rewrite !run_bind.
  destruct (run handle p s) as [[o l] s1]. simpl in Hgets.
  destruct o as [a|e|msg|r]; simpl.
  - specialize (Hfg a s1). unfold outcome_of, log_of in Hfg.
    destruct (run handle (f a) s1) as [[od ld] sd].
    destruct (run handle (g a) s1) as [[og lg] sg]. simpl in *.
    intro Hc. destruct (Hfg Hc) as [-> ->]. split; [reflexivity|].
    rewrite lookups_of_app, (lookups_of_gets l Hgets). reflexivity.
  - discriminate.
  - discriminate.
  - intros _. split; [reflexivity|].
    symmetry. apply lookups_of_gets, Hgets.
Qed.

Lemma foretells_then {A B : Type} (f g : prog A) (h : A -> prog B) :
  foretells server handle f g ->
  (forall a, only_requests (fun _ => False) (h a)) ->
  foretells server handle (bind f h) (bind g h).
Proof.
  intros Hfg Hh s. specialize (Hfg s).
  unfold outcome_of, log_of in *. rewrite !run_bind.
  destruct (run handle f s) as [[od ld] sd].
  destruct (run handle g s) as [[og lg] sg]. simpl in *.
  destruct og as [a|e|msg|r]; simpl.
  - destruct (Hfg eq_refl) as [-> ->].
    destruct (no_request_run (h a) (Hh a) server handle sd sg) as [Hlf Hof].
    destruct (no_request_run (h a) (Hh a) server handle sg sg) as [Hlg _].
    unfold outcome_of, log_of in *.
    destruct (run handle (h a) sd) as [[o1 l1] s1].
    destruct (run handle (h a) sg) as [[o2 l2] s2]. simpl in *.
    subst. intros _. rewrite !app_nil_r. split; reflexivity.
  - discriminate.
  - discriminate.
  - destruct (Hfg eq_refl) as [-> ->]. intros _. split; reflexivity.
Qed.

Lemma foretells_mutation (rq : request) (what : string) :
  mutating rq = true ->
  foretells server handle (Ret true)
            (response <- Call rq Ret ;; check_error what response).
Proof.
  intros Hm s. unfold outcome_of, log_of, lookups_of, check_error. simpl.
  destruct (handle s rq) as [resp s1].
  prog_cases; intro H; try discriminate H;
    rewrite Hm in *; try discriminate; split; reflexivity.
Qed.

Lemma get_category_gets (u k n t : string) :
  only_requests (fun rq => meth rq = GET) (get_category u k n t).
Proof. apply get_category_footprint. reflexivity. Qed.

Lemma get_model_gets (u k n : string) :
  only_requests (fun rq => meth rq = GET) (get_model u k n).
Proof. apply get_model_footprint. reflexivity. Qed.

Lemma get_entry_gets (u k t : string) :
  only_requests (fun rq => meth rq = GET) (get_entry u k t).
Proof. apply get_entry_footprint. reflexivity. Qed.

Lemma create_category_foretells (u k n t : string) :
  foretells server handle (create_category u k n t true)
            (create_category u k n t false).
Proof.
  unfold create_category.
  apply foretells_bind; [apply get_category_gets|]. intro category.
  destruct (truthy category); cbn [negb andb].
  - apply foretells_same. exact I.
  - apply foretells_mutation. reflexivity.
Qed.

Lemma create_model_foretells (u k n : string) (c : value) (m : option Z) :
  foretells server handle (create_model u k n c true m)
            (create_model u k n c false m).
Proof.
  unfold create_model.
  apply foretells_bind; [apply get_model_gets|]. intro model.
  destruct (truthy model); cbn [negb andb].
  - apply foretells_same. exact I.
  - apply foretells_mutation. reflexivity.
Qed.

Lemma create_entry_foretells (u k t : string) (st : Z) (mo : value) :
  foretells server handle (create_entry u k t st mo true)
            (create_entry u k t st mo false).
Proof.
  unfold create_entry.
  apply foretells_bind; [apply get_entry_gets|]. intro entry.
  destruct (truthy entry); cbn [negb andb].
  - apply foretells_same. exact I.
  - apply foretells_mutation. reflexivity.
Qed.

Lemma delete_entry_foretells (u k t : string) :
  foretells server handle (delete_entry u k t true)
            (delete_entry u k t false).
Proof.
  unfold delete_entry.
  apply foretells_bind; [apply get_entry_gets|]. intro entry.
  destruct (truthy entry); cbn [negb andb].
  - destruct (getitem entry "id") as [e|id]; cbn [bind lift].
    + apply foretells_unfinished.
    + apply foretells_mutation. reflexivity.
  - apply foretells_same. exact I.
Qed.

Lemma update_entry_model_foretells (u k t : string) (mo : value) :
  foretells server handle (update_entry_model u k t mo true)
            (update_entry_model u k t mo false).
Proof.
  unfold update_entry_model.
  apply foretells_bind; [apply get_entry_gets|]. intro entry.
  unfold remote_id.
  destruct (getitem entry "model") as [e|sub]; cbn [bind lift];
    [apply foretells_unfinished|].
  destruct (getitem sub "id") as [e|current]; cbn [bind lift];
    [apply foretells_unfinished|].
  destruct (Py.eq current mo); cbn [negb andb].
  - apply foretells_same. exact I.
  - destruct (getitem entry "id") as [e|id]; cbn [bind lift].
    + apply foretells_unfinished.
    + apply foretells_mutation. reflexivity.
Qed.

Lemma update_entry_status_label_foretells (u k t : string) (st : Z) :
  foretells server handle (update_entry_status_label u k t st true)
            (update_entry_status_label u k t st false).
Proof.
  unfold update_entry_status_label.
  apply foretells_bind; [apply get_entry_gets|]. intro entry.
  unfold remote_id.
  destruct (getitem entry "status_label") as [e|sub]; cbn [bind lift];
    [apply foretells_unfinished|].
  destruct (getitem sub "id") as [e|current]; cbn [bind lift];
    [apply foretells_unfinished|].
  destruct (Py.eq current (PInt st)); cbn [negb andb].
  - apply foretells_same. exact I.
  - destruct (getitem entry "id") as [e|id]; cbn [bind lift].
    + apply foretells_unfinished.
    + apply foretells_mutation. reflexivity.
Qed.

Lemma operation_foretells {A : Type} (op : operation A) :
  single_decision op = true ->
  foretells server handle (program (with_dry_run true op))
            (program (with_dry_run false op)).
Proof.
  destruct op; cbn [single_decision with_dry_run program];
    intro Hs; try discriminate Hs.
  - apply create_category_foretells.
  - apply create_model_foretells.
  - apply create_entry_foretells.
  - apply delete_entry_foretells.
  - apply update_entry_model_foretells.
  - apply update_entry_status_label_foretells.
  - unfold Model.run_module. cbn [Model.snipe_url Model.api_key Model.name
      Model.category Model.manufacturer_id Model.dry_run].
    apply foretells_bind; [apply get_category_gets|]. intro category.
    destruct (truthy category); cbn [negb].
    + destruct (getitem category "id") as [e|id]; cbn [bind lift].
      * apply foretells_unfinished.
      * apply foretells_then; [apply create_model_foretells|].
        intro changed. exact I.
    + apply foretells_same. exact I.
  - unfold Entry.run_module, Entry.verify_params.
    cbn [Entry.snipe_url Entry.api_key Entry.asset_tag Entry.status_id
         Entry.model_name Entry.state Entry.check_mode].
    destruct (Entry.state m); [discriminate Hs|]. cbn [bind].
    apply foretells_then; [apply delete_entry_foretells|].
    intro changed. exact I.
Qed.

End Foretell.

(** X18.  For the six functions with a [dry_run] argument, the model module
    and the removing entry module, on any service and from any state: if the
    real run comes to its end (returns, or reaches [exit_json]), the dry run
    started from the same state ends the same way, with the same [changed],
    and its exchanges are exactly the lookups of the real run. *)
Theorem dry_run_foretells_a_finished_real_run {A : Type} (op : operation A)
  (server : Type) (handle : server -> request -> response * server)
  (s : server) :
  single_decision op = true ->
  completed (outcome_of handle (program (with_dry_run false op)) s) = true ->
  outcome_of handle (program (with_dry_run true op)) s
  = outcome_of handle (program (with_dry_run false op)) s /\
  log_of handle (program (with_dry_run true op)) s
  = lookups_of (log_of handle (program (with_dry_run false op)) s).
Proof.
  intros Hs Hc. exact (operation_foretells server handle op Hs s Hc).
Qed.

Lemma dry_run_foretells_a_finished_real_run_witness :
  outcome_of Demo.one_asset
             (program (op_entry_module (Demo.absent_task true)))
             (Some (Demo.asset 3 2))
  = Exited (mkResult true None) /\
  log_of Demo.one_asset
         (program (op_entry_module (Demo.absent_task true)))
         (Some (Demo.asset 3 2))
  = [(entry_lookup Demo.snipe Demo.key Demo.tag, Some (Demo.asset 3 2))].
Proof.
  apply (dry_run_foretells_a_finished_real_run
           (op_entry_module (Demo.absent_task false)) (option value)
           Demo.one_asset (Some (Demo.asset 3 2)));
    reflexivity.
Defined.

(** ** [snipeit_entry.py]: the module on an entry of another model *)

(** X19.  A real run with [state=present] on an entry that exists under
    another model: nothing is posted; the one [PATCH] goes to the entry's own
    id and carries, as [model_id], the id of the model found by name; the
    status label, read again after the [PATCH] and found as asked for, is
    left alone; the module exits with [changed=True]. *)
Theorem entry_module_moves_entry_to_model (server : Type)
  (handle : server -> request -> response * server) (m : Entry.params)
  (name : string) (s s1 s2 : server) (r0 r1 r2 r3 : response)
  (model model_id entry id current_model entry' current_status : value) :
  Entry.state m = Entry.present ->
  Entry.check_mode m = false ->
  Entry.model_name m = Some name ->
  name <> "" ->
  handle s (model_lookup (Entry.snipe_url m) (Entry.api_key m) name)
  = (r0, s1) ->
  row_found r0 model -> truthy model = true ->
  getitem model "id" = inr model_id ->
  handle s1 (entry_lookup (Entry.snipe_url m) (Entry.api_key m)
                          (Entry.asset_tag m)) = (r1, s1) ->
  entry_found r1 entry ->
  remote_field entry "model" current_model ->
  Py.eq current_model model_id = false ->
  getitem entry "id" = inr id ->
  handle s1 (entry_patch (Entry.snipe_url m) (Entry.api_key m) id "model_id"
                         model_id) = (r2, s2) ->
  accepted r2 ->
  handle s2 (entry_lookup (Entry.snipe_url m) (Entry.api_key m)
                          (Entry.asset_tag m)) = (r3, s2) ->
  entry_found r3 entry' ->
  remote_field entry' "status_label" current_status ->
  Py.eq current_status (PInt (Entry.status_id m)) = true ->
  run handle (Entry.run_module m) s
  = (Exited (mkResult true None),
     [(model_lookup (Entry.snipe_url m) (Entry.api_key m) name, r0);
      (entry_lookup (Entry.snipe_url m) (Entry.api_key m)
                    (Entry.asset_tag m), r1);
      (entry_lookup (Entry.snipe_url m) (Entry.api_key m)
                    (Entry.asset_tag m), r1);
      (entry_patch (Entry.snipe_url m) (Entry.api_key m) id "model_id"
                   model_id, r2);
      (entry_lookup (Entry.snipe_url m) (Entry.api_key m)
                    (Entry.asset_tag m), r3)], s2).
Proof.
  intros Hstate Hreal Hname Hne H0 Hf Ht Hid H1 Hfound Hmo Hmo_ne Heid
         H2 Ha H3 Hfound' Hst Hst_eq.
  unfold Entry.run_module, Entry.verify_params.
  rewrite Hstate, Hname, Hreal. unfold Entry.unset.
  destruct (String.eqb_spec name "") as [E|_]; [contradiction|].
  cbn [bind].
  rewrite run_bind. erewrite run_get_model_found by eassumption.
  run_simpl. rewrite Ht. run_simpl. rewrite Hid. run_simpl.
  rewrite run_bind. erewrite run_create_entry_existing by eassumption.
  run_simpl.
  rewrite run_bind. erewrite run_update_entry_model_differs by eassumption.
  run_simpl.
  rewrite run_bind.
  erewrite run_update_entry_status_label_same by eassumption.
  reflexivity.
Qed.

Lemma entry_module_moves_entry_to_model_witness :
  run Demo.one_asset (Entry.run_module (Demo.present_task false))
      (Some (Demo.asset 1 2))
  = (Exited (mkResult true None),
     [(model_lookup Demo.snipe Demo.key "server", Demo.model_rows);
      (entry_lookup Demo.snipe Demo.key Demo.tag, Some (Demo.asset 1 2));
      (entry_lookup Demo.snipe Demo.key Demo.tag, Some (Demo.asset 1 2));
      (entry_patch Demo.snipe Demo.key (PInt 9) "model_id" (PInt 3),
       Demo.success);
      (entry_lookup Demo.snipe Demo.key Demo.tag, Some (Demo.asset 1 2))],
     Some (Demo.asset 1 2)).
Proof.
  apply (entry_module_moves_entry_to_model (option value) Demo.one_asset
           (Demo.present_task false) "server" (Some (Demo.asset 1 2))
           (Some (Demo.asset 1 2)) (Some (Demo.asset 1 2))
           Demo.model_rows (Some (Demo.asset 1 2)) Demo.success
           (Some (Demo.asset 1 2)) Demo.server_model (PInt 3)
           (Demo.asset 1 2) (PInt 9) (PInt 1) (Demo.asset 1 2) (PInt 2));
    try reflexivity.
  - discriminate.
  - do 3 eexists. repeat split; reflexivity.
  - split; reflexivity.
  - eexists. split; reflexivity.
  - do 2 eexists. repeat split; reflexivity.
  - split; reflexivity.
  - eexists. split; reflexivity.
Defined.
